(** * Order execution and position risk engine of nof1.ai

    A shallow embedding of the trading core (TypeScript):
      - src/unnamed/part_003 (risk control)     [checkDailyLossLimit]
      - src/lib/ai/learning-feedback.ts         [getDynamicRiskAdjustment]
      - src/lib/trading/biance.ts               [adjustPrecision], [checkMinNotional],
                                                [getPositionMode], [buy]
      - src/lib/trading/sell.ts                 [adjustPrecision], [sell]
      - src/unnamed/part_002 (imported as ./stop-loss-take-profit-official)
                                                [getPositionMode],
                                                [cancelStopLossTakeProfitForPosition],
                                                [setStopLossTakeProfit]
      - src/lib/trading/binance-official.ts     [getBinanceInstance], [ensureTimeSync]

    and, beyond these:
      - src/unnamed/part_003                    [checkBuyRisk]
      - src/unnamed/part_002                    [fetchPositions] (the conversion),
                                                [cancelStopLossTakeProfit],
                                                [updateTrailingStop],
                                                [setAutoStopLossTakeProfitForAll]
      - src/lib/trading/account-information-and-performance.ts
                                                [getAccountInformationAndPerformance],
                                                [checkAndRecordClosedPositions]
      - src/lib/ai/learning-feedback.ts         [analyzeTradeOutcome], [getLearningStats]
      - src/lib/trading/binance-official.ts     [syncServerTime], [getAdjustedTimestamp],
                                                [withRetry], [fetchJson]
      - src/app/api/cron/20-seconds-metrics-interval/route.ts
                                                the stored metrics

    JavaScript numbers are IEEE 754 binary64 values; they are modelled by the
    standard library's [spec_float] at precision 53 and exponent bound 1024,
    so every arithmetic step rounds the way the program does.  Calls to the
    exchange are answered by an oracle that sees the history of the run; each
    call, each sleep and the one warning that matters are recorded in a trace. *)

From Stdlib Require Import ZArith List Ascii String Bool Lia.
From Stdlib Require Import Floats.SpecFloat.
Import ListNotations.
Open Scope Z_scope.

(* ================================================================= *)
(** ** JavaScript numbers *)

Definition number : Type := spec_float.

Module JS.

Definition prec : Z := 53.
Definition emax : Z := 1024.

(** An integer literal (exact below 2^53). *)
Definition ofZ (z : Z) : number := binary_normalize prec emax z 0 false.

Definition add : number -> number -> number := SFadd prec emax.
Definition sub : number -> number -> number := SFsub prec emax.
Definition mul : number -> number -> number := SFmul prec emax.
Definition div : number -> number -> number := SFdiv prec emax.
Definition neg : number -> number := SFopp.

(** [x < y], [x <= y], [x > y], [x >= y]: all false when a NaN is involved. *)
Definition ltb (x y : number) : bool := SFltb x y.
Definition leb (x y : number) : bool := SFleb x y.
Definition gtb (x y : number) : bool := SFltb y x.
Definition geb (x y : number) : bool := SFleb y x.
(** [x === y] on numbers. *)
Definition eqb (x y : number) : bool := SFeqb x y.

(** A decimal literal [n / 10^d], for instance [dec 75 2] for [0.75]: the
    double nearest to the decimal, which is what a correctly rounded division
    of two exact integers yields (both [n] and [10^d] are exact for the
    literals used here: [|n| < 2^53] and [d <= 22]). *)
Definition dec (n : Z) (d : nat) : number :=
  div (ofZ n) (ofZ (10 ^ Z.of_nat d)).

Definition NaN : number := S754_nan.

(** Truthiness of a number: [0], [-0] and [NaN] are falsy. *)
Definition truthy (x : number) : bool :=
  match x with
  | S754_zero _ | S754_nan => false
  | _ => true
  end.

(** An optional numeric field ([price?: number]): [undefined] is falsy. *)
Definition truthyO (x : option number) : bool :=
  match x with
  | Some v => truthy v
  | None => false
  end.

(** A string is truthy when it is not empty. *)
Definition truthyS (s : string) : bool :=
  match s with
  | EmptyString => false
  | _ => true
  end.

Definition abs : number -> number := SFabs.

Definition signedMantissa (s : bool) (m : positive) : Z :=
  if s then Zneg m else Zpos m.

(** [Math.floor]: a finite value [±m·2^e] with [e < 0] is shifted right,
    which floors towards minus infinity. *)
Definition floor (x : number) : number :=
  match x with
  | S754_finite s m e =>
      if 0 <=? e then x
      else binary_normalize prec emax (Z.shiftr (signedMantissa s m) (- e)) 0 false
  | _ => x
  end.

(** [Math.ceil]: minus the floor of the opposite; a negative fraction gives [-0]. *)
Definition ceil (x : number) : number :=
  match x with
  | S754_finite s m e =>
      if 0 <=? e then x
      else binary_normalize prec emax
             (- Z.shiftr (signedMantissa (negb s) m) (- e)) 0 true
  | _ => x
  end.

(** [Math.min] and [Math.max] of two numbers: NaN if either is NaN,
    and [-0] counts as smaller than [+0]. *)
Definition min (x y : number) : number :=
  match SFcompare x y with
  | None => NaN
  | Some Lt => x
  | Some Gt => y
  | Some Eq => match x with S754_zero true => x | _ => y end
  end.

Definition max (x y : number) : number :=
  match SFcompare x y with
  | None => NaN
  | Some Lt => y
  | Some Gt => x
  | Some Eq => match x with S754_zero false => x | _ => y end
  end.

(** [Math.pow(10, n)] for the small integer exponents the program uses:
    exact for [n >= 0], the nearest double to [10^n] for [n < 0]. *)
Definition pow10 (n : Z) : number :=
  if 0 <=? n then ofZ (10 ^ n) else div (ofZ 1) (ofZ (10 ^ (- n))).

(** [x.toString()] and [x.toFixed(2)] as sent on the wire; the text itself is
    not computed, only which of the two conversions was applied to which
    number. *)
Inductive wire : Type :=
| ToString (x : number)
| ToFixed2 (x : number).

End JS.

(* ================================================================= *)
(** ** Risk control: [checkDailyLossLimit] (src/unnamed/part_003) *)

Module Risk.

Inductive TradingMode : Type := DryRun | Live.

Record RiskConfig : Type := {
  tradingMode : TradingMode;
  maxPositionSizeUSDT : number;
  maxLeverage : number;
  dailyLossLimitPercent : number
}.

(** The text of [reason] interpolates formatted numbers; the numbers are kept. *)
Inductive Reason : Type :=
| DailyLossLimitReached (lossPercent limit : number).

Record RiskCheckResult : Type := {
  allowed : bool;
  reason : option Reason
}.

Definition lossPercentOf (todayPnL initialCapital : number) : number :=
  JS.mul (JS.div (JS.abs todayPnL) initialCapital) (JS.ofZ 100).

Definition checkDailyLossLimit
  (todayPnL initialCapital : number) (config : RiskConfig) : RiskCheckResult :=
  let lossPercent := lossPercentOf todayPnL initialCapital in
  if JS.ltb todayPnL (JS.ofZ 0) && JS.geb lossPercent (dailyLossLimitPercent config)
  then {| allowed := false;
          reason := Some (DailyLossLimitReached lossPercent (dailyLossLimitPercent config)) |}
  else {| allowed := true; reason := None |}.

End Risk.

(* ================================================================= *)
(** ** Learning feedback: [getDynamicRiskAdjustment] (src/lib/ai/learning-feedback.ts) *)

Module Learning.

(** The fields of [LearningStats] the function reads. *)
Record LearningStats : Type := {
  win_rate : number;
  total_pnl : number
}.

Inductive Recommendation : Type :=
| RiskReduced | RiskIncreased | NormalRisk.

Record RiskAdjustment : Type := {
  leverage_multiplier : number;
  position_size_multiplier : number;
  confidence_threshold : number;
  recommendation : Recommendation
}.

(** The three values chosen from the win rate. *)
Definition byWinRate (stats : LearningStats) : number * number * number :=
  if JS.ltb (win_rate stats) (JS.ofZ 40) then
    (JS.dec 5 1, JS.dec 5 1, JS.dec 75 2)
  else if JS.ltb (win_rate stats) (JS.ofZ 50) then
    (JS.dec 7 1, JS.dec 7 1, JS.dec 7 1)
  else if JS.gtb (win_rate stats) (JS.ofZ 65) then
    (JS.dec 12 1, JS.dec 11 1, JS.dec 55 2)
  else
    (JS.ofZ 1, JS.ofZ 1, JS.dec 6 1).

Definition getDynamicRiskAdjustment (stats : LearningStats) : RiskAdjustment :=
  let '(leverageMultiplier, positionSizeMultiplier, confidenceThreshold) :=
    byWinRate stats in
  let '(leverageMultiplier, positionSizeMultiplier, confidenceThreshold) :=
    if JS.ltb (total_pnl stats) (JS.ofZ (-10)) then
      (JS.mul leverageMultiplier (JS.dec 6 1),
       JS.mul positionSizeMultiplier (JS.dec 6 1),
       JS.max confidenceThreshold (JS.dec 75 2))
    else (leverageMultiplier, positionSizeMultiplier, confidenceThreshold) in
  {| leverage_multiplier := leverageMultiplier;
     position_size_multiplier := positionSizeMultiplier;
     confidence_threshold := confidenceThreshold;
     recommendation :=
       if JS.ltb leverageMultiplier (JS.dec 8 1) then RiskReduced
       else if JS.gtb leverageMultiplier (JS.dec 11 1) then RiskIncreased
       else NormalRisk |}.

End Learning.

(* ================================================================= *)
(** ** Per-symbol precision: [SYMBOL_PRECISION], [adjustPrecision] *)

Module Precision.

Record Config : Type := {
  quantity : Z;        (* decimals of the quantity *)
  price : Z;           (* decimals of the price *)
  minNotional : number
}.

(** The rows of the object literal; [lookup] finds its own keys. *)
Definition Table : Type := list (string * Config).

Fixpoint lookup (t : Table) (symbol : string) : option Config :=
  match t with
  | [] => None
  | (k, c) :: rest => if String.eqb k symbol then Some c else lookup rest symbol
  end.

(** [{ quantity: 3, price: 2, minNotional: 5 }], the fallback. *)
Definition fallback : Config :=
  {| quantity := 3; price := 2; minNotional := JS.ofZ 5 |}.

(** The table is a plain object: [SYMBOL_PRECISION[symbol]] also finds the
    members it inherits from [Object.prototype].  Each of them is a function
    or an object, hence truthy, and none has a [quantity] or a
    [minNotional]. *)
Definition objectPrototypeKeys : list string :=
  [ "constructor"; "__proto__"; "toString"; "toLocaleString"; "valueOf";
    "hasOwnProperty"; "isPrototypeOf"; "propertyIsEnumerable";
    "__defineGetter__"; "__defineSetter__";
    "__lookupGetter__"; "__lookupSetter__" ]%string.

Definition inherited (symbol : string) : bool :=
  existsb (String.eqb symbol) objectPrototypeKeys.

(** What [SYMBOL_PRECISION[symbol] || fallback] evaluates to. *)
Inductive Resolved : Type :=
| Row (c : Config)     (* a row of the table, or the fallback *)
| Member.              (* an inherited member *)

Definition configOf (t : Table) (symbol : string) : Resolved :=
  match lookup t symbol with
  | Some c => Row c
  | None => if inherited symbol then Member else Row fallback
  end.

(** [Math.pow(10, config.quantity)]; the quantity of an inherited member is
    [undefined] and the power is NaN. *)
Definition factorOf (config : Resolved) : number :=
  match config with
  | Row c => JS.pow10 (quantity c)
  | Member => JS.NaN
  end.

(** [config.minNotional] as a comparison reads it: [undefined] compares as
    NaN. *)
Definition minNotionalOf (config : Resolved) : number :=
  match config with
  | Row c => minNotional c
  | Member => JS.NaN
  end.

Definition adjustPrecisionWith (t : Table) (amount : number) (symbol : string) : number :=
  let config := configOf t symbol in
  let factor := factorOf config in
  JS.div (JS.floor (JS.mul amount factor)) factor.

(** [Math.pow(10, -(SYMBOL_PRECISION[symbol]?.quantity || 3))]: a quantity
    of [0] is falsy and is replaced by [3], like a missing symbol. *)
Definition minAmountWith (t : Table) (symbol : string) : number :=
  let q := match lookup t symbol with
           | Some c => if quantity c =? 0 then 3 else quantity c
           | None => 3
           end in
  JS.pow10 (- q).

End Precision.

(* ================================================================= *)
(** ** Strings: [symbol.includes("/")] and [symbol.replace("/", "")] *)

Module Str.

Definition slash : Ascii.ascii := "/"%char.

Fixpoint includesSlash (s : string) : bool :=
  match s with
  | EmptyString => false
  | String c rest => if Ascii.eqb c slash then true else includesSlash rest
  end.

(** [replace] with a string pattern replaces the first occurrence only. *)
Fixpoint removeFirstSlash (s : string) : string :=
  match s with
  | EmptyString => EmptyString
  | String c rest => if Ascii.eqb c slash then rest else String c (removeFirstSlash rest)
  end.

End Str.

(* ================================================================= *)
(** ** The exchange boundary: orders, errors, events, the oracle *)

Inductive PositionMode : Type := ONE_WAY | DUAL_SIDE.
Inductive PositionSide : Type := LONG | SHORT.
Inductive OrderSide : Type := BUY | SELL.
Inductive OrderType : Type := MARKET | LIMIT | STOP_MARKET | TAKE_PROFIT_MARKET.

(** The options object passed to [newOrder]; an absent key is [None] or [false]. *)
Record OrderParams : Type := {
  p_quantity : option JS.wire;
  p_reduceOnly : bool;
  p_positionSide : option PositionSide;
  p_price : option JS.wire;
  p_timeInForceGTC : bool;
  p_stopPrice : option JS.wire;
  p_closePosition : bool
}.

(** [newOrder(symbol, side, type, options)]. *)
Record OrderRequest : Type := {
  o_symbol : string;
  o_side : OrderSide;
  o_type : OrderType;
  o_params : OrderParams
}.

(** [response.data] of a created order.  The exchange sends the numeric fields
    as text: [None] stands for an absent or empty field, [Some v] for a text
    that [parseFloat] reads as [v]. *)
Record OrderData : Type := {
  d_orderId : option Z;
  d_avgPrice : option number;
  d_price : option number;
  d_executedQty : option number;
  d_origQty : option number
}.

(** A thrown value: [error.message] and [error.response.data.msg]. *)
Record JsError : Type := {
  message : string;
  responseMsg : option string
}.

Definition newError (s : string) : JsError :=
  {| message := s; responseMsg := None |}.

(** [error?.response?.data?.msg || error.message] *)
Definition exchangeMsgOrMessage (e : JsError) : string :=
  match responseMsg e with
  | Some m => if JS.truthyS m then m else message e
  | None => message e
  end.

(** A position as [fetchPositions] returns it ([contracts] is an absolute value). *)
Inductive Side : Type := long | short.

Record Position : Type := {
  pos_symbol : string;
  pos_side : Side;
  pos_contracts : number;
  pos_entryPrice : number;
  pos_markPrice : number;
  pos_unrealizedPnl : number
}.

(** What [setStopLossTakeProfit] reads of the market state. *)
Record MarketState : Type := {
  current_price : number;
  atr_14 : option number          (* [longer_term?.atr_14] *)
}.

(** An open order as listed by the exchange. *)
Record OpenOrder : Type := {
  oo_orderId : Z;
  oo_type : string;
  oo_positionSide : string
}.

(** The one console line kept in the trace: the warning left when the
    protection could not be set after the entry. *)
Inductive Warning : Type :=
| FailedToSetSlTpAfter3Attempts.

Inductive Event : Type :=
| GetBinanceInstance
| SyncServerTime
| MarkPrice (symbol : string)
| ChangeInitialLeverage (symbol : string) (leverage : number)
| QueryPositionMode
| NewOrder (o : OrderRequest)
| FetchPositions
| GetCurrentMarketState (symbol : string)
| OpenOrders (symbol : string)
| CancelOrder (symbol : string) (orderId : Z)
| Sleep (ms : Z)
| Warn (w : Warning).

Inductive outcome (A : Type) : Type :=
| Ok (a : A)
| Thrown (e : JsError).
Arguments Ok {A} a.
Arguments Thrown {A} e.

(** The exchange and the session as seen by the engine.  Every answer may
    depend on the history of the run.  [session] is how the memoized
    initialization settled: the same for every caller. *)
Record Exchange : Type := {
  session : outcome unit;
  onMarkPrice : list Event -> string -> outcome number;
  onChangeInitialLeverage : list Event -> string -> number -> outcome unit;
  onPositionMode : list Event -> option bool;   (* [dualSidePosition], if any lookup worked *)
  onNewOrder : list Event -> OrderRequest -> outcome (option OrderData);
  onFetchPositions : list Event -> outcome (list Position);
  onGetCurrentMarketState : list Event -> string -> outcome MarketState;
  onOpenOrders : list Event -> string -> list OpenOrder;
  onCancelOrder : list Event -> string -> Z -> bool
}.

(** Module-level state: the trace and the two [positionModeCache] variables
    (one in the entry module, one in the protection module). *)
Record State : Type := {
  trace : list Event;
  modeCacheEntry : option PositionMode;
  modeCacheProtection : option PositionMode
}.

Definition record (ev : Event) (st : State) : State :=
  {| trace := trace st ++ [ev];
     modeCacheEntry := modeCacheEntry st;
     modeCacheProtection := modeCacheProtection st |}.

(** *** A state-and-exception monad for [async] code *)

Definition M (A : Type) : Type := State -> outcome A * State.

Definition ret {A} (a : A) : M A := fun st => (Ok a, st).

Definition throw {A} (e : JsError) : M A := fun st => (Thrown e, st).

Definition bind {A B} (m : M A) (f : A -> M B) : M B :=
  fun st =>
    match m st with
    | (Ok a, st') => f a st'
    | (Thrown e, st') => (Thrown e, st')
    end.

(** [try { m } catch (e) { h e }] *)
Definition tryCatch {A} (m : M A) (h : JsError -> M A) : M A :=
  fun st =>
    match m st with
    | (Ok a, st') => (Ok a, st')
    | (Thrown e, st') => h e st'
    end.

(** The settled result of [m], as a value. *)
Definition settle {A} (m : M A) : M (outcome A) :=
  fun st => let '(r, st') := m st in (Ok r, st').

(** A call across the boundary: the answer is computed from the history
    before the call, and the call is recorded. *)
Definition ask {A} (ev : Event) (answer : list Event -> outcome A) : M A :=
  fun st => (answer (trace st), record ev st).

Definition emit (ev : Event) : M unit :=
  fun st => (Ok tt, record ev st).

Definition sleep (ms : Z) : M unit := emit (Sleep ms).

Declare Scope js_scope.
Delimit Scope js_scope with js.
Notation "x <- m ;; k" := (bind m (fun x => k))
  (at level 61, m at next level, right associativity) : js_scope.
Notation "m ;;; k" := (bind m (fun _ => k))
  (at level 61, right associativity) : js_scope.
Open Scope js_scope.

Section Boundary.
Variable ex : Exchange.

(** [await getBinanceInstance()]: awaits the memoized initialization. *)
Definition awaitBinanceInstance : M unit :=
  ask GetBinanceInstance (fun _ => session ex).

(** [ensureTimeSync]: the session, then [syncServerTime], which catches
    every failure of its own. *)
Definition ensureTimeSync : M unit :=
  awaitBinanceInstance ;;; emit SyncServerTime.

Definition markPrice (symbol : string) : M number :=
  ask (MarkPrice symbol) (fun h => onMarkPrice ex h symbol).

Definition changeInitialLeverage (symbol : string) (leverage : number) : M unit :=
  ask (ChangeInitialLeverage symbol leverage)
      (fun h => onChangeInitialLeverage ex h symbol leverage).

Definition newOrder (o : OrderRequest) : M (option OrderData) :=
  ask (NewOrder o) (fun h => onNewOrder ex h o).

Definition fetchPositions : M (list Position) :=
  ask FetchPositions (onFetchPositions ex).

Definition getCurrentMarketState (symbol : string) : M MarketState :=
  ask (GetCurrentMarketState symbol) (fun h => onGetCurrentMarketState ex h symbol).

(** The listing of open orders falls back to [[]] on every failure. *)
Definition openOrders (symbol : string) : M (list OpenOrder) :=
  ask (OpenOrders symbol) (fun h => Ok (onOpenOrders ex h symbol)).

(** One cancellation; [false] when it failed (the failure is logged only). *)
Definition cancelOrder (symbol : string) (orderId : Z) : M bool :=
  ask (CancelOrder symbol orderId) (fun h => Ok (onCancelOrder ex h symbol orderId)).

(** The lookup of the account's position mode, after the SDK methods and
    the REST fallback: [ONE_WAY] when both failed. *)
Definition queryPositionMode : M PositionMode :=
  ask QueryPositionMode
      (fun h => Ok match onPositionMode ex h with
                   | Some true => DUAL_SIDE
                   | _ => ONE_WAY
                   end).

End Boundary.

(** The [error] text of a result.  Texts that interpolate numbers keep the
    numbers; texts taken from the exchange or from a thrown error are verbatim. *)
Inductive ErrorText : Type :=
| Verbatim (s : string)
| InvalidSymbolFormat              (* Invalid symbol format. Use 'BTC/USDT' *)
| AmountMustBePositive             (* Amount must be greater than 0 *)
| LeverageOutOfRange               (* Leverage must be between 1 and 30 *)
| AmountTooSmallSkipTrade (amount : number) (symbol : string)
                          (minAmount suggestedLeverage : number)
                                   (* Amount .. too small. .. SKIP THIS TRADE. *)
| InvalidAdjustedAmount (adjusted : number) (symbol : string) (minAmount amount : number)
| OrderValueBelowMinimum (notional minNotional : number)
| PercentageOutOfRange             (* Percentage must be between 0 and 100 *)
| NoOpenPositionAmong (symbol : string) (available : list string)
| FailedToFetchPosition (symbol : string) (msg : string)
| SellAmountMustBePositive         (* Sell amount must be greater than 0 *)
| SellAmountTooSmall (sellAmount : number) (symbol : string) (minimum : number)
| NoOpenPosition (symbol : string)
| StopLossMustBeBelowEntry (stop entry : number)      (* .. for long position *)
| StopLossMustBeAboveEntry (stop entry : number)      (* .. for short position *)
| FailedToCreateStopLoss (msg : string)
| TakeProfitMustBeAboveEntry (target entry : number)  (* .. for long position *)
| TakeProfitMustBeBelowEntry (target entry : number)  (* .. for short position *)
| FailedToCreateTakeProfit (msg : string).

(** [s || d] on strings. *)
Definition orElse (s d : string) : string :=
  if JS.truthyS s then s else d.

(** The [TypeError] of reading [orderId] of an undefined [response.data]. *)
Definition undefinedDataError : JsError :=
  newError "Cannot read properties of undefined (reading 'orderId')".

(* ================================================================= *)
(** ** Protection manager: [setStopLossTakeProfit] (src/unnamed/part_002) *)

Module Protection.

Record StopLossTakeProfitParams : Type := {
  symbol : string;
  stopLoss : option number;
  takeProfit : option number;
  stopLossPercent : option number;
  takeProfitPercent : option number
}.

Record StopLossTakeProfitResult : Type := {
  success : bool;
  stopLossOrderId : option Z;
  takeProfitOrderId : option Z;
  error : option ErrorText
}.

Definition failure (e : ErrorText) : StopLossTakeProfitResult :=
  {| success := false; stopLossOrderId := None; takeProfitOrderId := None;
     error := Some e |}.

Record CancelResult : Type := {
  c_success : bool;
  canceledCount : Z;
  c_error : option string
}.

(** What the first half of [setStopLossTakeProfit] settles before any
    protective order is created. *)
Record Plan : Type := {
  binanceSymbol : string;
  isLong : bool;
  entryPrice : number;
  finalStopLoss : option number;
  finalTakeProfit : option number;
  positionMode : PositionMode
}.

Definition setCache (m : PositionMode) : M unit :=
  fun st => (Ok tt, {| trace := trace st;
                       modeCacheEntry := modeCacheEntry st;
                       modeCacheProtection := Some m |}).

Definition isSlTpType (order : OpenOrder) : bool :=
  String.eqb (oo_type order) "STOP_MARKET"
  || String.eqb (oo_type order) "TAKE_PROFIT_MARKET".

Definition sideText (s : PositionSide) : string :=
  match s with LONG => "LONG" | SHORT => "SHORT" end.

Definition sideOf (long_ : bool) : PositionSide := if long_ then LONG else SHORT.

(** [isLong ? entry * (1 - pct / 100) : entry * (1 + pct / 100)] *)
Definition stopFromPercent (long_ : bool) (entry pct : number) : number :=
  if long_ then JS.mul entry (JS.sub (JS.ofZ 1) (JS.div pct (JS.ofZ 100)))
  else JS.mul entry (JS.add (JS.ofZ 1) (JS.div pct (JS.ofZ 100))).

(** [isLong ? entry * (1 + pct / 100) : entry * (1 - pct / 100)] *)
Definition targetFromPercent (long_ : bool) (entry pct : number) : number :=
  if long_ then JS.mul entry (JS.add (JS.ofZ 1) (JS.div pct (JS.ofZ 100)))
  else JS.mul entry (JS.sub (JS.ofZ 1) (JS.div pct (JS.ofZ 100))).

(** The percentages derived from the 14-period ATR of the market state. *)
Definition percentsFromATR (ms : MarketState) (entry : number) : number * number :=
  let refPrice := if JS.truthy (current_price ms) then current_price ms else entry in
  let atr14 := match atr_14 ms with
               | Some a => if JS.truthy a then a else JS.ofZ 0
               | None => JS.ofZ 0
               end in
  let volPct := if JS.gtb refPrice (JS.ofZ 0) && JS.gtb atr14 (JS.ofZ 0)
                then JS.mul (JS.div atr14 refPrice) (JS.ofZ 100)
                else JS.dec 25 1 in
  let effectiveSLPercent := JS.mul volPct (JS.dec 15 1) in
  (effectiveSLPercent, JS.mul effectiveSLPercent (JS.ofZ 3)).

(** [stopLossParams] and [takeProfitParams] have the same shape:
    [{ stopPrice: price.toFixed(2), closePosition: "true" }], with
    [positionSide] under dual-side mode only. *)
Definition protectiveParams (plan : Plan) (stop : number) : OrderParams :=
  {| p_quantity := None;
     p_reduceOnly := false;
     p_positionSide := match positionMode plan with
                       | DUAL_SIDE => Some (sideOf (isLong plan))
                       | ONE_WAY => None
                       end;
     p_price := None;
     p_timeInForceGTC := false;
     p_stopPrice := Some (JS.ToFixed2 stop);
     p_closePosition := true |}.

Definition protectiveOrder (plan : Plan) (type : OrderType) (triggerPrice : number)
  : OrderRequest :=
  {| o_symbol := binanceSymbol plan;
     o_side := if isLong plan then SELL else BUY;
     o_type := type;
     o_params := protectiveParams plan triggerPrice |}.

Section WithExchange.
Variable ex : Exchange.

Definition getPositionMode : M PositionMode :=
  fun st =>
    match modeCacheProtection st with
    | Some m => (Ok m, st)
    | None =>
        tryCatch
          (awaitBinanceInstance ex ;;;
           m <- queryPositionMode ex ;;
           setCache m ;;;
           ret m)
          (fun _ => setCache ONE_WAY ;;; ret ONE_WAY) st
    end.

(** The loop over the orders to cancel: a failed cancellation is logged
    and the loop goes on. *)
Fixpoint cancelEach (symbol : string) (orders : list OpenOrder) (count : Z) : M Z :=
  match orders with
  | [] => ret count
  | order :: rest =>
      canceled <- cancelOrder ex symbol (oo_orderId order) ;;
      cancelEach symbol rest (if canceled : bool then count + 1 else count)
  end.

Definition cancelStopLossTakeProfitForPosition
  (symbol : string) (side : PositionSide) : M CancelResult :=
  tryCatch
    (awaitBinanceInstance ex ;;;
     mode <- getPositionMode ;;
     orders <- openOrders ex symbol ;;
     let slTpOrders :=
       match mode with
       | DUAL_SIDE =>
           filter (fun order => isSlTpType order
                                && String.eqb (oo_positionSide order) (sideText side))
                  orders
       | ONE_WAY => filter isSlTpType orders
       end in
     match slTpOrders with
     | [] => ret {| c_success := true; canceledCount := 0; c_error := None |}
     | _ =>
         n <- cancelEach symbol slTpOrders 0 ;;
         ret {| c_success := true; canceledCount := n; c_error := None |}
     end)
    (fun e =>
       ret {| c_success := false; canceledCount := 0;
              c_error := Some (orElse (exchangeMsgOrMessage e) "Unknown error") |}).

(** Everything up to and including the lookup of the position mode:
    either an early result, or the plan for the two protective orders. *)
Definition prepare (params : StopLossTakeProfitParams)
  : M (StopLossTakeProfitResult + Plan) :=
  awaitBinanceInstance ex ;;;
  let symbol_ := Str.removeFirstSlash (symbol params) in
  positions <- fetchPositions ex ;;
  match find (fun p => String.eqb (pos_symbol p) symbol_) positions with
  | None => ret (inl (failure (NoOpenPosition (symbol params))))
  | Some position =>
      if JS.eqb (pos_contracts position) (JS.ofZ 0)
      then ret (inl (failure (NoOpenPosition (symbol params))))
      else
        let long_ := match pos_side position with long => true | short => false end in
        let entry := pos_entryPrice position in
        percents <-
          (if negb (JS.truthyO (stopLoss params))
              && negb (JS.truthyO (takeProfit params))
              && negb (JS.truthyO (stopLossPercent params))
              && negb (JS.truthyO (takeProfitPercent params))
           then
             tryCatch
               (ms <- getCurrentMarketState ex (symbol params) ;;
                let '(sl, tp) := percentsFromATR ms entry in
                ret (Some sl, Some tp))
               (fun _ => ret (Some (JS.ofZ 3), Some (JS.ofZ 10)))
           else ret (stopLossPercent params, takeProfitPercent params)) ;;
        let '(effectiveSLPercent, effectiveTPPercent) := percents in
        let stop :=
          match effectiveSLPercent with
          | Some pct =>
              if JS.truthy pct && negb (JS.truthyO (stopLoss params))
              then Some (stopFromPercent long_ entry pct)
              else stopLoss params
          | None => stopLoss params
          end in
        let target :=
          match effectiveTPPercent with
          | Some pct =>
              if JS.truthy pct && negb (JS.truthyO (takeProfit params))
              then Some (targetFromPercent long_ entry pct)
              else takeProfit params
          | None => takeProfit params
          end in
        (* clean up the old protective orders, then wait *)
        tryCatch
          (cancelResult <- cancelStopLossTakeProfitForPosition symbol_ (sideOf long_) ;;
           if 0 <? canceledCount cancelResult then sleep 5000 else sleep 1000)
          (fun _ => ret tt) ;;;
        mode <- getPositionMode ;;
        ret (inr {| binanceSymbol := symbol_;
                    isLong := long_;
                    entryPrice := entry;
                    finalStopLoss := stop;
                    finalTakeProfit := target;
                    positionMode := mode |})
  end.

(** The stop-loss leg: an early result, or the id of the order (if any). *)
Definition createStopLoss (plan : Plan) : M (StopLossTakeProfitResult + option Z) :=
  match finalStopLoss plan with
  | Some stop =>
      if JS.truthy stop then
        if isLong plan && JS.geb stop (entryPrice plan) then
          ret (inl (failure (StopLossMustBeBelowEntry stop (entryPrice plan))))
        else if negb (isLong plan) && JS.leb stop (entryPrice plan) then
          ret (inl (failure (StopLossMustBeAboveEntry stop (entryPrice plan))))
        else
          tryCatch
            (response <- newOrder ex (protectiveOrder plan STOP_MARKET stop) ;;
             match response with
             | Some data => ret (inr (d_orderId data))
             | None => throw undefinedDataError
             end)
            (fun e =>
               ret (inl (failure (FailedToCreateStopLoss (exchangeMsgOrMessage e)))))
      else ret (inr None)
  | None => ret (inr None)
  end.

(** The take-profit leg. *)
Definition createTakeProfit (plan : Plan) : M (StopLossTakeProfitResult + option Z) :=
  match finalTakeProfit plan with
  | Some target =>
      if JS.truthy target then
        if isLong plan && JS.leb target (entryPrice plan) then
          ret (inl (failure (TakeProfitMustBeAboveEntry target (entryPrice plan))))
        else if negb (isLong plan) && JS.geb target (entryPrice plan) then
          ret (inl (failure (TakeProfitMustBeBelowEntry target (entryPrice plan))))
        else
          tryCatch
            (response <- newOrder ex (protectiveOrder plan TAKE_PROFIT_MARKET target) ;;
             match response with
             | Some data => ret (inr (d_orderId data))
             | None => throw undefinedDataError
             end)
            (fun e =>
               ret (inl (failure (FailedToCreateTakeProfit (exchangeMsgOrMessage e)))))
      else ret (inr None)
  | None => ret (inr None)
  end.

(** The second half: the stop-loss leg, then the take-profit leg. *)
Definition create (plan : Plan) : M StopLossTakeProfitResult :=
  sl <- createStopLoss plan ;;
  match sl with
  | inl early => ret early
  | inr slId =>
      tp <- createTakeProfit plan ;;
      match tp with
      | inl early => ret early
      | inr tpId =>
          ret {| success := true; stopLossOrderId := slId;
                 takeProfitOrderId := tpId; error := None |}
      end
  end.

Definition setStopLossTakeProfit (params : StopLossTakeProfitParams)
  : M StopLossTakeProfitResult :=
  if negb (JS.truthyS (symbol params)) || negb (Str.includesSlash (symbol params))
  then ret (failure InvalidSymbolFormat)
  else
    tryCatch
      (r <- prepare params ;;
       match r with
       | inl early => ret early
       | inr plan => create plan
       end)
      (fun e =>
         ret (failure (Verbatim (orElse (message e) "Unknown error occurred")))).

End WithExchange.

End Protection.

(* ================================================================= *)
(** ** Order executor, entry side: [buy] (lib/trading/biance.ts) *)

Module Entry.

Definition SYMBOL_PRECISION : Precision.Table :=
  [ ("BTCUSDT",  {| Precision.quantity := 3; Precision.price := 1; Precision.minNotional := JS.ofZ 5 |});
    ("ETHUSDT",  {| Precision.quantity := 2; Precision.price := 2; Precision.minNotional := JS.ofZ 5 |});
    ("BNBUSDT",  {| Precision.quantity := 1; Precision.price := 2; Precision.minNotional := JS.ofZ 5 |});
    ("SOLUSDT",  {| Precision.quantity := 0; Precision.price := 3; Precision.minNotional := JS.ofZ 5 |});
    ("ADAUSDT",  {| Precision.quantity := 0; Precision.price := 4; Precision.minNotional := JS.ofZ 5 |});
    ("DOGEUSDT", {| Precision.quantity := 0; Precision.price := 5; Precision.minNotional := JS.ofZ 5 |}) ]%string.

Definition adjustPrecision : number -> string -> number :=
  Precision.adjustPrecisionWith SYMBOL_PRECISION.

Definition minAmountOf : string -> number :=
  Precision.minAmountWith SYMBOL_PRECISION.

Record BuyParams : Type := {
  symbol : string;
  amount : number;
  leverage : option number;          (* default 10 *)
  price : option number;
  autoSetStopLoss : option bool;     (* default true *)
  stopLossPercent : option number;
  takeProfitPercent : option number
}.

Record BuyResult : Type := {
  success : bool;
  orderId : option Z;
  executedPrice : option number;
  executedAmount : option number;
  error : option ErrorText
}.

Definition failure (e : ErrorText) : BuyResult :=
  {| success := false; orderId := None; executedPrice := None;
     executedAmount := None; error := Some e |}.

Definition leverageOf (params : BuyParams) : number :=
  match leverage params with Some l => l | None => JS.ofZ 10 end.

Definition autoSetStopLossOf (params : BuyParams) : bool :=
  match autoSetStopLoss params with Some b => b | None => true end.

(** The three local checks at the head of [buy]. *)
Definition validate (params : BuyParams) : option ErrorText :=
  if negb (JS.truthyS (symbol params)) || negb (Str.includesSlash (symbol params))
  then Some InvalidSymbolFormat
  else if JS.leb (amount params) (JS.ofZ 0)
  then Some AmountMustBePositive
  else if JS.ltb (leverageOf params) (JS.ofZ 1) || JS.gtb (leverageOf params) (JS.ofZ 30)
  then Some LeverageOutOfRange
  else None.

Definition checkMinNotional (amount_ : number) (symbol_ : string) (price_ : option number)
  : option ErrorText :=
  let config := Precision.configOf SYMBOL_PRECISION symbol_ in
  match price_ with
  | Some p =>
      if JS.truthy p then
        let notional := JS.mul amount_ p in
        if JS.ltb notional (Precision.minNotionalOf config)
        then Some (OrderValueBelowMinimum notional (Precision.minNotionalOf config))
        else None
      else None
  | None => None
  end.

Definition MAX_SAFE_LEVERAGE : number := JS.ofZ 30.
Definition MAX_POSITION_MULTIPLIER : number := JS.ofZ 20.

(** [Math.ceil(minPositionValue / currentPositionValue)] *)
Definition suggestedMultiplierOf (amount_ minAmount currentPrice : number) : number :=
  JS.ceil (JS.div (JS.mul minAmount currentPrice) (JS.mul amount_ currentPrice)).

(** [Math.min(leverage * suggestedMultiplier, 30)] *)
Definition suggestedLeverageOf (leverage_ suggestedMultiplier : number) : number :=
  JS.min (JS.mul leverage_ suggestedMultiplier) (JS.ofZ 30).

(** The entry is auto-scaled when the rounded amount is zero or below the minimum. *)
Definition needsScaling (amount_ : number) (binanceSymbol : string) : bool :=
  let adjustedAmount := adjustPrecision amount_ binanceSymbol in
  JS.eqb adjustedAmount (JS.ofZ 0) || JS.ltb adjustedAmount (minAmountOf binanceSymbol).

(** Rounding, auto-scaling and the final safety check: an early result, or
    the amount to order and the leverage to set. *)
Definition sizeEntry (symbol_ binanceSymbol : string) (amount_ leverage_ currentPrice : number)
  : BuyResult + number * number :=
  let adjustedAmount := adjustPrecision amount_ binanceSymbol in
  let minAmount := minAmountOf binanceSymbol in
  let scaled : BuyResult + number * number :=
    if needsScaling amount_ binanceSymbol then
      let suggestedMultiplier := suggestedMultiplierOf amount_ minAmount currentPrice in
      let suggestedLeverage := suggestedLeverageOf leverage_ suggestedMultiplier in
      if JS.leb suggestedLeverage MAX_SAFE_LEVERAGE
         && JS.leb suggestedMultiplier MAX_POSITION_MULTIPLIER
      then inr (minAmount, suggestedLeverage)
      else inl (failure (AmountTooSmallSkipTrade amount_ symbol_ minAmount suggestedLeverage))
    else inr (adjustedAmount, leverage_) in
  match scaled with
  | inl early => inl early
  | inr (adjustedAmount, effectiveLeverage) =>
      if JS.leb adjustedAmount (JS.ofZ 0) || JS.ltb adjustedAmount minAmount
      then inl (failure (InvalidAdjustedAmount adjustedAmount symbol_ minAmount amount_))
      else inr (adjustedAmount, effectiveLeverage)
  end.

Definition entryOrder (binanceSymbol : string) (adjustedAmount : number)
  (price_ : option number) (mode : PositionMode) : OrderRequest :=
  {| o_symbol := binanceSymbol;
     o_side := BUY;
     o_type := if JS.truthyO price_ then LIMIT else MARKET;
     o_params :=
       {| p_quantity := Some (JS.ToString adjustedAmount);
          p_reduceOnly := false;
          p_positionSide := match mode with DUAL_SIDE => Some LONG | ONE_WAY => None end;
          p_price := match price_ with
                     | Some p => if JS.truthy p then Some (JS.ToString p) else None
                     | None => None
                     end;
          p_timeInForceGTC := JS.truthyO price_;
          p_stopPrice := None;
          p_closePosition := false |} |}.

(** [x ? parseFloat(x) : (y ? parseFloat(y) : 0)] *)
Definition firstOf (x y : option number) : number :=
  match x with
  | Some v => v
  | None => match y with Some w => w | None => JS.ofZ 0 end
  end.

Definition resultOf (orderResult : OrderData) : BuyResult :=
  {| success := true;
     orderId := d_orderId orderResult;
     executedPrice := Some (firstOf (d_avgPrice orderResult) (d_price orderResult));
     executedAmount := Some (firstOf (d_executedQty orderResult) (d_origQty orderResult));
     error := None |}.

Definition setCache (m : PositionMode) : M unit :=
  fun st => (Ok tt, {| trace := trace st;
                       modeCacheEntry := Some m;
                       modeCacheProtection := modeCacheProtection st |}).

Section WithExchange.
Variable ex : Exchange.

(** The entry module's own [getPositionMode]; it also syncs the clock. *)
Definition getPositionMode : M PositionMode :=
  fun st =>
    match modeCacheEntry st with
    | Some m => (Ok m, st)
    | None =>
        tryCatch
          (awaitBinanceInstance ex ;;;
           ensureTimeSync ex ;;;
           m <- queryPositionMode ex ;;
           setCache m ;;;
           ret m)
          (fun _ => setCache ONE_WAY ;;; ret ONE_WAY) st
    end.

(** The price used to value the order: the limit price, else the mark
    price, else [1]. *)
Definition currentPriceOf (binanceSymbol : string) (price_ : option number) : M number :=
  match price_ with
  | Some p =>
      if JS.truthy p then ret p
      else tryCatch (markPrice ex binanceSymbol) (fun _ => ret (JS.ofZ 1))
  | None => tryCatch (markPrice ex binanceSymbol) (fun _ => ret (JS.ofZ 1))
  end.

(** [for (attempt = 1; attempt <= 3; attempt++)] around [newOrder]: leaves
    with the data at the first success, sleeps [attempt * 3000] after a
    failed first or second attempt, rethrows the third failure. *)
Fixpoint submitAttempts (order : OrderRequest) (attempts : list Z)
  (lastError : option JsError) : M (option OrderData * option JsError) :=
  match attempts with
  | [] => ret (None, lastError)
  | attempt :: rest =>
      r <- settle (newOrder ex order) ;;
      match r with
      | Ok data => ret (data, lastError)
      | Thrown orderError =>
          if attempt <? 3
          then sleep (attempt * 3000) ;;; submitAttempts order rest (Some orderError)
          else throw orderError
      end
  end.

Definition submit (order : OrderRequest) : M OrderData :=
  r <- submitAttempts order [1; 2; 3] None ;;
  match r with
  | (Some orderResult, _) => ret orderResult
  | (None, Some lastError) => throw lastError
  | (None, None) => throw (newError "Failed to create order after 3 attempts")
  end.

(** The wait between two protection attempts: 3 s, then 5 s, none after the third. *)
Definition protectionBackoff (attempt : Z) : M unit :=
  if attempt <? 3 then sleep (if attempt =? 1 then 3000 else 5000) else ret tt.

(** [for (attempt = 1; attempt <= 3; attempt++)] around
    [setStopLossTakeProfit]; the value is [slTpSuccess]. *)
Fixpoint protectAttempts (params : Protection.StopLossTakeProfitParams)
  (attempts : list Z) : M bool :=
  match attempts with
  | [] => ret false
  | attempt :: rest =>
      r <- settle (Protection.setStopLossTakeProfit ex params) ;;
      match r with
      | Ok slTpResult =>
          if Protection.success slTpResult then ret true
          else protectionBackoff attempt ;;; protectAttempts params rest
      | Thrown _ => protectionBackoff attempt ;;; protectAttempts params rest
      end
  end.

Definition protect (params : BuyParams) : M unit :=
  if autoSetStopLossOf params then
    sleep 8000 ;;;
    slTpSuccess <-
      protectAttempts
        {| Protection.symbol := symbol params;
           Protection.stopLoss := None;
           Protection.takeProfit := None;
           Protection.stopLossPercent := stopLossPercent params;
           Protection.takeProfitPercent := takeProfitPercent params |}
        [1; 2; 3] ;;
    if slTpSuccess : bool then ret tt else emit (Warn FailedToSetSlTpAfter3Attempts)
  else ret tt.

(** From the sized order on: leverage, position mode, submission,
    protection, result. *)
Definition execute (params : BuyParams) (binanceSymbol : string)
  (adjustedAmount effectiveLeverage : number) : M BuyResult :=
  match
    (if JS.truthyO (price params)
     then checkMinNotional adjustedAmount binanceSymbol (price params)
     else None)
  with
  | Some reason => ret (failure reason)
  | None =>
      tryCatch (changeInitialLeverage ex binanceSymbol effectiveLeverage)
               (fun _ => ret tt) ;;;
      mode <- getPositionMode ;;
      orderResult <- submit (entryOrder binanceSymbol adjustedAmount (price params) mode) ;;
      protect params ;;;
      ret (resultOf orderResult)
  end.

Definition buy (params : BuyParams) : M BuyResult :=
  match validate params with
  | Some e => ret (failure e)
  | None =>
      tryCatch
        (ensureTimeSync ex ;;;
         awaitBinanceInstance ex ;;;
         let binanceSymbol := Str.removeFirstSlash (symbol params) in
         currentPrice <- currentPriceOf binanceSymbol (price params) ;;
         match sizeEntry (symbol params) binanceSymbol (amount params)
                         (leverageOf params) currentPrice with
         | inl early => ret early
         | inr (adjustedAmount, effectiveLeverage) =>
             execute params binanceSymbol adjustedAmount effectiveLeverage
         end)
        (fun e =>
           ret (failure (Verbatim
                  (orElse (message e) "Unknown error occurred during buy"))))
  end.

End WithExchange.

End Entry.

(* ================================================================= *)
(** ** Order executor, exit side: [sell] (lib/trading/sell.ts) *)

Module Exit.

Definition SYMBOL_PRECISION : Precision.Table :=
  [ ("BTCUSDT",  {| Precision.quantity := 3; Precision.price := 1; Precision.minNotional := JS.ofZ 5 |});
    ("ETHUSDT",  {| Precision.quantity := 2; Precision.price := 2; Precision.minNotional := JS.ofZ 5 |});
    ("BNBUSDT",  {| Precision.quantity := 1; Precision.price := 2; Precision.minNotional := JS.ofZ 5 |});
    ("SOLUSDT",  {| Precision.quantity := 1; Precision.price := 3; Precision.minNotional := JS.ofZ 5 |});
    ("ADAUSDT",  {| Precision.quantity := 0; Precision.price := 4; Precision.minNotional := JS.ofZ 5 |});
    ("DOGEUSDT", {| Precision.quantity := 0; Precision.price := 5; Precision.minNotional := JS.ofZ 5 |}) ]%string.

Definition adjustPrecision : number -> string -> number :=
  Precision.adjustPrecisionWith SYMBOL_PRECISION.

Definition minAmountOf : string -> number :=
  Precision.minAmountWith SYMBOL_PRECISION.

Record SellParams : Type := {
  symbol : string;
  percentage : option number;      (* default 100 *)
  amount : option number;
  price : option number
}.

Record SellResult : Type := {
  success : bool;
  orderId : option Z;
  executedPrice : option number;
  executedAmount : option number;
  error : option ErrorText
}.

Definition failure (e : ErrorText) : SellResult :=
  {| success := false; orderId := None; executedPrice := None;
     executedAmount := None; error := Some e |}.

Definition percentageOf (params : SellParams) : number :=
  match percentage params with Some p => p | None => JS.ofZ 100 end.

Definition validate (params : SellParams) : option ErrorText :=
  if negb (JS.truthyS (symbol params)) || negb (Str.includesSlash (symbol params))
  then Some InvalidSymbolFormat
  else if JS.leb (percentageOf params) (JS.ofZ 0) || JS.gtb (percentageOf params) (JS.ofZ 100)
  then Some PercentageOutOfRange
  else None.

(** [p.contracts !== 0] *)
Definition isActive (p : Position) : bool :=
  negb (JS.eqb (pos_contracts p) (JS.ofZ 0)).

Definition exitOrder (binanceSymbol : string) (side : PositionSide)
  (adjustedAmount : number) (price_ : option number) : OrderRequest :=
  {| o_symbol := binanceSymbol;
     o_side := match side with LONG => SELL | SHORT => BUY end;
     o_type := if JS.truthyO price_ then LIMIT else MARKET;
     o_params :=
       {| p_quantity := Some (JS.ToString adjustedAmount);
          p_reduceOnly := true;
          p_positionSide := None;
          p_price := match price_ with
                     | Some p => if JS.truthy p then Some (JS.ToString p) else None
                     | None => None
                     end;
          p_timeInForceGTC := JS.truthyO price_;
          p_stopPrice := None;
          p_closePosition := false |} |}.

Definition firstOf (x y : option number) : number :=
  match x with
  | Some v => v
  | None => match y with Some w => w | None => JS.ofZ 0 end
  end.

Definition resultOf (orderResult : OrderData) : SellResult :=
  {| success := true;
     orderId := d_orderId orderResult;
     executedPrice := Some (firstOf (d_avgPrice orderResult) (d_price orderResult));
     executedAmount := Some (firstOf (d_executedQty orderResult) (d_origQty orderResult));
     error := None |}.

(** [error?.response?.data?.msg || error.message || "Unknown error occurred during sell"] *)
Definition errorMessageOf (e : JsError) : string :=
  orElse (exchangeMsgOrMessage e) "Unknown error occurred during sell".

Section WithExchange.
Variable ex : Exchange.

(** The amount to sell and the side to close: the given amount (closing a
    long), or the percentage of the open position. *)
Definition amountAndSide (params : SellParams) (binanceSymbol : string)
  : M (SellResult + number * PositionSide) :=
  match (if JS.truthyO (amount params) then amount params else None) with
  | Some sellAmount => ret (inr (sellAmount, LONG))
  | None =>
      tryCatch
        (positions <- fetchPositions ex ;;
         let activePositions := filter isActive positions in
         match find (fun p => String.eqb (pos_symbol p) binanceSymbol && isActive p)
                    positions with
         | None =>
             ret (inl (failure (NoOpenPositionAmong (symbol params)
                                  (map pos_symbol activePositions))))
         | Some position =>
             if negb (JS.truthy (pos_contracts position))
                || JS.eqb (pos_contracts position) (JS.ofZ 0)
             then ret (inl (failure (NoOpenPositionAmong (symbol params)
                                       (map pos_symbol activePositions))))
             else
               ret (inr (JS.mul (JS.abs (pos_contracts position))
                                (JS.div (percentageOf params) (JS.ofZ 100)),
                         match pos_side position with long => LONG | short => SHORT end))
         end)
        (fun positionError =>
           ret (inl (failure (FailedToFetchPosition (symbol params)
                                (message positionError)))))
  end.

(** Everything before the submission: an early result, or the order. *)
Definition prepare (params : SellParams) : M (SellResult + OrderRequest) :=
  ensureTimeSync ex ;;;
  awaitBinanceInstance ex ;;;
  let binanceSymbol := Str.removeFirstSlash (symbol params) in
  r <- amountAndSide params binanceSymbol ;;
  match r with
  | inl early => ret (inl early)
  | inr (sellAmount, positionSide) =>
      if JS.leb sellAmount (JS.ofZ 0) then ret (inl (failure SellAmountMustBePositive))
      else
        let adjustedAmount := adjustPrecision sellAmount binanceSymbol in
        if JS.eqb adjustedAmount (JS.ofZ 0)
        then ret (inl (failure (SellAmountTooSmall sellAmount (symbol params)
                                  (minAmountOf binanceSymbol))))
        else ret (inr (exitOrder binanceSymbol positionSide adjustedAmount (price params)))
  end.

(** [for (attempt = 1; attempt <= 3; attempt++)] around [newOrder], with
    a sleep of [attempt * 2000] after a failed first or second attempt. *)
Fixpoint submitAttempts (order : OrderRequest) (attempts : list Z)
  (lastError : option JsError) : M (option OrderData * option JsError) :=
  match attempts with
  | [] => ret (None, lastError)
  | attempt :: rest =>
      r <- settle (newOrder ex order) ;;
      match r with
      | Ok data => ret (data, lastError)
      | Thrown orderError =>
          if attempt <? 3
          then sleep (attempt * 2000) ;;; submitAttempts order rest (Some orderError)
          else throw orderError
      end
  end.

Definition submit (order : OrderRequest) : M OrderData :=
  r <- submitAttempts order [1; 2; 3] None ;;
  match r with
  | (Some orderResult, _) => ret orderResult
  | (None, Some lastError) => throw lastError
  | (None, None) => throw (newError "Failed to create sell order after 3 attempts")
  end.

Definition sell (params : SellParams) : M SellResult :=
  match validate params with
  | Some e => ret (failure e)
  | None =>
      tryCatch
        (r <- prepare params ;;
         match r with
         | inl early => ret early
         | inr order =>
             orderResult <- submit order ;;
             ret (resultOf orderResult)
         end)
        (fun e => ret (failure (Verbatim (errorMessageOf e))))
  end.

End WithExchange.

End Exit.

(* ================================================================= *)
(** ** Session manager: [getBinanceInstance] (lib/trading/binance-official.ts)

    The function is synchronous: it tests the module variable
    [initializationPromise], starts the initialization when the variable is
    [null], stores the promise and returns it.  JavaScript runs it to
    completion before any other caller or callback runs, so a run of the
    process is a sequence of atomic steps: calls of [getBinanceInstance], and
    completions of the connection test the initialization is waiting for. *)

Module Session.

Definition PromiseId : Type := nat.

(** Where an initialization stands: waiting for the answer to the ping of
    the given attempt (1 to 5), or settled. *)
Inductive Progress : Type :=
| Pinging (attempt : Z)
| Connected
| Failed.

Record World : Type := {
  initializationPromise : option PromiseId;   (* the module variable *)
  initializations : list Progress;            (* one entry per initialization started *)
  handshakes : list PromiseId                 (* the pings sent, by initialization *)
}.

Definition initial : World :=
  {| initializationPromise := None; initializations := []; handshakes := [] |}.

(** [credentials] tells whether the API key and secret of the active mode
    are configured; without them the async body throws before any ping. *)
Definition getBinanceInstance (credentials : bool) (w : World) : PromiseId * World :=
  match initializationPromise w with
  | Some p => (p, w)
  | None =>
      let p := List.length (initializations w) in
      (p, {| initializationPromise := Some p;
             initializations :=
               initializations w ++ [if credentials then Pinging 1 else Failed];
             handshakes := if credentials then handshakes w ++ [p] else handshakes w |})
  end.

Fixpoint setNth {A} (n : nat) (x : A) (l : list A) : list A :=
  match l, n with
  | [], _ => []
  | _ :: rest, O => x :: rest
  | y :: rest, S n' => y :: setNth n' x rest
  end.

(** The ping of initialization [p] is answered: success connects; a failure
    before the fifth attempt sleeps and pings again, the fifth fails the
    initialization for good. *)
Definition pingAnswered (p : PromiseId) (ok : bool) (w : World) : World :=
  match nth_error (initializations w) p with
  | Some (Pinging attempt) =>
      if ok then
        {| initializationPromise := initializationPromise w;
           initializations := setNth p Connected (initializations w);
           handshakes := handshakes w |}
      else if attempt <? 5 then
        {| initializationPromise := initializationPromise w;
           initializations := setNth p (Pinging (attempt + 1)) (initializations w);
           handshakes := handshakes w ++ [p] |}
      else
        {| initializationPromise := initializationPromise w;
           initializations := setNth p Failed (initializations w);
           handshakes := handshakes w |}
  | _ => w
  end.

Inductive Step : Type :=
| Call (credentials : bool)                (* some caller invokes [getBinanceInstance] *)
| PingAnswer (p : PromiseId) (ok : bool).  (* a pending ping completes *)

(** Runs the steps in order; the value is the list of promises handed to
    the callers, in call order. *)
Fixpoint run (steps : list Step) (w : World) : list PromiseId * World :=
  match steps with
  | [] => ([], w)
  | Call credentials :: rest =>
      let '(p, w1) := getBinanceInstance credentials w in
      let '(ps, w2) := run rest w1 in
      (p :: ps, w2)
  | PingAnswer p ok :: rest => run rest (pingAnswered p ok w)
  end.

End Session.

(* ================================================================= *)
(** ** Concrete worlds and inputs used to run the model *)

Module Scenario.

Definition fresh : State :=
  {| trace := []; modeCacheEntry := None; modeCacheProtection := None |}.

(** An open long of 0.01 BTC entered at 50000. *)
Definition btcLong : Position :=
  {| pos_symbol := "BTCUSDT"; pos_side := long;
     pos_contracts := JS.dec 1 2;
     pos_entryPrice := JS.ofZ 50000;
     pos_markPrice := JS.ofZ 50000;
     pos_unrealizedPnl := JS.ofZ 0 |}.

Definition filled : OrderData :=
  {| d_orderId := Some 1001;
     d_avgPrice := Some (JS.ofZ 50000);
     d_price := None;
     d_executedQty := Some (JS.dec 1 2);
     d_origQty := Some (JS.dec 1 2) |}.

Definition accepted (id : Z) : OrderData :=
  {| d_orderId := Some id; d_avgPrice := None; d_price := None;
     d_executedQty := None; d_origQty := None |}.

Definition rejected (msg : string) : JsError :=
  {| message := "Request failed with status code 400"; responseMsg := Some msg |}.

(** A one-way account holding [btcLong].  Entry and exit orders fill; a
    stop-market order is accepted when [stops] holds, a take-profit order
    when [targets] holds; [stale] are the open orders already resting. *)
Definition exchange (stops targets : bool) (stale : list OpenOrder) : Exchange :=
  {| session := Ok tt;
     onMarkPrice := fun _ _ => Ok (JS.ofZ 50000);
     onChangeInitialLeverage := fun _ _ _ => Ok tt;
     onPositionMode := fun _ => Some false;
     onNewOrder := fun _ o =>
       match o_type o with
       | MARKET | LIMIT => Ok (Some filled)
       | STOP_MARKET =>
           if stops then Ok (Some (accepted 2001))
           else Thrown (rejected "Order would immediately trigger.")
       | TAKE_PROFIT_MARKET =>
           if targets then Ok (Some (accepted 2002))
           else Thrown (rejected "Order would immediately trigger.")
       end;
     onFetchPositions := fun _ => Ok [btcLong];
     onGetCurrentMarketState := fun _ _ =>
       Ok {| current_price := JS.ofZ 50000; atr_14 := Some (JS.ofZ 500) |};
     onOpenOrders := fun _ _ => stale;
     onCancelOrder := fun _ _ _ => true |}.

(** The same account with every order refused for lack of margin. *)
Definition refusing : Exchange :=
  {| session := Ok tt;
     onMarkPrice := fun _ _ => Ok (JS.ofZ 50000);
     onChangeInitialLeverage := fun _ _ _ => Ok tt;
     onPositionMode := fun _ => Some false;
     onNewOrder := fun _ _ => Thrown (rejected "Margin is insufficient.");
     onFetchPositions := fun _ => Ok [btcLong];
     onGetCurrentMarketState := fun _ _ =>
       Ok {| current_price := JS.ofZ 50000; atr_14 := Some (JS.ofZ 500) |};
     onOpenOrders := fun _ _ => [];
     onCancelOrder := fun _ _ _ => true |}.

(** Buy 0.01 BTC at market, 10x, protection at 3% and 10%. *)
Definition buyBtc : Entry.BuyParams :=
  {| Entry.symbol := "BTC/USDT";
     Entry.amount := JS.dec 1 2;
     Entry.leverage := Some (JS.ofZ 10);
     Entry.price := None;
     Entry.autoSetStopLoss := None;
     Entry.stopLossPercent := Some (JS.ofZ 3);
     Entry.takeProfitPercent := Some (JS.ofZ 10) |}.

(** Buy 0.0002 BTC at market, 5x: below the step of 0.001. *)
Definition buyDustBtc : Entry.BuyParams :=
  {| Entry.symbol := "BTC/USDT";
     Entry.amount := JS.dec 2 4;
     Entry.leverage := Some (JS.ofZ 5);
     Entry.price := None;
     Entry.autoSetStopLoss := Some false;
     Entry.stopLossPercent := None;
     Entry.takeProfitPercent := None |}.

(** An amount of zero. *)
Definition buyNothing : Entry.BuyParams :=
  {| Entry.symbol := "BTC/USDT";
     Entry.amount := JS.ofZ 0;
     Entry.leverage := None;
     Entry.price := None;
     Entry.autoSetStopLoss := None;
     Entry.stopLossPercent := None;
     Entry.takeProfitPercent := None |}.

(** Close the whole BTC position at market. *)
Definition sellBtc : Exit.SellParams :=
  {| Exit.symbol := "BTC/USDT";
     Exit.percentage := None;
     Exit.amount := None;
     Exit.price := None |}.

(** Protect the long with explicit prices. *)
Definition protectAt (stop target : option number) : Protection.StopLossTakeProfitParams :=
  {| Protection.symbol := "BTC/USDT";
     Protection.stopLoss := stop;
     Protection.takeProfit := target;
     Protection.stopLossPercent := None;
     Protection.takeProfitPercent := None |}.

(** The plan prepared for [btcLong] on the one-way account. *)
Definition btcPlan (stop target : option number) : Protection.Plan :=
{| Protection.binanceSymbol := "BTCUSDT";
   Protection.isLong := true;
   Protection.entryPrice := JS.ofZ 50000;
   Protection.finalStopLoss := stop;
   Protection.finalTakeProfit := target;
   Protection.positionMode := ONE_WAY |}.

Definition staleStop : OpenOrder :=
  {| oo_orderId := 7; oo_type := "STOP_MARKET"; oo_positionSide := "BOTH" |}.

(** The events a run added to the trace. *)
Definition added {A} (run : outcome A * State) (before : State) : list Event :=
  skipn (List.length (trace before)) (trace (snd run)).

Definition isNewOrderOf (t : OrderType) (ev : Event) : bool :=
  match ev with
  | NewOrder o =>
      match o_type o, t with
      | MARKET, MARKET | LIMIT, LIMIT | STOP_MARKET, STOP_MARKET
      | TAKE_PROFIT_MARKET, TAKE_PROFIT_MARKET => true
      | _, _ => false
      end
  | _ => false
  end.

Definition isWarning (ev : Event) : bool :=
  match ev with Warn _ => true | _ => false end.

End Scenario.

(* ================================================================= *)
(** ** Vocabulary of the statements *)

(** *** Traces *)

(** [emits P m]: whatever the state, [m] only appends events, all in [P]. *)
Definition emits {A} (P : Event -> Prop) (m : M A) : Prop :=
  forall st, exists evs, trace (snd (m st)) = trace st ++ evs /\ Forall P evs.

(** [total m]: [m] never throws. *)
Definition total {A} (m : M A) : Prop :=
  forall st, exists a st', m st = (Ok a, st').

(** The events of the protection manager: no leverage change, no warning,
    and orders of the two protective types only. *)
Definition protectionEvent (ev : Event) : Prop :=
  match ev with
  | GetBinanceInstance | QueryPositionMode | FetchPositions
  | GetCurrentMarketState _ | OpenOrders _ | CancelOrder _ _ | Sleep _ => True
  | NewOrder o => o_type o = STOP_MARKET \/ o_type o = TAKE_PROFIT_MARKET
  | _ => False
  end.

(** The events of the entry up to the submission, for an order of quantity
    [q] at leverage [l]. *)
Definition entryEvent (q l : number) (ev : Event) : Prop :=
  match ev with
  | GetBinanceInstance | SyncServerTime | QueryPositionMode | MarkPrice _ | Sleep _ => True
  | ChangeInitialLeverage _ l' => l' = l
  | NewOrder o =>
      (o_type o = MARKET \/ o_type o = LIMIT)
      /\ o_side o = BUY
      /\ p_quantity (o_params o) = Some (JS.ToString q)
  | _ => False
  end.

Definition isWarn (ev : Event) : Prop :=
  match ev with Warn _ => True | _ => False end.

(** Everything [execute] may add to the trace. *)
Definition executeEvent (q l : number) (ev : Event) : Prop :=
  entryEvent q l ev \/ protectionEvent ev \/ isWarn ev.

Definition quiet (ev : Event) : Prop := ~ isWarn ev.

(** [quietUnless good m]: a run of [m] either ends with a [good] outcome or
    has logged no warning. *)
Definition quietUnless {A} (good : outcome A -> Prop) (m : M A) : Prop :=
  forall st r st',
    m st = (r, st') ->
    good r \/ exists evs, trace st' = trace st ++ evs /\ Forall quiet evs.

(** The success record built from the data of the entry order alone. *)
Definition plainSuccess (r : outcome Entry.BuyResult) : Prop :=
  exists d : OrderData, r = Ok (Entry.resultOf d).

(** What an entry sized at quantity [q] and leverage [l] may send: every
    leverage change asks for [l], every market or limit order is a buy of [q]. *)
Definition sized (q l : number) (ev : Event) : Prop :=
  match ev with
  | ChangeInitialLeverage _ l' => l' = l
  | NewOrder o =>
      o_type o = MARKET \/ o_type o = LIMIT ->
      o_side o = BUY /\ p_quantity (o_params o) = Some (JS.ToString q)
  | _ => True
  end.

(** The session, the clock and the mark price: no order, no leverage change. *)
Definition preliminary (ev : Event) : Prop :=
  match ev with
  | GetBinanceInstance | SyncServerTime | MarkPrice _ => True
  | _ => False
  end.

Definition isTakeProfitOrder (ev : Event) : Prop :=
  match ev with
  | NewOrder o => o_type o = TAKE_PROFIT_MARKET
  | _ => False
  end.

(** *** The two protective legs *)

(** The direction checks of the two legs, as booleans. *)
Definition stopOnRightSide (plan : Protection.Plan) (stop : number) : bool :=
  negb (Protection.isLong plan && JS.geb stop (Protection.entryPrice plan))
  && negb (negb (Protection.isLong plan) && JS.leb stop (Protection.entryPrice plan)).

Definition targetOnRightSide (plan : Protection.Plan) (target : number) : bool :=
  negb (Protection.isLong plan && JS.leb target (Protection.entryPrice plan))
  && negb (negb (Protection.isLong plan) && JS.geb target (Protection.entryPrice plan)).

(** A leg is requested when its final price is truthy. *)
Definition requested (price : option number) : option number :=
  match price with
  | Some p => if JS.truthy p then Some p else None
  | None => None
  end.

(** The exchange created the order it was asked for. *)
Definition accepted (answer : outcome (option OrderData)) : bool :=
  match answer with
  | Ok (Some _) => true
  | _ => false
  end.

(** The stop-loss leg went through: not requested, or on the right side of
    the entry and accepted by the exchange when asked at [history]. *)
Definition stopLegCreated (ex : Exchange) (plan : Protection.Plan) (history : list Event)
  : bool :=
  match requested (Protection.finalStopLoss plan) with
  | Some stop =>
      stopOnRightSide plan stop
      && accepted (onNewOrder ex history (Protection.protectiveOrder plan STOP_MARKET stop))
  | None => true
  end.

(** The history the take-profit leg is asked at, when the stop-loss leg went
    through from [history]. *)
Definition historyAfterStop (plan : Protection.Plan) (history : list Event) : list Event :=
  match requested (Protection.finalStopLoss plan) with
  | Some stop => history ++ [NewOrder (Protection.protectiveOrder plan STOP_MARKET stop)]
  | None => history
  end.

Definition targetLegCreated (ex : Exchange) (plan : Protection.Plan) (history : list Event)
  : bool :=
  match requested (Protection.finalTakeProfit plan) with
  | Some target =>
      targetOnRightSide plan target
      && accepted (onNewOrder ex history
                     (Protection.protectiveOrder plan TAKE_PROFIT_MARKET target))
  | None => true
  end.

(** The error of a target on the wrong side of the entry. *)
Definition wrongSideTarget (plan : Protection.Plan) (target : number) : ErrorText :=
  if Protection.isLong plan
  then TakeProfitMustBeAboveEntry target (Protection.entryPrice plan)
  else TakeProfitMustBeBelowEntry target (Protection.entryPrice plan).

(** *** The session *)

(** The invariant of the session manager: nothing started yet, or exactly
    one initialization, which is the one the module variable holds, and every
    handshake sent belongs to it (at most five of them). *)
Definition singleFlight (w : Session.World) : Prop :=
  (Session.initializationPromise w = None
   /\ Session.initializations w = []
   /\ Session.handshakes w = [])
  \/ (Session.initializationPromise w = Some 0%nat
      /\ Forall (eq 0%nat) (Session.handshakes w)
      /\ exists progress,
          Session.initializations w = [progress]
          /\ match progress with
             | Session.Pinging attempt =>
                 1 <= attempt <= 5
                 /\ Z.of_nat (List.length (Session.handshakes w)) = attempt
             | _ => (List.length (Session.handshakes w) <= 5)%nat
             end).

(* ================================================================= *)
(** ** Risk control: [checkBuyRisk] (src/unnamed/part_003) *)

Module BuyRisk.

(** The three refusals; the texts interpolate the numbers kept here. *)
Inductive Reason : Type :=
| LeverageExceedsMaximum (leverage maxLeverage : number)
| PositionSizeExceedsLimit (positionValue limit : number)
| InsufficientBalance (requiredMargin currentBalance : number).

Record RiskCheckResult : Type := {
  allowed : bool;
  reason : option Reason
}.

Definition checkBuyRisk
  (amount price leverage currentBalance : number) (config : Risk.RiskConfig)
  : RiskCheckResult :=
  if JS.gtb leverage (Risk.maxLeverage config) then
    {| allowed := false;
       reason := Some (LeverageExceedsMaximum leverage (Risk.maxLeverage config)) |}
  else
    let positionValue := JS.mul amount price in
    if JS.gtb positionValue (Risk.maxPositionSizeUSDT config) then
      {| allowed := false;
         reason := Some (PositionSizeExceedsLimit positionValue
                           (Risk.maxPositionSizeUSDT config)) |}
    else
      let requiredMargin := JS.div positionValue leverage in
      if JS.gtb requiredMargin (JS.mul currentBalance (JS.dec 98 2)) then
        {| allowed := false;
           reason := Some (InsufficientBalance requiredMargin currentBalance) |}
      else {| allowed := true; reason := None |}.

End BuyRisk.

(* ================================================================= *)
(** ** Protection manager, upkeep: [cancelStopLossTakeProfit],
       [updateTrailingStop], [setAutoStopLossTakeProfitForAll]
       (src/unnamed/part_002) *)

Module Upkeep.

(** [{ success, newStopLoss?, error? }] *)
Record TrailingResult : Type := {
  success : bool;
  newStopLoss : option number;
  error : option ErrorText
}.

Definition failure (e : ErrorText) : TrailingResult :=
  {| success := false; newStopLoss := None; error := Some e |}.

(** [{ success, results }]; an entry of [results] is
    [{ symbol: position.symbol, ...result }]. *)
Record AutoResult : Type := {
  a_success : bool;
  results : list (string * Protection.StopLossTakeProfitResult)
}.

(** [isLong ? currentPrice * (1 - pct / 100) : currentPrice * (1 + pct / 100)] *)
Definition newStopLossOf (isLong : bool) (currentPrice trailingPercent : number) : number :=
  if isLong
  then JS.mul currentPrice (JS.sub (JS.ofZ 1) (JS.div trailingPercent (JS.ofZ 100)))
  else JS.mul currentPrice (JS.add (JS.ofZ 1) (JS.div trailingPercent (JS.ofZ 100))).

(** [x || d] on an optional number. *)
Definition orDefault (x : option number) (d : number) : number :=
  match x with
  | Some v => if JS.truthy v then v else d
  | None => d
  end.

(** The request [updateTrailingStop] hands to [setStopLossTakeProfit]. *)
Definition trailingRequest (symbol : string) (stop : number)
  : Protection.StopLossTakeProfitParams :=
  {| Protection.symbol := symbol;
     Protection.stopLoss := Some stop;
     Protection.takeProfit := None;
     Protection.stopLossPercent := None;
     Protection.takeProfitPercent := None |}.

(** The request [setAutoStopLossTakeProfitForAll] makes for one position. *)
Definition autoRequest (position : Position) (stopLossPercent takeProfitPercent : number)
  : Protection.StopLossTakeProfitParams :=
  {| Protection.symbol := pos_symbol position;
     Protection.stopLoss := None;
     Protection.takeProfit := None;
     Protection.stopLossPercent := Some stopLossPercent;
     Protection.takeProfitPercent := Some takeProfitPercent |}.

Section WithExchange.
Variable ex : Exchange.

(** Cancels every stop-market and take-profit-market order of the symbol,
    of either side. *)
Definition cancelStopLossTakeProfit (symbol : string) : M Protection.CancelResult :=
  tryCatch
    (awaitBinanceInstance ex ;;;
     let binanceSymbol := Str.removeFirstSlash symbol in
     orders <- openOrders ex binanceSymbol ;;
     let slTpOrders := filter Protection.isSlTpType orders in
     n <- Protection.cancelEach ex binanceSymbol slTpOrders 0 ;;
     ret {| Protection.c_success := true;
            Protection.canceledCount := n;
            Protection.c_error := None |})
    (fun e =>
       ret {| Protection.c_success := false;
              Protection.canceledCount := 0;
              Protection.c_error := Some (orElse (message e) "Unknown error occurred") |}).

(** [trailingPercent] defaults to 2. *)
Definition updateTrailingStop (symbol : string) (trailingPercent : option number)
  : M TrailingResult :=
  let trailingPercent_ := match trailingPercent with Some p => p | None => JS.ofZ 2 end in
  tryCatch
    (let binanceSymbol := Str.removeFirstSlash symbol in
     positions <- fetchPositions ex ;;
     match find (fun p => String.eqb (pos_symbol p) binanceSymbol) positions with
     | None => ret (failure (NoOpenPosition symbol))
     | Some position =>
         if JS.eqb (pos_contracts position) (JS.ofZ 0)
         then ret (failure (NoOpenPosition symbol))
         else
           let isLong := match pos_side position with long => true | short => false end in
           let currentPrice := pos_markPrice position in
           if JS.leb (pos_unrealizedPnl position) (JS.ofZ 0)
           then ret {| success := true; newStopLoss := None; error := None |}
           else
             let stop := newStopLossOf isLong currentPrice trailingPercent_ in
             cancelStopLossTakeProfit symbol ;;;
             result <- Protection.setStopLossTakeProfit ex (trailingRequest symbol stop) ;;
             if Protection.success result
             then ret {| success := true; newStopLoss := Some stop; error := None |}
             else ret {| success := Protection.success result;
                         newStopLoss := None;
                         error := Protection.error result |}
     end)
    (fun e => ret (failure (Verbatim (orElse (message e) "Unknown error occurred")))).

(** The loop over the active positions; [results.push] appends. *)
Fixpoint protectEach (positions : list Position) (stopLossPercent takeProfitPercent : number)
  (results_ : list (string * Protection.StopLossTakeProfitResult))
  : M (list (string * Protection.StopLossTakeProfitResult)) :=
  match positions with
  | [] => ret results_
  | position :: rest =>
      result <- Protection.setStopLossTakeProfit ex
                  (autoRequest position stopLossPercent takeProfitPercent) ;;
      protectEach rest stopLossPercent takeProfitPercent
                  (results_ ++ [(pos_symbol position, result)])
  end.

(** The two defaults are 3 and 10 ([params?.default... || 3]). *)
Definition setAutoStopLossTakeProfitForAll
  (defaultStopLossPercent defaultTakeProfitPercent : option number) : M AutoResult :=
  let stopLossPercent := orDefault defaultStopLossPercent (JS.ofZ 3) in
  let takeProfitPercent := orDefault defaultTakeProfitPercent (JS.ofZ 10) in
  tryCatch
    (positions <- fetchPositions ex ;;
     let activePositions := filter Exit.isActive positions in
     match activePositions with
     | [] => ret {| a_success := true; results := [] |}
     | _ =>
         results_ <- protectEach activePositions stopLossPercent takeProfitPercent [] ;;
         ret {| a_success := true; results := results_ |}
     end)
    (fun _ => ret {| a_success := false; results := [] |}).

End WithExchange.

End Upkeep.

(* ================================================================= *)
(** ** Positions: the conversion in [fetchPositions] (src/unnamed/part_002)

    The exchange sends every numeric field as text; a field below is the
    number [parseFloat] reads from it (NaN when the text is no number). *)

Module Positions.

Record BinancePosition : Type := {
  b_symbol : string;
  b_positionAmt : number;
  b_entryPrice : number;
  b_markPrice : number;
  b_unRealizedProfit : number;
  b_liquidationPrice : number;
  b_leverage : number;
  b_notional : number
}.

(** The numeric fields and the two labels of a converted position
    ([marginType] is the exchange's text in lower case and is not read by
    the engine). *)
Record Position : Type := {
  symbol : string;
  side : Side;
  contracts : number;
  contractSize : number;
  entryPrice : number;
  markPrice : number;
  notional : number;
  leverage : number;
  unrealizedPnl : number;
  percentage : number;
  liquidationPrice : number;
  initialMargin : number;
  maintenanceMargin : number
}.

(** [parseFloat(p.positionAmt) !== 0] *)
Definition isOpen (p : BinancePosition) : bool :=
  negb (JS.eqb (b_positionAmt p) (JS.ofZ 0)).

Definition convert (p : BinancePosition) : Position :=
  let contracts_ := JS.abs (b_positionAmt p) in
  let entryPrice_ := b_entryPrice p in
  let markPrice_ := b_markPrice p in
  let notional_ := JS.abs (b_notional p) in
  let leverage_ := b_leverage p in
  let initialMargin_ := JS.div notional_ leverage_ in
  let maintenanceMargin_ := JS.mul notional_ (JS.dec 4 3) in
  let percentage_ :=
    if JS.gtb entryPrice_ (JS.ofZ 0)
    then JS.mul (JS.mul (JS.div (JS.sub markPrice_ entryPrice_) entryPrice_) (JS.ofZ 100))
                (if JS.gtb (b_positionAmt p) (JS.ofZ 0) then JS.ofZ 1 else JS.ofZ (-1))
    else JS.ofZ 0 in
  {| symbol := b_symbol p;
     side := if JS.gtb (b_positionAmt p) (JS.ofZ 0) then long else short;
     contracts := contracts_;
     contractSize := JS.ofZ 1;
     entryPrice := entryPrice_;
     markPrice := markPrice_;
     notional := notional_;
     leverage := leverage_;
     unrealizedPnl := b_unRealizedProfit p;
     percentage := percentage_;
     liquidationPrice := b_liquidationPrice p;
     initialMargin := initialMargin_;
     maintenanceMargin := maintenanceMargin_ |}.

(** [positions.filter(...).map(...)] *)
Definition activePositions (positions : list BinancePosition) : list Position :=
  map convert (filter isOpen positions).

End Positions.

(** What the order engine reads of a converted position. *)
Definition readByEngine (p : Positions.Position) : Position :=
  {| pos_symbol := Positions.symbol p;
     pos_side := Positions.side p;
     pos_contracts := Positions.contracts p;
     pos_entryPrice := Positions.entryPrice p;
     pos_markPrice := Positions.markPrice p;
     pos_unrealizedPnl := Positions.unrealizedPnl p |}.

(* ================================================================= *)
(** ** Account summary: [getAccountInformationAndPerformance]
       (src/lib/trading/account-information-and-performance.ts)

    The function awaits the positions, the account information and the
    balance in this order and throws when one of them throws; what follows
    is the summary it computes from the first two (the balance is fetched
    and not read). *)

Module Account.

(** The fields of [fetchAccountInfo]'s value that the summary reads. *)
Record AccountInfo : Type := {
  totalWalletBalance : number;
  totalUnrealizedProfit : number;
  availableBalance : number
}.

Record AccountInformationAndPerformance : Type := {
  currentPositionsValue : number;
  contractValue : number;
  totalCashValue : number;
  availableCash : number;
  currentTotalReturn : number;
  positions : list Positions.Position;
  sharpeRatio : number
}.

(** [x || 0] *)
Definition orZero (x : number) : number :=
  if JS.truthy x then x else JS.ofZ 0.

(** [p.contracts !== 0] *)
Definition isActive (p : Positions.Position) : bool :=
  negb (JS.eqb (Positions.contracts p) (JS.ofZ 0)).

Definition getAccountInformationAndPerformance
  (allPositions : list Positions.Position) (accountInfo : AccountInfo)
  (initialCapital : option number) : AccountInformationAndPerformance :=
  let positions_ := filter isActive allPositions in
  let currentPositionsValue_ :=
    fold_left (fun acc position =>
                 JS.add (JS.add acc (orZero (Positions.initialMargin position)))
                        (orZero (Positions.unrealizedPnl position)))
              positions_ (JS.ofZ 0) in
  let contractValue_ :=
    fold_left (fun acc position => JS.add acc (orZero (Positions.contracts position)))
              positions_ (JS.ofZ 0) in
  let totalAccountValue := totalWalletBalance accountInfo in
  let availableCash_ := availableBalance accountInfo in
  let baseCapital := match initialCapital with
                     | Some c => c
                     | None => totalAccountValue
                     end in
  let currentTotalReturn_ :=
    if JS.gtb baseCapital (JS.ofZ 0)
    then JS.div (JS.sub totalAccountValue baseCapital) baseCapital
    else JS.ofZ 0 in
  let totalUnrealizedPnl := totalUnrealizedProfit accountInfo in
  let sharpeRatio_ :=
    if JS.gtb baseCapital (JS.ofZ 0) && JS.gtb (JS.abs totalUnrealizedPnl) (JS.dec 1 3)
    then JS.div currentTotalReturn_ (JS.abs (JS.div totalUnrealizedPnl baseCapital))
    else JS.ofZ 0 in
  {| currentPositionsValue := currentPositionsValue_;
     contractValue := contractValue_;
     totalCashValue := totalAccountValue;
     availableCash := availableCash_;
     currentTotalReturn := currentTotalReturn_;
     positions := positions_;
     sharpeRatio := sharpeRatio_ |}.

End Account.

(* ================================================================= *)
(** ** Stored metrics: the cron job
       (src/app/api/cron/20-seconds-metrics-interval/route.ts) *)

Module Metrics.

Definition MAX_METRICS_COUNT : Z := 10080.

(** [newMetrics = [...existing, point]], cut to the newest
    [MAX_METRICS_COUNT] entries by [slice(length - MAX_METRICS_COUNT)]. *)
Definition finalMetrics {A : Type} (existing : list A) (point : A) : list A :=
  let newMetrics := existing ++ [point] in
  if Z.of_nat (List.length newMetrics) >? MAX_METRICS_COUNT
  then skipn (Z.to_nat (Z.of_nat (List.length newMetrics) - MAX_METRICS_COUNT)) newMetrics
  else newMetrics.

(** The point the job appends: the account summary asked for without an
    initial capital. *)
Definition newPoint (allPositions : list Positions.Position)
  (accountInfo : Account.AccountInfo) : Account.AccountInformationAndPerformance :=
  Account.getAccountInformationAndPerformance allPositions accountInfo None.

End Metrics.

(* ================================================================= *)
(** ** Lessons: [analyzeTradeOutcome], [getLearningStats]
       (src/lib/ai/learning-feedback.ts) and the position monitor
       (src/lib/trading/account-information-and-performance.ts) *)

Module Lessons.

Inductive Outcome : Type := profit | loss | pending.

(** The columns of a stored lesson that the statistics read. *)
Record TradingLesson : Type := {
  outcome : Outcome;
  pnl : number
}.

(** [finalPnl >= 0 ? "profit" : "loss"] *)
Definition outcomeOf (finalPnl : number) : Outcome :=
  if JS.geb finalPnl (JS.ofZ 0) then profit else loss.

(** The row [analyzeTradeOutcome] stores for a closed trade. *)
Definition lessonOf (finalPnl : number) : TradingLesson :=
  {| outcome := outcomeOf finalPnl; pnl := finalPnl |}.

(** The position monitor knows no PnL: [const estimatedPnl = 0]. *)
Definition estimatedPnl : number := JS.ofZ 0.

(** The row [checkAndRecordClosedPositions] records for a closed position. *)
Definition monitorLesson : TradingLesson := lessonOf estimatedPnl.

Definition isProfit (l : TradingLesson) : bool :=
  match outcome l with profit => true | _ => false end.

Definition isLoss (l : TradingLesson) : bool :=
  match outcome l with loss => true | _ => false end.

(** [xs.reduce((sum, l) => sum + l.pnl, 0)] *)
Definition sumPnl (xs : list TradingLesson) : number :=
  fold_left (fun sum l => JS.add sum (pnl l)) xs (JS.ofZ 0).

Definition count (xs : list TradingLesson) : number :=
  JS.ofZ (Z.of_nat (List.length xs)).

(** [xs.length > 0 ? sum / xs.length : 0] *)
Definition average (xs : list TradingLesson) : number :=
  match xs with
  | [] => JS.ofZ 0
  | _ => JS.div (sumPnl xs) (count xs)
  end.

(** [losses.reduce((worst, current) => current.pnl < worst.pnl ? current : worst)] *)
Definition worstOf (losses : list TradingLesson) : option TradingLesson :=
  match losses with
  | [] => None
  | first :: rest =>
      Some (fold_left (fun worst current =>
                         if JS.ltb (pnl current) (pnl worst) then current else worst)
                      rest first)
  end.

Record LearningStats : Type := {
  total_trades : Z;
  winning_trades : Z;
  losing_trades : Z;
  win_rate : number;
  avg_profit : number;
  avg_loss : number;
  total_pnl : number;
  biggest_mistake : option TradingLesson
}.

(** [rows] are the lessons of the look-back window, newest first; the query
    takes the first 50. *)
Definition getLearningStats (rows : list TradingLesson) : LearningStats :=
  let lessons := firstn 50 rows in
  let profits := filter isProfit lessons in
  let losses := filter isLoss lessons in
  {| total_trades := Z.of_nat (List.length lessons);
     winning_trades := Z.of_nat (List.length profits);
     losing_trades := Z.of_nat (List.length losses);
     win_rate :=
       match lessons with
       | [] => JS.ofZ 0
       | _ => JS.mul (JS.div (count profits) (count lessons)) (JS.ofZ 100)
       end;
     avg_profit := average profits;
     avg_loss := average losses;
     total_pnl := sumPnl lessons;
     biggest_mistake := worstOf losses |}.

(** What [getDynamicRiskAdjustment] reads of the statistics. *)
Definition readByRisk (stats : LearningStats) : Learning.LearningStats :=
  {| Learning.win_rate := win_rate stats; Learning.total_pnl := total_pnl stats |}.

(** The adjustment [generateUserPrompt] puts into the prompt: none when
    there is no trade in the window. *)
Definition promptAdjustment (rows : list TradingLesson) : option Learning.RiskAdjustment :=
  let stats := getLearningStats rows in
  if total_trades stats >? 0
  then Some (Learning.getDynamicRiskAdjustment (readByRisk stats))
  else None.

End Lessons.

(* ================================================================= *)
(** ** Clock: [syncServerTime], [getAdjustedTimestamp]
       (src/lib/trading/binance-official.ts) *)

Module Clock.

(** What one attempt reads when the time request is answered with an ok
    response: the server time, the local time at that moment and the
    latency measured. *)
Record Reading : Type := {
  serverTime : number;
  now : number;
  latency : number
}.

Inductive Event : Type :=
| TimeRequest
| Wait (ms : Z).

(** The module variable and what happened so far. *)
Record State : Type := {
  serverTimeOffset : number;
  log : list Event
}.

(** [Math.floor(data.serverTime - (Date.now() + latency / 2))] *)
Definition offsetOf (r : Reading) : number :=
  JS.floor (JS.sub (serverTime r) (JS.add (now r) (JS.div (latency r) (JS.ofZ 2)))).

(** [for (attempt = 1; attempt <= 3; attempt++)]: a request; an ok answer
    stores the offset and returns; any failure waits [attempt * 1000] before
    the next attempt, not after the third.  After the loop the offset is
    reset to 0.  [answer] is [None] for a request that failed (rejected,
    timed out, not ok, or no JSON). *)
Fixpoint syncAttempts (answer : list Event -> option Reading) (attempts : list Z) (st : State)
  : State :=
  match attempts with
  | [] => {| serverTimeOffset := JS.ofZ 0; log := log st |}
  | attempt :: rest =>
      let asked := {| serverTimeOffset := serverTimeOffset st;
                      log := log st ++ [TimeRequest] |} in
      match answer (log st) with
      | Some reading => {| serverTimeOffset := offsetOf reading; log := log asked |}
      | None =>
          syncAttempts answer rest
            (if attempt <? 3
             then {| serverTimeOffset := serverTimeOffset asked;
                     log := log asked ++ [Wait (attempt * 1000)] |}
             else asked)
      end
  end.

Definition syncServerTime (answer : list Event -> option Reading) (st : State) : State :=
  syncAttempts answer [1; 2; 3] st.

(** [Math.floor(Date.now() + serverTimeOffset)] *)
Definition getAdjustedTimestamp (dateNow : number) (st : State) : number :=
  JS.floor (JS.add dateNow (serverTimeOffset st)).

End Clock.

(* ================================================================= *)
(** ** Market data: the retries of [getCurrentMarketState]
       (src/lib/trading/binance-official.ts, second part) *)

Module Market.

Inductive Event : Type :=
| Fetch (url : string)
| Wait (ms : Z).

(** How a request ends, given what happened so far: the parsed JSON, or the
    error of the attempt (rejected, aborted on time-out, not ok, no JSON). *)
Definition Server (A : Type) : Type := list Event -> outcome A.

(** A computation over the log of requests and waits. *)
Definition Run (A : Type) : Type := list Event -> outcome A * list Event.

(** [Math.min(1000 * Math.pow(2, attempt - 1), 8000)] *)
Definition delayOf (attempt : Z) : Z := Z.min (1000 * 2 ^ (attempt - 1)) 8000.

(** [for (attempt = 1; attempt <= maxRetries; attempt++)] of [fetchJson]:
    the first answer is returned; a failed attempt before the last waits
    [delayOf attempt]; after the loop the last error is thrown. *)
Fixpoint fetchAttempts {A} (server : Server A) (url : string) (maxRetries : Z)
  (attempts : list Z) (lastErr : option JsError) : Run A :=
  fun log_ =>
    match attempts with
    | [] =>
        (Thrown match lastErr with
                | Some e => e
                | None => newError "fetchJson failed after all retries"
                end, log_)
    | attempt :: rest =>
        match server log_ with
        | Ok json => (Ok json, log_ ++ [Fetch url])
        | Thrown e =>
            fetchAttempts server url maxRetries rest (Some e)
              (if attempt <? maxRetries
               then log_ ++ [Fetch url; Wait (delayOf attempt)]
               else log_ ++ [Fetch url])
        end
    end.

(** Only the first of the URLs is used, five times at most. *)
Definition fetchJson {A} (server : Server A) (paths : list string) : Run A :=
  fetchAttempts server (hd EmptyString paths) 5 [1; 2; 3; 4; 5] None.

(** [withRetry(fn, retries, delayMs)]: on failure, when retries are left,
    waits [delayMs] and calls itself with one retry less and twice the
    delay. *)
Fixpoint withRetry {A} (fn : Run A) (retries : nat) (delayMs : Z) : Run A :=
  fun log_ =>
    match fn log_ with
    | (Ok a, log1) => (Ok a, log1)
    | (Thrown err, log1) =>
        match retries with
        | O => (Thrown err, log1)
        | S retries' => withRetry fn retries' (delayMs * 2) (log1 ++ [Wait delayMs])
        end
    end.

(** One resource of the market state:
    [withRetry(() => fetchJson(urls).then(read))] with the defaults 2 and
    500.  [read] is what the caller does with the JSON inside the retried
    function: the conversion of the rows for the candles, which throws on
    a JSON that is no array, and nothing for the open interest and the
    funding rate. *)
Definition fetchResource {J A} (server : Server J) (paths : list string)
  (read : J -> outcome A) : Run A :=
  withRetry (fun log_ =>
               match fetchJson server paths log_ with
               | (Ok json, log1) => (read json, log1)
               | (Thrown e, log1) => (Thrown e, log1)
               end) 2 500.

Definition isFetch (ev : Event) : bool :=
  match ev with Fetch _ => true | Wait _ => false end.

(** The number of requests in a log, and the time waited. *)
Definition requests (log_ : list Event) : Z :=
  Z.of_nat (List.length (filter isFetch log_)).

Definition waited (log_ : list Event) : Z :=
  fold_right (fun ev total => match ev with Wait ms => ms + total | Fetch _ => total end)
             0 log_.

End Market.

(* ================================================================= *)
(** ** More worlds *)

Module Cases.

(** An open long of 0.01 BTC entered at 50000, now marked at 60000. *)
Definition btcLongInProfit : Position :=
  {| pos_symbol := "BTCUSDT"; pos_side := long;
     pos_contracts := JS.dec 1 2;
     pos_entryPrice := JS.ofZ 50000;
     pos_markPrice := JS.ofZ 60000;
     pos_unrealizedPnl := JS.ofZ 100 |}.

Definition staleTarget : OpenOrder :=
  {| oo_orderId := 8; oo_type := "TAKE_PROFIT_MARKET"; oo_positionSide := "BOTH" |}.

Definition restingLimit : OpenOrder :=
  {| oo_orderId := 9; oo_type := "LIMIT"; oo_positionSide := "BOTH" |}.

(** A one-way account holding [position], with [resting] open orders; every
    order and every cancellation is accepted. *)
Definition holding (position : Position) (resting : list OpenOrder) : Exchange :=
  {| session := Ok tt;
     onMarkPrice := fun _ _ => Ok (pos_markPrice position);
     onChangeInitialLeverage := fun _ _ _ => Ok tt;
     onPositionMode := fun _ => Some false;
     onNewOrder := fun _ _ => Ok (Some (Scenario.accepted 3001));
     onFetchPositions := fun _ => Ok [position];
     onGetCurrentMarketState := fun _ _ =>
       Ok {| current_price := pos_markPrice position; atr_14 := Some (JS.ofZ 500) |};
     onOpenOrders := fun _ _ => resting;
     onCancelOrder := fun _ _ _ => true |}.

(** Close 0.005 BTC, the amount given. *)
Definition sellAmountBtc : Exit.SellParams :=
  {| Exit.symbol := "BTC/USDT";
     Exit.percentage := None;
     Exit.amount := Some (JS.dec 5 3);
     Exit.price := None |}.

(** Buy 0.01 BTC at market, 10x, without protection. *)
Definition buyBtcUnprotected : Entry.BuyParams :=
  {| Entry.symbol := "BTC/USDT";
     Entry.amount := JS.dec 1 2;
     Entry.leverage := Some (JS.ofZ 10);
     Entry.price := None;
     Entry.autoSetStopLoss := Some false;
     Entry.stopLossPercent := None;
     Entry.takeProfitPercent := None |}.

(** The same account as [Scenario.exchange true true []] while Binance
    cannot be reached: the initialization has failed. *)
Definition offline : Exchange :=
  {| session := Thrown (newError "Failed to connect to Binance. Last error: timeout");
     onMarkPrice := onMarkPrice (Scenario.exchange true true []);
     onChangeInitialLeverage := onChangeInitialLeverage (Scenario.exchange true true []);
     onPositionMode := onPositionMode (Scenario.exchange true true []);
     onNewOrder := onNewOrder (Scenario.exchange true true []);
     onFetchPositions := onFetchPositions (Scenario.exchange true true []);
     onGetCurrentMarketState := onGetCurrentMarketState (Scenario.exchange true true []);
     onOpenOrders := onOpenOrders (Scenario.exchange true true []);
     onCancelOrder := onCancelOrder (Scenario.exchange true true []) |}.

(** Buy 0.00002 BTC at market, 5x: a fiftieth of the step of 0.001. *)
Definition buySpeckBtc : Entry.BuyParams :=
  {| Entry.symbol := "BTC/USDT";
     Entry.amount := JS.dec 2 5;
     Entry.leverage := Some (JS.ofZ 5);
     Entry.price := None;
     Entry.autoSetStopLoss := Some false;
     Entry.stopLossPercent := None;
     Entry.takeProfitPercent := None |}.

(** Buy 0.0002 BTC with a limit at 4000, 5x: scaled to 0.001 the order is
    worth 4 dollars. *)
Definition buyDustBtcAt4000 : Entry.BuyParams :=
  {| Entry.symbol := "BTC/USDT";
     Entry.amount := JS.dec 2 4;
     Entry.leverage := Some (JS.ofZ 5);
     Entry.price := Some (JS.ofZ 4000);
     Entry.autoSetStopLoss := Some false;
     Entry.stopLossPercent := None;
     Entry.takeProfitPercent := None |}.

(** A live configuration with the given daily loss limit, in percent. *)
Definition dailyLimit (percent : number) : Risk.RiskConfig :=
  {| Risk.tradingMode := Risk.Live;
     Risk.maxPositionSizeUSDT := JS.ofZ 1000;
     Risk.maxLeverage := JS.ofZ 10;
     Risk.dailyLossLimitPercent := percent |}.

(** [0.19999999999999998], the double just below [0.2] (whose mantissa is
    [7205759403792794] at the same exponent). *)
Definition justBelowOneFifth : number := S754_finite false 7205759403792793 (-55).

End Cases.

(* ================================================================= *)
(** ** Vocabulary of the further statements *)

(** The events of an exit: the session, the clock, the positions, sleeps,
    and market or limit orders that are reduce-only and name no position
    side. *)
Definition exitEvent (ev : Event) : Prop :=
  match ev with
  | GetBinanceInstance | SyncServerTime | FetchPositions | Sleep _ => True
  | NewOrder o =>
      (o_type o = MARKET \/ o_type o = LIMIT)
      /\ p_reduceOnly (o_params o) = true
      /\ p_positionSide (o_params o) = None
      /\ p_closePosition (o_params o) = false
  | _ => False
  end.

(** An exit that does not look at the positions and sells. *)
Definition blindSellEvent (ev : Event) : Prop :=
  match ev with
  | GetBinanceInstance | SyncServerTime | Sleep _ => True
  | NewOrder o => o_side o = SELL
  | _ => False
  end.

(** Everything the protection manager does before it creates an order. *)
Definition cleanupEvent (ev : Event) : Prop :=
  match ev with
  | GetBinanceInstance | QueryPositionMode | FetchPositions
  | GetCurrentMarketState _ | OpenOrders _ | CancelOrder _ _ | Sleep _ => True
  | _ => False
  end.

(** No leverage above 30 is asked for. *)
Definition leverageCapped (ev : Event) : Prop :=
  match ev with
  | ChangeInitialLeverage _ l => JS.gtb l (JS.ofZ 30) = false
  | _ => True
  end.

(** An entry without protection: no position is read, nothing is
    cancelled, no protective order is sent, nothing is logged as missing. *)
Definition bareEntryEvent (ev : Event) : Prop :=
  match ev with
  | GetBinanceInstance | SyncServerTime | QueryPositionMode | MarkPrice _
  | ChangeInitialLeverage _ _ | Sleep _ => True
  | NewOrder o => (o_type o = MARKET \/ o_type o = LIMIT) /\ o_side o = BUY
  | _ => False
  end.

(** A market or limit order: an entry or an exit, not a protective order. *)
Definition isTradeOrder (ev : Event) : bool :=
  match ev with
  | NewOrder o => match o_type o with MARKET | LIMIT => true | _ => false end
  | _ => false
  end.

(** [atMost n m]: whatever the state, [m] only appends events, at most [n]
    of them market or limit orders. *)
Definition atMost {A} (n : nat) (m : M A) : Prop :=
  forall st, exists evs,
    trace (snd (m st)) = trace st ++ evs
    /\ (List.length (filter isTradeOrder evs) <= n)%nat.

(** [preserves R m]: whatever the state, the state after [m] is related to
    it by [R]. *)
Definition preserves {A} (R : State -> State -> Prop) (m : M A) : Prop :=
  forall st, R st (snd (m st)).

(** A position mode once cached is still cached, with the same value. *)
Definition modeKept (st st' : State) : Prop :=
  (forall mode, modeCacheEntry st = Some mode -> modeCacheEntry st' = Some mode)
  /\ (forall mode, modeCacheProtection st = Some mode ->
                   modeCacheProtection st' = Some mode).

Definition sameEntryMode (st st' : State) : Prop :=
  modeCacheEntry st' = modeCacheEntry st.

Definition sameProtectionMode (st st' : State) : Prop :=
  modeCacheProtection st' = modeCacheProtection st.

Definition keepsMode {A} (m : M A) : Prop := preserves modeKept m.

(** The trailing stop has reached the entry price: at or above it for a
    long, at or below it for a short. *)
Definition trailedPastEntry (position : Position) (stop : number) : bool :=
  match pos_side position with
  | long => JS.geb stop (pos_entryPrice position)
  | short => JS.leb stop (pos_entryPrice position)
  end.

Definition pastEntryError (position : Position) (stop : number) : ErrorText :=
  match pos_side position with
  | long => StopLossMustBeBelowEntry stop (pos_entryPrice position)
  | short => StopLossMustBeAboveEntry stop (pos_entryPrice position)
  end.

Definition isLongPosition (position : Position) : bool :=
  match pos_side position with long => true | short => false end.

(** The cancellation requests for a list of open orders. *)
Definition cancellations (symbol : string) (orders : list OpenOrder) : list Event :=
  map (fun order => CancelOrder symbol (oo_orderId order)) orders.

(** The open orders the clean-up before a new protection selects: the
    protective ones, under dual-side mode those of the position's side. *)
Definition selectedFor (mode : PositionMode) (side : PositionSide) (order : OpenOrder)
  : bool :=
  match mode with
  | DUAL_SIDE =>
      Protection.isSlTpType order
      && String.eqb (oo_positionSide order) (Protection.sideText side)
  | ONE_WAY => Protection.isSlTpType order
  end.

(** *** The daily loss limit over the rationals *)

(** The exact value of a finite double times [2^k]; an integer when the
    exponent is at least [-k]. *)
Definition scaledBy (k : Z) (x : number) : option Z :=
  match x with
  | S754_zero _ => Some 0
  | S754_finite s m e =>
      if 0 <=? e + k then Some (JS.signedMantissa s m * 2 ^ (e + k)) else None
  | _ => None
  end.

(** [todayPnL < 0] and [|todayPnL| / initialCapital * 100 >= limit] in exact
    arithmetic, for a positive capital.  With [P], [C] and [L] the three
    values times [2^k], the ratio test is [|P| * 100 * 2^k >= L * C]. *)
Definition limitReachedExactly (k : Z) (todayPnL initialCapital limit : number)
  : option bool :=
  match scaledBy k todayPnL, scaledBy k initialCapital, scaledBy k limit with
  | Some P, Some C, Some L =>
      if 0 <? C
      then Some ((P <? 0) && (L * C <=? Z.abs P * 100 * 2 ^ k))
      else None
  | _, _, _ => None
  end.

(** *** The entry and its protection *)

(** The same entry with [autoSetStopLoss: false]: the order alone. *)
Definition entryAlone (params : Entry.BuyParams) : Entry.BuyParams :=
  {| Entry.symbol := Entry.symbol params;
     Entry.amount := Entry.amount params;
     Entry.leverage := Entry.leverage params;
     Entry.price := Entry.price params;
     Entry.autoSetStopLoss := Some false;
     Entry.stopLossPercent := Entry.stopLossPercent params;
     Entry.takeProfitPercent := Entry.takeProfitPercent params |}.

(** The request [buy] hands to [setStopLossTakeProfit]. *)
Definition protectionRequest (params : Entry.BuyParams)
  : Protection.StopLossTakeProfitParams :=
  {| Protection.symbol := Entry.symbol params;
     Protection.stopLoss := None;
     Protection.takeProfit := None;
     Protection.stopLossPercent := Entry.stopLossPercent params;
     Protection.takeProfitPercent := Entry.takeProfitPercent params |}.

(** One protection attempt made in state [st]. *)
Definition protectionAttempt (ex : Exchange) (params : Entry.BuyParams) (st : State)
  : outcome Protection.StopLossTakeProfitResult * State :=
  Protection.setStopLossTakeProfit ex (protectionRequest params) st.

(** The attempt failed: [success] is false, or the call threw. *)
Definition attemptFailed (run : outcome Protection.StopLossTakeProfitResult * State)
  : bool :=
  match fst run with
  | Ok slTpResult => negb (Protection.success slTpResult)
  | Thrown _ => true
  end.

(** *** The auto-scaled entry *)

(** The state of [buy] once the clock and the session have answered. *)
Definition connected (st : State) : State :=
  record GetBinanceInstance (record SyncServerTime (record GetBinanceInstance st)).

(** The price [buy] values the order at: the limit price when it is truthy,
    else the mark price the exchange answers at that point, else [1]. *)
Definition valuationPrice (ex : Exchange) (params : Entry.BuyParams) (st : State) : number :=
  match Entry.price params with
  | Some p =>
      if JS.truthy p then p
      else match onMarkPrice ex (trace (connected st))
                   (Str.removeFirstSlash (Entry.symbol params)) with
           | Ok markPrice => markPrice
           | Thrown _ => JS.ofZ 1
           end
  | None =>
      match onMarkPrice ex (trace (connected st))
              (Str.removeFirstSlash (Entry.symbol params)) with
      | Ok markPrice => markPrice
      | Thrown _ => JS.ofZ 1
      end
  end.

(** The state of [buy] once the order is valued: the mark price was asked
    for unless there is a limit price. *)
Definition valued (params : Entry.BuyParams) (st : State) : State :=
  if JS.truthyO (Entry.price params) then connected st
  else record (MarkPrice (Str.removeFirstSlash (Entry.symbol params))) (connected st).

(** The lookup of the position mode: the session, the clock, the query. *)
Definition modeLookup (ev : Event) : Prop :=
  match ev with
  | GetBinanceInstance | SyncServerTime | QueryPositionMode => True
  | _ => False
  end.

(* ================================================================= *)
(** * Properties *)

(** ** Comparisons of binary64 values *)

Lemma SFcompare_swap (x y : number) :
  SFcompare y x = match SFcompare x y with
                  | Some c => Some (CompOpp c)
                  | None => None
                  end.
Proof.
  destruct x as [sx | sx | | sx mx ex], y as [sy | sy | | sy my ey]; simpl;
    try reflexivity;
    try (destruct sx; reflexivity);
    try (destruct sy; reflexivity);
    try (destruct sx, sy; reflexivity).
  pose proof (Pos.compare_cont_antisym mx my Eq) as Hm. simpl in Hm.
  destruct sx, sy; simpl; try reflexivity;
    rewrite (Z.compare_antisym ex ey);
    destruct (ex ?= ey); simpl; try reflexivity;
    rewrite <- Hm; destruct (Pos.compare_cont Eq mx my); reflexivity.
Qed.

Lemma ltb_not_geb (x y : number) : JS.ltb x y = true -> JS.geb x y = false.
Proof.
  unfold JS.ltb, JS.geb, SFltb, SFleb. rewrite (SFcompare_swap x y).
  destruct (SFcompare x y) as [[ | | ] | ]; simpl; congruence.
Qed.

Lemma geb_not_ltb (x y : number) : JS.geb x y = true -> JS.ltb x y = false.
Proof.
  unfold JS.ltb, JS.geb, SFltb, SFleb. rewrite (SFcompare_swap x y).
  destruct (SFcompare x y) as [[ | | ] | ]; simpl; congruence.
Qed.

Lemma eqb_geb (x y : number) : JS.eqb x y = true -> JS.geb x y = true.
Proof.
  unfold JS.eqb, JS.geb, SFeqb, SFleb. rewrite (SFcompare_swap x y).
  destruct (SFcompare x y) as [[ | | ] | ]; simpl; congruence.
Qed.

(** The order of two finite values of the same sign is the lexicographic
    order of exponent and mantissa. *)
Lemma finite_lt_iff (m1 m2 : positive) (e1 e2 : Z) :
  match e1 ?= e2 with
  | Lt => Lt
  | Gt => Gt
  | Eq => Pos.compare_cont Eq m1 m2
  end = Lt <-> e1 < e2 \/ (e1 = e2 /\ (m1 < m2)%positive).
Proof.
  change (Pos.compare_cont Eq m1 m2) with (m1 ?= m2)%positive.
  destruct (Z.compare_spec e1 e2); destruct (Pos.compare_spec m1 m2);
    split; intros; try discriminate; try reflexivity; try lia.
  all: left; assumption.
Qed.

Lemma finite_gt_iff (m1 m2 : positive) (e1 e2 : Z) :
  match e1 ?= e2 with
  | Lt => Gt
  | Gt => Lt
  | Eq => CompOpp (Pos.compare_cont Eq m1 m2)
  end = Lt <-> e2 < e1 \/ (e1 = e2 /\ (m2 < m1)%positive).
Proof.
  change (Pos.compare_cont Eq m1 m2) with (m1 ?= m2)%positive.
  destruct (Z.compare_spec e1 e2); destruct (Pos.compare_spec m1 m2);
    simpl; split; intros; try discriminate; try reflexivity; try lia.
  all: left; assumption.
Qed.

Lemma ltb_trans (x y z : number) :
  JS.ltb x y = true -> JS.ltb y z = true -> JS.ltb x z = true.
Proof.
  unfold JS.ltb, SFltb.
  destruct x as [sx | sx | | sx mx ex], y as [sy | sy | | sy my ey],
           z as [sz | sz | | sz mz ez]; simpl;
    repeat match goal with s : bool |- _ => destruct s end; simpl;
    try congruence.
  - destruct (match ex ?= ey with Lt => Gt | Gt => Lt
                | Eq => CompOpp (Pos.compare_cont Eq mx my) end) eqn:E1; try discriminate.
    destruct (match ey ?= ez with Lt => Gt | Gt => Lt
                | Eq => CompOpp (Pos.compare_cont Eq my mz) end) eqn:E2; try discriminate.
    intros _ _. apply finite_gt_iff in E1, E2.
    assert (E3 : ez < ex \/ (ex = ez /\ (mz < mx)%positive)) by lia.
    apply finite_gt_iff in E3. rewrite E3. reflexivity.
  - destruct (match ex ?= ey with Lt => Lt | Gt => Gt
                | Eq => Pos.compare_cont Eq mx my end) eqn:E1; try discriminate.
    destruct (match ey ?= ez with Lt => Lt | Gt => Gt
                | Eq => Pos.compare_cont Eq my mz end) eqn:E2; try discriminate.
    intros _ _. apply finite_lt_iff in E1, E2.
    assert (E3 : ex < ez \/ (ex = ez /\ (mx < mz)%positive)) by lia.
    apply finite_lt_iff in E3. rewrite E3. reflexivity.
Qed.

(** A number that compares below something is comparable with any non-NaN. *)
Lemma ltb_then_total (x y z : number) :
  JS.ltb x z = true -> y <> S754_nan -> JS.ltb x y = false -> JS.geb x y = true.
Proof.
  unfold JS.ltb, JS.geb, SFltb, SFleb. intros Hxz Hy. rewrite (SFcompare_swap x y).
  destruct (SFcompare x y) as [[ | | ] | ] eqn:E; simpl; try congruence.
  destruct x, y; simpl in *; try discriminate; congruence.
Qed.

(** ** Daily loss limit *)

(** The check in the program's own terms: [checkDailyLossLimit] refuses
    exactly when today's PnL is negative and the loss percentage as the
    program computes it, the binary64 value of
    [|todayPnL| / initialCapital * 100], compares greater than or equal to the
    configured limit. *)
Lemma checkDailyLossLimit_compares_the_rounded_percentage :
  forall (todayPnL initialCapital : number) (config : Risk.RiskConfig),
    let lossPercent := JS.mul (JS.div (JS.abs todayPnL) initialCapital) (JS.ofZ 100) in
    let limit := Risk.dailyLossLimitPercent config in
    let verdict := Risk.allowed (Risk.checkDailyLossLimit todayPnL initialCapital config) in
    (verdict = false <->
       JS.ltb todayPnL (JS.ofZ 0) = true /\ JS.geb lossPercent limit = true)
    /\ (JS.ltb todayPnL (JS.ofZ 0) = true /\ JS.eqb lossPercent limit = true ->
        verdict = false)
    /\ (JS.ltb lossPercent limit = true -> verdict = true)
    /\ (JS.geb todayPnL (JS.ofZ 0) = true -> verdict = true).
Proof.
  intros todayPnL initialCapital config lossPercent limit verdict.
  assert (Hv : verdict = negb (JS.ltb todayPnL (JS.ofZ 0) && JS.geb lossPercent limit)).
  { unfold verdict, Risk.checkDailyLossLimit, Risk.lossPercentOf.
    fold lossPercent. fold limit.
    destruct (JS.ltb todayPnL (JS.ofZ 0) && JS.geb lossPercent limit); reflexivity. }
  split; [split | split; [ | split]].
  - intro H. rewrite Hv in H. apply negb_false_iff, andb_true_iff in H. exact H.
  - intros [H1 H2]. rewrite Hv, H1, H2. reflexivity.
  - intros [H1 H2]. rewrite Hv, H1, (eqb_geb _ _ H2). reflexivity.
  - intro H. rewrite Hv, (ltb_not_geb _ _ H), andb_false_r. reflexivity.
  - intro H. rewrite Hv, (geb_not_ltb _ _ H). reflexivity.
Qed.

(** C5 (where the code departs from it).  The loss percentage is rounded
    twice, after the division and after the multiplication, before it is
    compared with the limit.  A loss of 29 on a capital of 100 is a loss of
    29 percent, yet the program computes 28.999999999999996, the double
    just below 29, and allows trading under a limit of 29; the same happens for 290 on 1000 and for 57
    on 100 under a limit of 57.  In the other direction a loss of
    0.19999999999999998 on a capital of 1 is below 20 percent, yet the
    program computes 20 and refuses under a limit of 20. *)
Theorem checkDailyLossLimit_binary64_boundary_slips :
  (limitReachedExactly 60 (JS.ofZ (-29)) (JS.ofZ 100) (JS.ofZ 29) = Some true
   /\ Risk.allowed (Risk.checkDailyLossLimit (JS.ofZ (-29)) (JS.ofZ 100)
                      (Cases.dailyLimit (JS.ofZ 29))) = true
   /\ Risk.lossPercentOf (JS.ofZ (-29)) (JS.ofZ 100)
      = S754_finite false 8162774324609023 (-48)
   /\ JS.ofZ 29 = S754_finite false 8162774324609024 (-48))
  /\ (limitReachedExactly 60 (JS.ofZ (-290)) (JS.ofZ 1000) (JS.ofZ 29) = Some true
      /\ Risk.allowed (Risk.checkDailyLossLimit (JS.ofZ (-290)) (JS.ofZ 1000)
                         (Cases.dailyLimit (JS.ofZ 29))) = true)
  /\ (limitReachedExactly 60 (JS.ofZ (-57)) (JS.ofZ 100) (JS.ofZ 57) = Some true
      /\ Risk.allowed (Risk.checkDailyLossLimit (JS.ofZ (-57)) (JS.ofZ 100)
                         (Cases.dailyLimit (JS.ofZ 57))) = true)
  /\ (limitReachedExactly 60 (JS.neg Cases.justBelowOneFifth) (JS.ofZ 1) (JS.ofZ 20)
      = Some false
      /\ JS.ltb Cases.justBelowOneFifth (JS.dec 2 1) = true
      /\ Risk.checkDailyLossLimit (JS.neg Cases.justBelowOneFifth) (JS.ofZ 1)
                                  (Cases.dailyLimit (JS.ofZ 20))
         = {| Risk.allowed := false;
              Risk.reason := Some (Risk.DailyLossLimitReached (JS.ofZ 20) (JS.ofZ 20)) |}).
Proof. vm_compute. repeat split; reflexivity. Qed.

(** ** Risk multipliers *)

(** C8. [getDynamicRiskAdjustment] returns, for a win rate below 40, the
    multipliers 0.5 and 0.5 and the threshold 0.75; for a win rate in [40, 50),
    0.7, 0.7 and 0.70; for a win rate above 65, 1.2, 1.1 and 0.55; otherwise
    1.0, 1.0 and 0.60.  When the total PnL is below -10, both multipliers are
    then multiplied by 0.6 and the threshold becomes the larger of itself and
    0.75, which is at least 0.75.  A win rate of 35 with a PnL not below -10
    gives 0.5, 0.5 and 0.75. *)
Theorem getDynamicRiskAdjustment_table :
  forall stats : Learning.LearningStats,
    let r := Learning.getDynamicRiskAdjustment stats in
    let rate := Learning.win_rate stats in
    let values := (Learning.leverage_multiplier r,
                   Learning.position_size_multiplier r,
                   Learning.confidence_threshold r) in
    let penalised := JS.ltb (Learning.total_pnl stats) (JS.ofZ (-10)) in
    let adjusted (base : number * number * number) :=
      let '(l, s, c) := base in
      if penalised
      then (JS.mul l (JS.dec 6 1), JS.mul s (JS.dec 6 1), JS.max c (JS.dec 75 2))
      else (l, s, c) in
    (JS.ltb rate (JS.ofZ 40) = true ->
       values = adjusted (JS.dec 5 1, JS.dec 5 1, JS.dec 75 2))
    /\ (JS.geb rate (JS.ofZ 40) = true /\ JS.ltb rate (JS.ofZ 50) = true ->
       values = adjusted (JS.dec 7 1, JS.dec 7 1, JS.dec 70 2))
    /\ (JS.gtb rate (JS.ofZ 65) = true ->
       values = adjusted (JS.dec 12 1, JS.dec 11 1, JS.dec 55 2))
    /\ (JS.ltb rate (JS.ofZ 40) = false /\
        JS.geb rate (JS.ofZ 40) && JS.ltb rate (JS.ofZ 50) = false /\
        JS.gtb rate (JS.ofZ 65) = false ->
       values = adjusted (JS.ofZ 1, JS.ofZ 1, JS.dec 60 2))
    /\ (penalised = true ->
       JS.geb (Learning.confidence_threshold r) (JS.dec 75 2) = true)
    /\ (rate = JS.ofZ 35 /\ penalised = false ->
       values = (JS.dec 5 1, JS.dec 5 1, JS.dec 75 2)).
Proof.
  intros stats r rate values penalised adjusted.
  assert (Hvalues : values = adjusted (Learning.byWinRate stats)).
  { unfold values, r, adjusted, Learning.getDynamicRiskAdjustment.
    destruct (Learning.byWinRate stats) as [[l s] c]. fold penalised.
    destruct penalised; reflexivity. }
  assert (H70 : JS.dec 70 2 = JS.dec 7 1) by (vm_compute; reflexivity).
  assert (H60 : JS.dec 60 2 = JS.dec 6 1) by (vm_compute; reflexivity).
  split; [ | split; [ | split; [ | split; [ | split ]]]].
  - intro H. rewrite Hvalues. unfold Learning.byWinRate. fold rate. rewrite H.
    reflexivity.
  - intros [H1 H2]. rewrite Hvalues. unfold Learning.byWinRate. fold rate.
    rewrite (geb_not_ltb _ _ H1), H2, H70. reflexivity.
  - intro H. rewrite Hvalues. unfold Learning.byWinRate. fold rate.
    assert (H50 : JS.ltb rate (JS.ofZ 50) = false).
    { destruct (JS.ltb rate (JS.ofZ 50)) eqn:E; [ | reflexivity].
      pose proof (ltb_trans _ _ _ H E) as F. vm_compute in F. discriminate. }
    assert (H40 : JS.ltb rate (JS.ofZ 40) = false).
    { destruct (JS.ltb rate (JS.ofZ 40)) eqn:E; [ | reflexivity].
      pose proof (ltb_trans _ _ _ H E) as F. vm_compute in F. discriminate. }
    rewrite H40, H50, H. reflexivity.
  - intros (H1 & H2 & H3). rewrite Hvalues. unfold Learning.byWinRate. fold rate.
    rewrite H1, H3.
    destruct (JS.ltb rate (JS.ofZ 50)) eqn:E.
    + rewrite (ltb_then_total rate (JS.ofZ 40) (JS.ofZ 50) E) in H2;
        [ discriminate | vm_compute; discriminate | exact H1 ].
    + rewrite H60. reflexivity.
  - intro Hp. unfold r, Learning.getDynamicRiskAdjustment.
    fold penalised. rewrite Hp. unfold Learning.byWinRate.
    destruct (JS.ltb (Learning.win_rate stats) (JS.ofZ 40));
      [ vm_compute; reflexivity | ].
    destruct (JS.ltb (Learning.win_rate stats) (JS.ofZ 50));
      [ vm_compute; reflexivity | ].
    destruct (JS.gtb (Learning.win_rate stats) (JS.ofZ 65)); vm_compute; reflexivity.
  - intros [H1 H2]. rewrite Hvalues. unfold Learning.byWinRate. fold rate.
    rewrite H1. unfold adjusted. rewrite H2. reflexivity.
Qed.

(** ** Precision rounding *)

(** C6 (where the code departs from it).  In binary64 the product
    [amount * factor] is rounded before [Math.floor] sees it.
    With two decimals, 0.575 is cut to 0.57, and 0.57 is then cut to 0.56
    (0.57 * 100 is 56.99999999999999): rounding twice differs from rounding
    once.  With one decimal, 0.8999999999999999 becomes 0.9
    (0.8999999999999999 * 10 is 9): the result is above the amount.  The exit
    side shares the function and the two rows. *)
Theorem adjustPrecision_binary64_slips :
  (Entry.adjustPrecision (JS.dec 575 3) "ETHUSDT" = JS.dec 57 2
   /\ Entry.adjustPrecision (Entry.adjustPrecision (JS.dec 575 3) "ETHUSDT") "ETHUSDT"
      = JS.dec 56 2
   /\ JS.eqb (JS.dec 56 2) (JS.dec 57 2) = false)
  /\ (Entry.adjustPrecision (JS.dec 8999999999999999 16) "BNBUSDT" = JS.dec 9 1
      /\ JS.leb (JS.dec 9 1) (JS.dec 8999999999999999 16) = false)
  /\ (Exit.adjustPrecision (Exit.adjustPrecision (JS.dec 575 3) "ETHUSDT") "ETHUSDT"
      = JS.dec 56 2
      /\ Exit.adjustPrecision (JS.dec 575 3) "ETHUSDT" = JS.dec 57 2
      /\ Exit.adjustPrecision (JS.dec 8999999999999999 16) "BNBUSDT" = JS.dec 9 1).
Proof. vm_compute. repeat split; reflexivity. Qed.

(** Unknown symbols are rounded at three decimals, unless the name is one
    every object inherits. *)
Lemma adjustPrecision_unknown_symbol (t : Precision.Table) (amount : number) (symbol : string) :
  Precision.lookup t symbol = None ->
  Precision.inherited symbol = false ->
  Precision.adjustPrecisionWith t amount symbol
  = JS.div (JS.floor (JS.mul amount (JS.ofZ 1000))) (JS.ofZ 1000).
Proof.
  intros H Hi. unfold Precision.adjustPrecisionWith, Precision.configOf.
  rewrite H, Hi. reflexivity.
Qed.

(** For a name found on [Object.prototype] the factor is NaN and so is the
    rounded amount, whatever the amount. *)
Lemma adjustPrecision_inherited_member (t : Precision.Table) (amount : number) (symbol : string) :
  Precision.lookup t symbol = None ->
  Precision.inherited symbol = true ->
  Precision.adjustPrecisionWith t amount symbol = JS.NaN.
Proof.
  intros H Hi. unfold Precision.adjustPrecisionWith, Precision.configOf.
  rewrite H, Hi. cbn [Precision.factorOf].
  destruct amount as [s | s | | s m e]; reflexivity.
Qed.

(** Such an entry is not auto-scaled, and no notional value is too small for
    it: every comparison with NaN is false. *)
Lemma inherited_member_is_not_scaled (amount : number) (symbol : string) (price : option number) :
  Precision.lookup Entry.SYMBOL_PRECISION symbol = None ->
  Precision.inherited symbol = true ->
  Entry.needsScaling amount symbol = false
  /\ Entry.checkMinNotional amount symbol price = None.
Proof.
  intros H Hi. split.
  - unfold Entry.needsScaling, Entry.adjustPrecision.
    rewrite (adjustPrecision_inherited_member _ _ _ H Hi). reflexivity.
  - unfold Entry.checkMinNotional, Precision.configOf. rewrite H, Hi.
    destruct price as [p |]; [| reflexivity].
    destruct (JS.truthy p); [| reflexivity].
    cbn [Precision.minNotionalOf].
    replace (JS.ltb (JS.mul amount p) JS.NaN) with false; [reflexivity |].
    unfold JS.ltb, SFltb. destruct (JS.mul amount p); reflexivity.
Qed.

(** ** Local validation of [buy] *)

(** C10. When the symbol has no slash, or the amount is at most zero, or the
    leverage (10 when absent) is below 1 or above 30, [buy] returns a failure
    with an error text and leaves the state as it was: nothing is asked of
    the session or the exchange. *)
Theorem buy_rejects_invalid_arguments_locally :
  forall (ex : Exchange) (params : Entry.BuyParams) (st : State),
    Str.includesSlash (Entry.symbol params) = false
    \/ JS.leb (Entry.amount params) (JS.ofZ 0) = true
    \/ JS.ltb (Entry.leverageOf params) (JS.ofZ 1) = true
    \/ JS.gtb (Entry.leverageOf params) (JS.ofZ 30) = true ->
    exists e : ErrorText,
      Entry.buy ex params st = (Ok (Entry.failure e), st)
      /\ Entry.success (Entry.failure e) = false
      /\ Entry.error (Entry.failure e) = Some e.
Proof.
  intros ex params st H.
  assert (Hv : exists e, Entry.validate params = Some e).
  { unfold Entry.validate.
    destruct (negb (JS.truthyS (Entry.symbol params))
              || negb (Str.includesSlash (Entry.symbol params))) eqn:E1;
      [ eexists; reflexivity | ].
    destruct (JS.leb (Entry.amount params) (JS.ofZ 0)) eqn:E2;
      [ eexists; reflexivity | ].
    destruct (JS.ltb (Entry.leverageOf params) (JS.ofZ 1)
              || JS.gtb (Entry.leverageOf params) (JS.ofZ 30)) eqn:E3;
      [ eexists; reflexivity | ].
    exfalso. apply orb_false_iff in E1, E3. destruct E1 as [_ E1], E3 as [E3 E4].
    apply negb_false_iff in E1.
    destruct H as [H | [H | [H | H]]]; congruence. }
  destruct Hv as [e He]. exists e. unfold Entry.buy. rewrite He.
  repeat split.
Qed.

Lemma buy_rejects_invalid_arguments_locally_witness :
  exists e : ErrorText,
    Entry.buy Scenario.refusing Scenario.buyNothing Scenario.fresh
    = (Ok (Entry.failure e), Scenario.fresh)
    /\ Entry.success (Entry.failure e) = false
    /\ Entry.error (Entry.failure e) = Some e.
Proof.
  apply (buy_rejects_invalid_arguments_locally
           Scenario.refusing Scenario.buyNothing Scenario.fresh).
  right. left. vm_compute. reflexivity.
Defined.

(* ================================================================= *)
(** ** Runs, traces and footprints *)

(** *** Running monadic code *)

Lemma bind_run {A B} (m : M A) (f : A -> M B) (st st' : State) (r : outcome B) :
  bind m f st = (r, st') ->
  (exists e, m st = (Thrown e, st') /\ r = Thrown e)
  \/ (exists a st1, m st = (Ok a, st1) /\ f a st1 = (r, st')).
Proof.
  unfold bind. destruct (m st) as [[a | e] st1]; intro H.
  - right. exists a, st1. split; [reflexivity | exact H].
  - left. exists e. inversion H; subst. split; reflexivity.
Qed.

Lemma tryCatch_run {A} (m : M A) (h : JsError -> M A) (st st' : State) (r : outcome A) :
  tryCatch m h st = (r, st') ->
  (exists a, m st = (Ok a, st') /\ r = Ok a)
  \/ (exists e st1, m st = (Thrown e, st1) /\ h e st1 = (r, st')).
Proof.
  unfold tryCatch. destruct (m st) as [[a | e] st1]; intro H.
  - left. exists a. inversion H; subst. split; reflexivity.
  - right. exists e, st1. split; [reflexivity | exact H].
Qed.

(** *** What a computation adds to the trace *)

Lemma emits_weaken {A} (P Q : Event -> Prop) (m : M A) :
  (forall ev, P ev -> Q ev) -> emits P m -> emits Q m.
Proof.
  intros HPQ Hm st. destruct (Hm st) as (evs & Ht & Hall).
  exists evs. split; [exact Ht | ]. eapply Forall_impl; eauto.
Qed.

Lemma emits_ret {A} (P : Event -> Prop) (a : A) : emits P (ret a).
Proof. intro st. exists []. simpl. rewrite app_nil_r. auto. Qed.

Lemma emits_throw {A} (P : Event -> Prop) (e : JsError) : emits P (@throw A e).
Proof. intro st. exists []. simpl. rewrite app_nil_r. auto. Qed.

Lemma emits_bind {A B} (P : Event -> Prop) (m : M A) (f : A -> M B) :
  emits P m -> (forall a, emits P (f a)) -> emits P (bind m f).
Proof.
  intros Hm Hf st. unfold bind. destruct (Hm st) as (evs1 & Ht1 & Hall1).
  destruct (m st) as [[a | e] st1]; simpl in *.
  - destruct (Hf a st1) as (evs2 & Ht2 & Hall2).
    exists (evs1 ++ evs2). rewrite Ht2, Ht1, app_assoc. split; [reflexivity | ].
    apply Forall_app; auto.
  - exists evs1. auto.
Qed.

Lemma emits_tryCatch {A} (P : Event -> Prop) (m : M A) (h : JsError -> M A) :
  emits P m -> (forall e, emits P (h e)) -> emits P (tryCatch m h).
Proof.
  intros Hm Hh st. unfold tryCatch. destruct (Hm st) as (evs1 & Ht1 & Hall1).
  destruct (m st) as [[a | e] st1]; simpl in *.
  - exists evs1. auto.
  - destruct (Hh e st1) as (evs2 & Ht2 & Hall2).
    exists (evs1 ++ evs2). rewrite Ht2, Ht1, app_assoc. split; [reflexivity | ].
    apply Forall_app; auto.
Qed.

Lemma emits_settle {A} (P : Event -> Prop) (m : M A) : emits P m -> emits P (settle m).
Proof.
  intros Hm st. unfold settle. destruct (Hm st) as (evs & Ht & Hall).
  destruct (m st) as [r st1]. exists evs. auto.
Qed.

Lemma emits_ask {A} (P : Event -> Prop) (ev : Event) (answer : list Event -> outcome A) :
  P ev -> emits P (ask ev answer).
Proof. intros Hev st. exists [ev]. simpl. auto. Qed.

Lemma emits_emit (P : Event -> Prop) (ev : Event) : P ev -> emits P (emit ev).
Proof. intros Hev st. exists [ev]. simpl. auto. Qed.

(** From a run and the footprint of the computation: the added events. *)
Lemma emits_extends {A} (P : Event -> Prop) (m : M A) (st st' : State) (r : outcome A) :
  emits P m -> m st = (r, st') -> exists evs, trace st' = trace st ++ evs /\ Forall P evs.
Proof.
  intros Hm Hrun. destruct (Hm st) as (evs & Ht & Hall). rewrite Hrun in Ht.
  exists evs. auto.
Qed.

(** *** Footprints *)

Ltac footprint :=
  repeat first
    [ apply emits_ret
    | apply emits_throw
    | apply emits_ask; simpl; auto
    | apply emits_emit; simpl; auto
    | apply emits_settle
    | apply emits_bind; [ | intro ]
    | apply emits_tryCatch; [ | intro ]
    | progress intros ].

Lemma awaitBinanceInstance_protection ex : emits protectionEvent (awaitBinanceInstance ex).
Proof. unfold awaitBinanceInstance. footprint. Qed.

Lemma setCache_protection_emits (P : Event -> Prop) m : emits P (Protection.setCache m).
Proof. intro st. exists []. simpl. rewrite app_nil_r. auto. Qed.

Lemma getPositionMode_protection ex : emits protectionEvent (Protection.getPositionMode ex).
Proof.
  intro st. unfold Protection.getPositionMode.
  destruct (modeCacheProtection st) as [m | ].
  - exists []. simpl. rewrite app_nil_r. auto.
  - revert st.
    change (emits protectionEvent
              (tryCatch
                 (awaitBinanceInstance ex ;;;
                  m <- queryPositionMode ex ;; Protection.setCache m ;;; ret m)
                 (fun _ => Protection.setCache ONE_WAY ;;; ret ONE_WAY))).
    unfold awaitBinanceInstance, queryPositionMode.
    footprint; apply setCache_protection_emits.
Qed.

Lemma cancelEach_protection ex symbol orders count :
  emits protectionEvent (Protection.cancelEach ex symbol orders count).
Proof.
  revert count. induction orders as [ | order rest IH]; intro count; simpl.
  - footprint.
  - unfold cancelOrder. footprint. apply IH.
Qed.

Lemma cancelStopLossTakeProfitForPosition_protection ex symbol side :
  emits protectionEvent (Protection.cancelStopLossTakeProfitForPosition ex symbol side).
Proof.
  unfold Protection.cancelStopLossTakeProfitForPosition.
  apply emits_tryCatch; [ | footprint ].
  apply emits_bind; [ apply awaitBinanceInstance_protection | intros _ ].
  apply emits_bind; [ apply getPositionMode_protection | intro mode ].
  apply emits_bind; [ unfold openOrders; footprint | intro orders ].
  match goal with |- emits _ (match ?l with _ => _ end) => destruct l end.
  - footprint.
  - apply emits_bind; [ apply cancelEach_protection | footprint ].
Qed.

Lemma prepare_protection ex params : emits protectionEvent (Protection.prepare ex params).
Proof.
  unfold Protection.prepare.
  apply emits_bind; [ apply awaitBinanceInstance_protection | intros _ ].
  apply emits_bind; [ unfold fetchPositions; footprint | intro positions ].
  destruct (find _ positions) as [position | ]; [ | footprint ].
  destruct (JS.eqb _ _); [ footprint | ].
  apply emits_bind.
  - match goal with |- emits _ (if ?c then _ else _) => destruct c end.
    + apply emits_tryCatch; [ | footprint ].
      apply emits_bind; [ unfold getCurrentMarketState; footprint | intro ms ].
      destruct (Protection.percentsFromATR ms _). footprint.
    + footprint.
  - intros [sl tp].
    apply emits_bind.
    + apply emits_tryCatch; [ | footprint ].
      apply emits_bind;
        [ apply cancelStopLossTakeProfitForPosition_protection | intro c ].
      destruct (0 <? _); unfold sleep; footprint.
    + intros _. apply emits_bind; [ apply getPositionMode_protection | footprint ].
Qed.

Lemma createStopLoss_protection ex plan : emits protectionEvent (Protection.createStopLoss ex plan).
Proof.
  unfold Protection.createStopLoss.
  destruct (Protection.finalStopLoss plan) as [stop | ]; [ | footprint ].
  destruct (JS.truthy stop); [ | footprint ].
  destruct (_ && _); [ footprint | ].
  destruct (_ && _); [ footprint | ].
  apply emits_tryCatch; [ | footprint ].
  apply emits_bind; [ unfold newOrder; footprint | intros [d | ]; footprint ].
Qed.

Lemma createTakeProfit_protection ex plan :
  emits protectionEvent (Protection.createTakeProfit ex plan).
Proof.
  unfold Protection.createTakeProfit.
  destruct (Protection.finalTakeProfit plan) as [target | ]; [ | footprint ].
  destruct (JS.truthy target); [ | footprint ].
  destruct (_ && _); [ footprint | ].
  destruct (_ && _); [ footprint | ].
  apply emits_tryCatch; [ | footprint ].
  apply emits_bind; [ unfold newOrder; footprint | intros [d | ]; footprint ].
Qed.

Lemma create_protection ex plan : emits protectionEvent (Protection.create ex plan).
Proof.
  unfold Protection.create.
  apply emits_bind; [ apply createStopLoss_protection | intros [early | slId] ];
    [ footprint | ].
  apply emits_bind; [ apply createTakeProfit_protection | intros [early | tpId] ];
    footprint.
Qed.

Lemma setStopLossTakeProfit_protection ex params :
  emits protectionEvent (Protection.setStopLossTakeProfit ex params).
Proof.
  unfold Protection.setStopLossTakeProfit.
  destruct (_ || _); [ footprint | ].
  apply emits_tryCatch; [ | footprint ].
  apply emits_bind; [ apply prepare_protection | intros [early | plan] ];
    [ footprint | apply create_protection ].
Qed.

(** *** Computations that never throw *)

Lemma total_ret {A} (a : A) : total (ret a).
Proof. intro st. exists a, st. reflexivity. Qed.

Lemma total_bind {A B} (m : M A) (f : A -> M B) :
  total m -> (forall a, total (f a)) -> total (bind m f).
Proof.
  intros Hm Hf st. unfold bind. destruct (Hm st) as (a & st1 & E). rewrite E.
  apply Hf.
Qed.

Lemma total_settle {A} (m : M A) : total (settle m).
Proof.
  intro st. unfold settle. destruct (m st) as [r st1]. exists r, st1. reflexivity.
Qed.

Lemma total_emit (ev : Event) : total (emit ev).
Proof. intro st. eexists. eexists. reflexivity. Qed.

Lemma total_tryCatch {A} (m : M A) (h : JsError -> M A) :
  (forall e, total (h e)) -> total (tryCatch m h).
Proof.
  intros Hh st. unfold tryCatch. destruct (m st) as [[a | e] st1].
  - exists a, st1. reflexivity.
  - apply Hh.
Qed.

Lemma protectionBackoff_total attempt : total (Entry.protectionBackoff attempt).
Proof.
  unfold Entry.protectionBackoff, sleep.
  destruct (attempt <? 3); [ apply total_emit | apply total_ret ].
Qed.

Lemma protectAttempts_total ex params attempts :
  total (Entry.protectAttempts ex params attempts).
Proof.
  induction attempts as [ | attempt rest IH]; simpl.
  - apply total_ret.
  - apply total_bind; [ apply total_settle | intros [res | e] ].
    + destruct (Protection.success res); [ apply total_ret | ].
      apply total_bind; [ apply protectionBackoff_total | intros _; exact IH ].
    + apply total_bind; [ apply protectionBackoff_total | intros _; exact IH ].
Qed.

Lemma protect_total ex params : total (Entry.protect ex params).
Proof.
  unfold Entry.protect.
  destruct (Entry.autoSetStopLossOf params); [ | apply total_ret ].
  apply total_bind; [ apply total_emit | intros _ ].
  apply total_bind; [ apply protectAttempts_total | intros [ | ] ];
    [ apply total_ret | apply total_emit ].
Qed.

Lemma currentPriceOf_total ex symbol price : total (Entry.currentPriceOf ex symbol price).
Proof.
  unfold Entry.currentPriceOf.
  destruct price as [p | ]; [ destruct (JS.truthy p); [ apply total_ret | ] | ];
    apply total_tryCatch; intro; apply total_ret.
Qed.

(** *** Footprint of the entry *)

Lemma ensureTimeSync_entry ex q l : emits (entryEvent q l) (ensureTimeSync ex).
Proof. unfold ensureTimeSync, awaitBinanceInstance. footprint. Qed.

Lemma awaitBinanceInstance_entry ex q l : emits (entryEvent q l) (awaitBinanceInstance ex).
Proof. unfold awaitBinanceInstance. footprint. Qed.

Lemma setCache_entry_emits (P : Event -> Prop) m : emits P (Entry.setCache m).
Proof. intro st. exists []. simpl. rewrite app_nil_r. auto. Qed.

Lemma getPositionMode_entry ex q l : emits (entryEvent q l) (Entry.getPositionMode ex).
Proof.
  intro st. unfold Entry.getPositionMode.
  destruct (modeCacheEntry st) as [m | ].
  - exists []. simpl. rewrite app_nil_r. auto.
  - revert st.
    change (emits (entryEvent q l)
              (tryCatch
                 (awaitBinanceInstance ex ;;; ensureTimeSync ex ;;;
                  m <- queryPositionMode ex ;; Entry.setCache m ;;; ret m)
                 (fun _ => Entry.setCache ONE_WAY ;;; ret ONE_WAY))).
    unfold ensureTimeSync, awaitBinanceInstance, queryPositionMode.
    footprint; apply setCache_entry_emits.
Qed.

Lemma currentPriceOf_entry ex symbol price q l :
  emits (entryEvent q l) (Entry.currentPriceOf ex symbol price).
Proof.
  unfold Entry.currentPriceOf, markPrice.
  destruct price as [p | ]; [ destruct (JS.truthy p) | ]; footprint.
Qed.

Lemma entryOrder_is_entry symbol q l price mode :
  entryEvent q l (NewOrder (Entry.entryOrder symbol q price mode)).
Proof.
  simpl. split; [ destruct (JS.truthyO price); auto | split; reflexivity ].
Qed.

Lemma submitAttempts_entry ex symbol q l price mode attempts lastError :
  emits (entryEvent q l)
        (Entry.submitAttempts ex (Entry.entryOrder symbol q price mode) attempts lastError).
Proof.
  revert lastError. induction attempts as [ | attempt rest IH]; intro lastError; simpl.
  - footprint.
  - apply emits_bind.
    + apply emits_settle. unfold newOrder. apply emits_ask. apply entryOrder_is_entry.
    + intros [data | e]; [ footprint | ].
      destruct (attempt <? 3); [ | footprint ].
      apply emits_bind; [ unfold sleep; footprint | intros _; apply IH ].
Qed.

Lemma submit_entry ex symbol q l price mode :
  emits (entryEvent q l) (Entry.submit ex (Entry.entryOrder symbol q price mode)).
Proof.
  unfold Entry.submit.
  apply emits_bind; [ apply submitAttempts_entry | ].
  intros [[d | ] [e | ]]; footprint.
Qed.

Lemma protectAttempts_protection ex params attempts :
  emits protectionEvent (Entry.protectAttempts ex params attempts).
Proof.
  induction attempts as [ | attempt rest IH]; simpl.
  - footprint.
  - apply emits_bind;
      [ apply emits_settle, setStopLossTakeProfit_protection | intros [res | e] ].
    + destruct (Protection.success res); [ footprint | ].
      apply emits_bind; [ | intros _; exact IH ].
      unfold Entry.protectionBackoff, sleep. destruct (attempt <? 3); footprint.
    + apply emits_bind; [ | intros _; exact IH ].
      unfold Entry.protectionBackoff, sleep. destruct (attempt <? 3); footprint.
Qed.

Lemma protect_emits ex params :
  emits (fun ev => protectionEvent ev \/ isWarn ev) (Entry.protect ex params).
Proof.
  unfold Entry.protect.
  destruct (Entry.autoSetStopLossOf params); [ | footprint ].
  apply emits_bind; [ unfold sleep; footprint | intros _ ].
  apply emits_bind.
  - eapply emits_weaken; [ | apply protectAttempts_protection ]. auto.
  - intros [ | ]; footprint.
Qed.

Lemma execute_emits ex params symbol q l :
  emits (executeEvent q l) (Entry.execute ex params symbol q l).
Proof.
  unfold Entry.execute.
  destruct (if JS.truthyO (Entry.price params) then _ else _); [ footprint | ].
  apply emits_bind.
  { apply emits_weaken with (P := entryEvent q l); [ left; assumption | ].
    unfold changeInitialLeverage. footprint. }
  intros _. apply emits_bind.
  { apply emits_weaken with (P := entryEvent q l); [ left; assumption | ].
    apply getPositionMode_entry. }
  intro mode. apply emits_bind.
  { apply emits_weaken with (P := entryEvent q l); [ left; assumption | ].
    apply submit_entry. }
  intro d. apply emits_bind; [ | footprint ].
  eapply emits_weaken; [ | apply protect_emits ]. unfold executeEvent. tauto.
Qed.

(** ** Results, never exceptions *)

(** X1. The three exposed operations always return a result value: whatever the
    exchange answers or throws, [buy], [sell] and [setStopLossTakeProfit]
    never throw. *)
Theorem exposed_operations_never_throw :
  forall (ex : Exchange),
    (forall params, total (Entry.buy ex params))
    /\ (forall params, total (Exit.sell ex params))
    /\ (forall params, total (Protection.setStopLossTakeProfit ex params)).
Proof.
  intro ex. split; [ | split ]; intro params.
  - unfold Entry.buy. destruct (Entry.validate params); [ apply total_ret | ].
    apply total_tryCatch. intro e. apply total_ret.
  - unfold Exit.sell. destruct (Exit.validate params); [ apply total_ret | ].
    apply total_tryCatch. intro e. apply total_ret.
  - unfold Protection.setStopLossTakeProfit.
    destruct (_ || _); [ apply total_ret | ].
    apply total_tryCatch. intro e. apply total_ret.
Qed.

(** X2. The protection manager only awaits the session, reads positions, market
    state and open orders, cancels, sleeps, and sends stop-market and
    take-profit-market orders: it never changes the leverage and never sends a
    market or limit order. *)
Theorem setStopLossTakeProfit_sends_protective_orders_only :
  forall (ex : Exchange) (params : Protection.StopLossTakeProfitParams) (st : State),
  exists evs : list Event,
    trace (snd (Protection.setStopLossTakeProfit ex params st)) = trace st ++ evs
    /\ Forall protectionEvent evs.
Proof. intros ex params st. apply setStopLossTakeProfit_protection. Qed.

(** X3. The minimum amount [buy] scales to: [10^-q] for the symbol's quantity
    decimals [q], except that a precision of 0 decimals is read as missing
    and gives [10^-3], like an unknown symbol. *)
Theorem buy_minimum_amount_by_symbol :
  Entry.minAmountOf "BTCUSDT" = JS.dec 1 3
  /\ Entry.minAmountOf "ETHUSDT" = JS.dec 1 2
  /\ Entry.minAmountOf "BNBUSDT" = JS.dec 1 1
  /\ Entry.minAmountOf "SOLUSDT" = JS.dec 1 3
  /\ Entry.minAmountOf "ADAUSDT" = JS.dec 1 3
  /\ Entry.minAmountOf "DOGEUSDT" = JS.dec 1 3
  /\ (forall symbol, Precision.lookup Entry.SYMBOL_PRECISION symbol = None ->
                     Entry.minAmountOf symbol = JS.dec 1 3).
Proof.
  repeat split; try (vm_compute; reflexivity).
  intros symbol H. unfold Entry.minAmountOf, Precision.minAmountWith. rewrite H.
  vm_compute. reflexivity.
Qed.

(* ================================================================= *)
(** ** The entry: protection outcome and auto-scaling *)

Lemma quietUnless_emits {A} (good : outcome A -> Prop) (m : M A) :
  emits quiet m -> quietUnless good m.
Proof. intros Hm st r st' Hrun. right. eapply emits_extends; eauto. Qed.

Lemma quietUnless_bind {A B} (good : outcome B -> Prop) (m : M A) (f : A -> M B) :
  emits quiet m -> (forall a, quietUnless good (f a)) -> quietUnless good (bind m f).
Proof.
  intros Hm Hf st r st' Hrun.
  apply bind_run in Hrun as [(e & Hrun & ->) | (a & st1 & Hrun & Hk)].
  - right. eapply emits_extends; eauto.
  - destruct (emits_extends _ _ _ _ _ Hm Hrun) as (evs1 & Ht1 & Hall1).
    destruct (Hf a _ _ _ Hk) as [Hgood | (evs2 & Ht2 & Hall2)]; [ left; exact Hgood | ].
    right. exists (evs1 ++ evs2). rewrite Ht2, Ht1, app_assoc.
    split; [ reflexivity | apply Forall_app; auto ].
Qed.

Lemma quietUnless_tryCatch {A} (good : outcome A -> Prop) (m : M A) (h : JsError -> M A) :
  quietUnless good m -> (forall e, ~ good (Thrown e)) -> (forall e, emits quiet (h e)) ->
  quietUnless good (tryCatch m h).
Proof.
  intros Hm Hgood Hh st r st' Hrun.
  apply tryCatch_run in Hrun as [(a & Hrun & ->) | (e & st1 & Hrun & Hk)].
  - eapply Hm; eauto.
  - destruct (Hm _ _ _ Hrun) as [Hbad | (evs1 & Ht1 & Hall1)];
      [ exfalso; eapply Hgood; eauto | ].
    destruct (emits_extends _ _ _ _ _ (Hh e) Hk) as (evs2 & Ht2 & Hall2).
    right. exists (evs1 ++ evs2). rewrite Ht2, Ht1, app_assoc.
    split; [ reflexivity | apply Forall_app; auto ].
Qed.

Lemma entryEvent_quiet q l ev : entryEvent q l ev -> quiet ev.
Proof. destruct ev; simpl; unfold quiet; simpl; tauto. Qed.

Lemma execute_quietUnless ex params symbol q l :
  quietUnless plainSuccess (Entry.execute ex params symbol q l).
Proof.
  unfold Entry.execute.
  destruct (if JS.truthyO (Entry.price params) then _ else _).
  { apply quietUnless_emits. footprint. }
  apply quietUnless_bind.
  { apply emits_weaken with (P := entryEvent q l); [ apply entryEvent_quiet | ].
    unfold changeInitialLeverage. footprint. }
  intros _. apply quietUnless_bind.
  { apply emits_weaken with (P := entryEvent q l); [ apply entryEvent_quiet | ].
    apply getPositionMode_entry. }
  intro mode. apply quietUnless_bind.
  { apply emits_weaken with (P := entryEvent q l); [ apply entryEvent_quiet | ].
    apply submit_entry. }
  intros d st r st' Hrun. left. exists d.
  unfold bind in Hrun. destruct (protect_total ex params st) as ([] & st1 & E).
  rewrite E in Hrun. unfold ret in Hrun. congruence.
Qed.

Lemma buy_quietUnless ex params : quietUnless plainSuccess (Entry.buy ex params).
Proof.
  unfold Entry.buy.
  destruct (Entry.validate params); [ apply quietUnless_emits; footprint | ].
  apply quietUnless_tryCatch.
  - apply quietUnless_bind.
    { apply emits_weaken with (P := entryEvent JS.NaN JS.NaN);
        [ apply entryEvent_quiet | apply ensureTimeSync_entry ]. }
    intros _. apply quietUnless_bind.
    { apply emits_weaken with (P := entryEvent JS.NaN JS.NaN);
        [ apply entryEvent_quiet | apply awaitBinanceInstance_entry ]. }
    intros _. apply quietUnless_bind.
    { apply emits_weaken with (P := entryEvent JS.NaN JS.NaN);
        [ apply entryEvent_quiet | apply currentPriceOf_entry ]. }
    intro currentPrice.
    destruct (Entry.sizeEntry _ _ _ _ _) as [early | [q l]].
    + apply quietUnless_emits. footprint.
    + apply execute_quietUnless.
  - intros e [d Hd]. discriminate.
  - intro e. footprint.
Qed.

(** ** Entry filled, protection failed *)

(** A run of [buy] that has logged the warning has returned a plain success
    record. *)
Lemma buy_warning_comes_with_plain_success :
  forall (ex : Exchange) (params : Entry.BuyParams) (st st' : State)
         (r : outcome Entry.BuyResult) (evs : list Event),
    Entry.buy ex params st = (r, st') ->
    trace st' = trace st ++ evs ->
    In (Warn FailedToSetSlTpAfter3Attempts) evs ->
    plainSuccess r.
Proof.
  intros ex params st st' r evs Hrun Ht Hin.
  destruct (buy_quietUnless ex params _ _ _ Hrun) as [Hgood | (evs' & Ht' & Hall)].
  - exact Hgood.
  - exfalso. rewrite Ht in Ht'. apply app_inv_head in Ht'. subst evs'.
    rewrite Forall_forall in Hall. apply (Hall _ Hin). exact I.
Qed.

(** *** The steps between the sizing and the protection *)

(** Setting the leverage never stops the entry. *)
Lemma leverage_step ex symbol lev st :
  tryCatch (changeInitialLeverage ex symbol lev) (fun _ => ret tt) st
  = (Ok tt, record (ChangeInitialLeverage symbol lev) st).
Proof.
  unfold tryCatch, changeInitialLeverage, ask, ret.
  destruct (onChangeInitialLeverage ex (trace st) symbol lev) as [[] | e]; reflexivity.
Qed.

Lemma entry_getPositionMode_lookup ex : emits modeLookup (Entry.getPositionMode ex).
Proof.
  intro st. unfold Entry.getPositionMode.
  destruct (modeCacheEntry st) as [m | ].
  - exists []. simpl. rewrite app_nil_r. split; [ reflexivity | constructor ].
  - revert st.
    change (emits modeLookup
              (tryCatch
                 (awaitBinanceInstance ex ;;; ensureTimeSync ex ;;;
                  m <- queryPositionMode ex ;; Entry.setCache m ;;; ret m)
                 (fun _ => Entry.setCache ONE_WAY ;;; ret ONE_WAY))).
    unfold awaitBinanceInstance, ensureTimeSync, awaitBinanceInstance, queryPositionMode.
    footprint; apply setCache_entry_emits.
Qed.

Lemma entry_getPositionMode_total ex : total (Entry.getPositionMode ex).
Proof.
  intro st. unfold Entry.getPositionMode.
  destruct (modeCacheEntry st) as [m | ].
  - exists m, st. reflexivity.
  - apply total_tryCatch. intros _.
    apply total_bind; [ | intros _; apply total_ret ].
    intro s. eexists. eexists. reflexivity.
Qed.

(** A submission that returns has sent the order last, and the data it
    returns is what the exchange answered to that request. *)
Lemma submit_accepted ex order st data st1 :
  Entry.submit ex order st = (Ok data, st1) ->
  exists before,
    trace st1 = trace st ++ before ++ [NewOrder order]
    /\ onNewOrder ex (trace st ++ before) order = Ok (Some data).
Proof.
  unfold Entry.submit, Entry.submitAttempts, bind, settle, newOrder, ask, sleep, emit,
    ret, throw.
  cbn [Z.ltb Z.compare Pos.compare Pos.compare_cont Z.mul Pos.mul].
  destruct (onNewOrder ex (trace st) order) as [[d1 | ] | e1] eqn:E1.
  - intro H. inversion H; subst. exists []. simpl. split; [ reflexivity | ].
    rewrite app_nil_r. exact E1.
  - intro H. discriminate.
  - cbn [record trace].
    destruct (onNewOrder ex ((trace st ++ [NewOrder order]) ++ [Sleep 3000]) order)
      as [[d2 | ] | e2] eqn:E2.
    + intro H. inversion H; subst. exists [NewOrder order; Sleep 3000].
      cbn [record trace]. rewrite <- !app_assoc. simpl. split; [ reflexivity | ].
      rewrite <- E2. f_equal. rewrite <- !app_assoc. reflexivity.
    + intro H. discriminate.
    + cbn [record trace].
      destruct (onNewOrder ex
                  ((((trace st ++ [NewOrder order]) ++ [Sleep 3000]) ++ [NewOrder order])
                   ++ [Sleep 6000]) order) as [[d3 | ] | e3] eqn:E3.
      * intro H. inversion H; subst.
        exists [NewOrder order; Sleep 3000; NewOrder order; Sleep 6000].
        cbn [record trace]. rewrite <- !app_assoc. simpl. split; [ reflexivity | ].
        rewrite <- E3. f_equal. rewrite <- !app_assoc. reflexivity.
      * intro H. discriminate.
      * intro H. discriminate.
Qed.

(** The entry order is a buy at market or at a limit. *)
Lemma entryOrder_is_trade symbol q price mode :
  isTradeOrder (NewOrder (Entry.entryOrder symbol q price mode)) = true
  /\ o_side (Entry.entryOrder symbol q price mode) = BUY.
Proof.
  unfold isTradeOrder, Entry.entryOrder. cbn [o_type o_side].
  destruct (JS.truthyO price); split; reflexivity.
Qed.

(** *** The entry alone and the entry with its protection *)

(** When the entry alone succeeds, the same entry with protection returns
    the same record, after [protect] has run from the state the entry alone
    ended in; the record is built from the exchange's answer to the entry
    order. *)
Lemma execute_after_entry_alone ex params symbol q l st entered result :
  Entry.execute ex (entryAlone params) symbol q l st = (Ok result, entered) ->
  Entry.success result = true ->
  (exists before order data,
      trace entered = trace st ++ before ++ [NewOrder order]
      /\ isTradeOrder (NewOrder order) = true /\ o_side order = BUY
      /\ onNewOrder ex (trace st ++ before) order = Ok (Some data)
      /\ result = Entry.resultOf data)
  /\ Entry.execute ex params symbol q l st
     = (Ok result, snd (Entry.protect ex params entered)).
Proof.
  unfold Entry.execute.
  change (Entry.price (entryAlone params)) with (Entry.price params).
  destruct (if JS.truthyO (Entry.price params) then _ else _) as [reason | ].
  { unfold ret. intros H Hs. inversion H; subst. discriminate. }
  unfold bind. rewrite leverage_step.
  destruct (entry_getPositionMode_total ex (record (ChangeInitialLeverage symbol l) st))
    as (mode & s2 & Emode).
  rewrite Emode.
  destruct (emits_extends _ _ _ _ _ (entry_getPositionMode_lookup ex) Emode)
    as (lookups & Ht2 & _).
  destruct (Entry.submit ex (Entry.entryOrder symbol q (Entry.price params) mode) s2)
    as [[data | e] s3] eqn:Esubmit; [ | intros H; discriminate ].
  change (Entry.protect ex (entryAlone params)) with (@ret unit tt).
  unfold ret. intros H Hs. inversion H; subst. clear H.
  destruct (submit_accepted _ _ _ _ _ Esubmit) as (before & Ht3 & Hanswer).
  split.
  - exists ([ChangeInitialLeverage symbol l] ++ lookups ++ before),
           (Entry.entryOrder symbol q (Entry.price params) mode), data.
    destruct (entryOrder_is_trade symbol q (Entry.price params) mode) as [Htrade Hside].
    rewrite Ht3, Ht2. cbn [record trace].
    repeat split; auto.
    + rewrite <- !app_assoc. reflexivity.
    + rewrite <- Hanswer. f_equal. rewrite Ht2. cbn [record trace].
      rewrite <- !app_assoc. reflexivity.
  - destruct (protect_total ex params entered) as ([] & s4 & E). rewrite E. reflexivity.
Qed.

Lemma sizeEntry_early_fails symbol binanceSymbol amount leverage currentPrice early :
  Entry.sizeEntry symbol binanceSymbol amount leverage currentPrice = inl early ->
  Entry.success early = false.
Proof.
  unfold Entry.sizeEntry.
  destruct (Entry.needsScaling amount binanceSymbol).
  - destruct (_ && _).
    + destruct (_ || _); intro H; inversion H; reflexivity.
    + intro H; inversion H; reflexivity.
  - destruct (_ || _); intro H; inversion H; reflexivity.
Qed.

Lemma buy_after_entry_alone ex params st entered result :
  Entry.buy ex (entryAlone params) st = (Ok result, entered) ->
  Entry.success result = true ->
  (exists before order data,
      trace entered = trace st ++ before ++ [NewOrder order]
      /\ isTradeOrder (NewOrder order) = true /\ o_side order = BUY
      /\ onNewOrder ex (trace st ++ before) order = Ok (Some data)
      /\ result = Entry.resultOf data)
  /\ Entry.buy ex params st = (Ok result, snd (Entry.protect ex params entered)).
Proof.
  unfold Entry.buy.
  change (Entry.validate (entryAlone params)) with (Entry.validate params).
  change (Entry.symbol (entryAlone params)) with (Entry.symbol params).
  change (Entry.price (entryAlone params)) with (Entry.price params).
  change (Entry.amount (entryAlone params)) with (Entry.amount params).
  change (Entry.leverageOf (entryAlone params)) with (Entry.leverageOf params).
  destruct (Entry.validate params) as [e | ].
  { unfold ret. intros H Hs. inversion H; subst. discriminate. }
  unfold tryCatch, bind.
  destruct (ensureTimeSync ex st) as [[[] | e] s1] eqn:E1;
    [ | unfold ret; intros H Hs; inversion H; subst; discriminate ].
  destruct (awaitBinanceInstance ex s1) as [[[] | e] s2] eqn:E2;
    [ | unfold ret; intros H Hs; inversion H; subst; discriminate ].
  destruct (Entry.currentPriceOf ex (Str.removeFirstSlash (Entry.symbol params))
              (Entry.price params) s2) as [[currentPrice | e] s3] eqn:E3;
    [ | unfold ret; intros H Hs; inversion H; subst; discriminate ].
  assert (Hpre : exists evs, trace s3 = trace st ++ evs).
  { assert (Ha : forall q l, emits (entryEvent q l) (ensureTimeSync ex))
      by (intros; apply ensureTimeSync_entry).
    destruct (emits_extends _ _ _ _ _ (Ha JS.NaN JS.NaN) E1) as (a1 & T1 & _).
    destruct (emits_extends _ _ _ _ _ (awaitBinanceInstance_entry ex JS.NaN JS.NaN) E2)
      as (a2 & T2 & _).
    destruct (emits_extends _ _ _ _ _
                (currentPriceOf_entry ex _ _ JS.NaN JS.NaN) E3) as (a3 & T3 & _).
    exists (a1 ++ a2 ++ a3). rewrite T3, T2, T1, <- !app_assoc. reflexivity. }
  destruct Hpre as (pre & Tpre).
  destruct (Entry.sizeEntry _ _ _ _ _) as [early | [q l]] eqn:Esize.
  { unfold ret. intros H Hs. inversion H; subst.
    rewrite (sizeEntry_early_fails _ _ _ _ _ _ Esize) in Hs. discriminate. }
  destruct (Entry.execute ex (entryAlone params) _ q l s3) as [[res | e] s4] eqn:Eexec;
    [ | unfold ret; intros H Hs; inversion H; subst; discriminate ].
  intros H Hs. inversion H; subst. clear H.
  destruct (execute_after_entry_alone _ _ _ _ _ _ _ _ Eexec Hs)
    as ((before & order & data & Ht & Htrade & Hside & Hanswer & Hres) & Hexec).
  rewrite Hexec. split; [ | reflexivity ].
  exists (pre ++ before), order, data. rewrite Ht, Tpre.
  repeat split; auto.
  - rewrite <- !app_assoc. reflexivity.
  - rewrite <- Hanswer. f_equal. rewrite Tpre, <- !app_assoc. reflexivity.
Qed.

(** *** The three attempts *)

Lemma protectAttempts_failed ex request attempt rest st :
  attemptFailed (Protection.setStopLossTakeProfit ex request st) = true ->
  Entry.protectAttempts ex request (attempt :: rest) st
  = (Entry.protectionBackoff attempt ;;; Entry.protectAttempts ex request rest)
      (snd (Protection.setStopLossTakeProfit ex request st)).
Proof.
  intro H. cbn [Entry.protectAttempts]. unfold bind at 1. unfold settle.
  unfold attemptFailed in H.
  destruct (Protection.setStopLossTakeProfit ex request st) as [[res | e] s];
    cbn [fst snd] in *.
  - apply negb_true_iff in H. rewrite H. reflexivity.
  - reflexivity.
Qed.

Lemma protectAttempts_succeeded ex request attempt rest st :
  attemptFailed (Protection.setStopLossTakeProfit ex request st) = false ->
  Entry.protectAttempts ex request (attempt :: rest) st
  = (Ok true, snd (Protection.setStopLossTakeProfit ex request st)).
Proof.
  intro H. cbn [Entry.protectAttempts]. unfold bind at 1. unfold settle.
  unfold attemptFailed in H.
  destruct (Protection.setStopLossTakeProfit ex request st) as [[res | e] s];
    cbn [fst snd] in *; [ | discriminate ].
  apply negb_false_iff in H. rewrite H. reflexivity.
Qed.

Lemma backoff_after_first {A} (m : M A) (st : State) :
  (Entry.protectionBackoff 1 ;;; m) st = m (record (Sleep 3000) st).
Proof. reflexivity. Qed.

Lemma backoff_after_second {A} (m : M A) (st : State) :
  (Entry.protectionBackoff 2 ;;; m) st = m (record (Sleep 5000) st).
Proof. reflexivity. Qed.

Lemma backoff_after_third {A} (m : M A) (st : State) :
  (Entry.protectionBackoff 3 ;;; m) st = m st.
Proof. reflexivity. Qed.

(** With protection asked for, [protect] waits 8 s and starts the attempts. *)
Lemma protect_run ex params entered :
  Entry.autoSetStopLossOf params = true ->
  Entry.protect ex params entered
  = (slTpSuccess <- Entry.protectAttempts ex (protectionRequest params) [1; 2; 3] ;;
     if slTpSuccess : bool then ret tt else emit (Warn FailedToSetSlTpAfter3Attempts))
      (record (Sleep 8000) entered).
Proof. intro Hauto. unfold Entry.protect. rewrite Hauto. reflexivity. Qed.

Lemma protect_after_three_failures ex params entered :
  Entry.autoSetStopLossOf params = true ->
  let first := protectionAttempt ex params (record (Sleep 8000) entered) in
  let second := protectionAttempt ex params (record (Sleep 3000) (snd first)) in
  let third := protectionAttempt ex params (record (Sleep 5000) (snd second)) in
  attemptFailed first = true ->
  attemptFailed second = true ->
  attemptFailed third = true ->
  Entry.protect ex params entered
  = (Ok tt, record (Warn FailedToSetSlTpAfter3Attempts) (snd third)).
Proof.
  intros Hauto first second third H1 H2 H3.
  rewrite (protect_run ex params entered Hauto). unfold bind at 1.
  rewrite (protectAttempts_failed _ _ _ _ _ H1), backoff_after_first.
  rewrite (protectAttempts_failed _ _ _ _ _ H2), backoff_after_second.
  rewrite (protectAttempts_failed _ _ _ _ _ H3), backoff_after_third.
  reflexivity.
Qed.

Lemma protect_after_first_success ex params entered :
  Entry.autoSetStopLossOf params = true ->
  let first := protectionAttempt ex params (record (Sleep 8000) entered) in
  attemptFailed first = false ->
  Entry.protect ex params entered = (Ok tt, snd first).
Proof.
  intros Hauto first H1.
  rewrite (protect_run ex params entered Hauto). unfold bind at 1.
  rewrite (protectAttempts_succeeded _ _ _ _ _ H1). reflexivity.
Qed.

(** C1 (as the code has it).  Take an entry with protection whose order
    alone goes through: [buy] without protection returns the success record
    [result] and ends in the state [entered].  That record is built from what
    the exchange answered to the entry order, a buy at market or at a limit
    sent last, and carries no error.  With protection, [buy] returns this very
    record whatever becomes of the protection.  When the three attempts at
    [setStopLossTakeProfit], made 8 s after the entry and then 3 s and 5 s
    apart, all fail, the run ends by logging the warning; when the first
    attempt succeeds, nothing is logged after it. *)
Theorem buy_returns_plain_success_when_protection_failed :
  forall (ex : Exchange) (params : Entry.BuyParams) (st entered : State)
         (result : Entry.BuyResult),
    Entry.autoSetStopLossOf params = true ->
    Entry.buy ex (entryAlone params) st = (Ok result, entered) ->
    Entry.success result = true ->
    let first := protectionAttempt ex params (record (Sleep 8000) entered) in
    let second := protectionAttempt ex params (record (Sleep 3000) (snd first)) in
    let third := protectionAttempt ex params (record (Sleep 5000) (snd second)) in
    (exists (before : list Event) (order : OrderRequest) (data : OrderData),
        trace entered = trace st ++ before ++ [NewOrder order]
        /\ isTradeOrder (NewOrder order) = true /\ o_side order = BUY
        /\ onNewOrder ex (trace st ++ before) order = Ok (Some data)
        /\ result = Entry.resultOf data)
    /\ Entry.error result = None
    /\ fst (Entry.buy ex params st) = Ok result
    /\ (attemptFailed first = true ->
        attemptFailed second = true ->
        attemptFailed third = true ->
        Entry.buy ex params st
        = (Ok result, record (Warn FailedToSetSlTpAfter3Attempts) (snd third)))
    /\ (attemptFailed first = false ->
        Entry.buy ex params st = (Ok result, snd first)).
Proof.
  intros ex params st entered result Hauto Halone Hsuccess first second third.
  destruct (buy_after_entry_alone _ _ _ _ _ Halone Hsuccess) as (Hdata & Hbuy).
  split; [ exact Hdata | ].
  split.
  { destruct Hdata as (_ & _ & data & _ & _ & _ & _ & ->). reflexivity. }
  split; [ rewrite Hbuy; reflexivity | ].
  split.
  - intros H1 H2 H3. rewrite Hbuy.
    rewrite (protect_after_three_failures ex params entered Hauto H1 H2 H3).
    reflexivity.
  - intro H1. rewrite Hbuy.
    rewrite (protect_after_first_success ex params entered Hauto H1). reflexivity.
Qed.

Lemma buy_returns_plain_success_when_protection_failed_witness :
  exists afterThird : State,
    Entry.buy (Scenario.exchange false false []) Scenario.buyBtc Scenario.fresh
    = (Ok (Entry.resultOf Scenario.filled),
       record (Warn FailedToSetSlTpAfter3Attempts) afterThird).
Proof.
  destruct (buy_returns_plain_success_when_protection_failed
              (Scenario.exchange false false []) Scenario.buyBtc Scenario.fresh
              (snd (Entry.buy (Scenario.exchange false false [])
                      (entryAlone Scenario.buyBtc) Scenario.fresh))
              (Entry.resultOf Scenario.filled))
    as (_ & _ & _ & Hfailed & _).
  - reflexivity.
  - vm_compute. reflexivity.
  - reflexivity.
  - eexists. apply Hfailed; vm_compute; reflexivity.
Defined.

(** C1, as stated, fails: the same entry on an exchange that refuses every
    protective order and on one that accepts them returns the same value; the
    failed run made its three protection attempts and logged the warning, the
    other logged nothing. *)
Lemma buy_result_hides_protection_failure :
  let failed := Entry.buy (Scenario.exchange false false []) Scenario.buyBtc Scenario.fresh in
  let protected := Entry.buy (Scenario.exchange true true []) Scenario.buyBtc Scenario.fresh in
  fst failed = fst protected
  /\ fst failed = Ok (Entry.resultOf Scenario.filled)
  /\ existsb Scenario.isWarning (trace (snd failed)) = true
  /\ List.length (filter (Scenario.isNewOrderOf STOP_MARKET) (trace (snd failed))) = 3%nat
  /\ existsb Scenario.isWarning (trace (snd protected)) = false.
Proof. vm_compute. repeat split; reflexivity. Qed.

Lemma minAmountOf_cases (symbol : string) :
  Entry.minAmountOf symbol = JS.pow10 (-3)
  \/ Entry.minAmountOf symbol = JS.pow10 (-2)
  \/ Entry.minAmountOf symbol = JS.pow10 (-1).
Proof.
  unfold Entry.minAmountOf, Precision.minAmountWith, Entry.SYMBOL_PRECISION.
  cbn [Precision.lookup].
  repeat match goal with
         | |- context [String.eqb ?a symbol] => destruct (String.eqb a symbol)
         end; cbn [Precision.quantity Z.eqb]; auto.
Qed.

Lemma minAmountOf_positive (symbol : string) :
  JS.leb (Entry.minAmountOf symbol) (JS.ofZ 0) = false
  /\ JS.ltb (Entry.minAmountOf symbol) (Entry.minAmountOf symbol) = false.
Proof.
  destruct (minAmountOf_cases symbol) as [E | [E | E]]; rewrite E;
    vm_compute; split; reflexivity.
Qed.

(** The sizing step on an entry that needs scaling: the scaled order within
    both ceilings, or the explicit refusal. *)
Lemma sizeEntry_scaled (symbol binanceSymbol : string) (amount leverage currentPrice : number) :
  Entry.needsScaling amount binanceSymbol = true ->
  let minAmount := Entry.minAmountOf binanceSymbol in
  let multiplier := Entry.suggestedMultiplierOf amount minAmount currentPrice in
  let lev := Entry.suggestedLeverageOf leverage multiplier in
  (Entry.sizeEntry symbol binanceSymbol amount leverage currentPrice = inr (minAmount, lev)
   /\ JS.leb lev (JS.ofZ 30) = true /\ JS.leb multiplier (JS.ofZ 20) = true)
  \/ (Entry.sizeEntry symbol binanceSymbol amount leverage currentPrice
      = inl (Entry.failure (AmountTooSmallSkipTrade amount symbol minAmount lev))
      /\ JS.leb lev (JS.ofZ 30) && JS.leb multiplier (JS.ofZ 20) = false).
Proof.
  intros Hscale minAmount multiplier lev. unfold Entry.sizeEntry. rewrite Hscale.
  fold minAmount. fold multiplier. fold lev.
  unfold Entry.MAX_SAFE_LEVERAGE, Entry.MAX_POSITION_MULTIPLIER.
  destruct (JS.leb lev (JS.ofZ 30) && JS.leb multiplier (JS.ofZ 20)) eqn:E.
  - left. apply andb_true_iff in E. destruct E as [E1 E2].
    destruct (minAmountOf_positive binanceSymbol) as [P1 P2]. fold minAmount in P1, P2.
    rewrite P1, P2. simpl. auto.
  - right. split; reflexivity.
Qed.

Lemma executeEvent_sized q l ev : executeEvent q l ev -> sized q l ev.
Proof.
  unfold executeEvent. destruct ev; simpl; try tauto.
  intros [(_ & Hs & Hq) | [[H | H] | []]] [H' | H']; try congruence; auto.
Qed.

Lemma preliminary_sized q l ev : preliminary ev -> sized q l ev.
Proof. destruct ev; simpl; tauto. Qed.

Lemma run_ask {A} (ev : Event) (answer : list Event -> outcome A) (st : State) :
  ask ev answer st = (answer (trace st), record ev st).
Proof. reflexivity. Qed.

(** ** Auto-scaled entries *)

(** With the session up, [buy] reaches the sizing in the state [valued], with
    the price [valuationPrice]. *)
Lemma buy_values_the_order {A} ex params st (k : number -> M A) :
  session ex = Ok tt ->
  (ensureTimeSync ex ;;; awaitBinanceInstance ex ;;;
   currentPrice <- Entry.currentPriceOf ex (Str.removeFirstSlash (Entry.symbol params))
                     (Entry.price params) ;;
   k currentPrice) st
  = k (valuationPrice ex params st) (valued params st).
Proof.
  intro Hsession.
  unfold bind, ensureTimeSync, awaitBinanceInstance, bind, ask, emit. rewrite Hsession.
  cbv beta iota.
  change (record GetBinanceInstance (record SyncServerTime (record GetBinanceInstance st)))
    with (connected st).
  unfold Entry.currentPriceOf, valuationPrice, valued, JS.truthyO, tryCatch, markPrice,
    ask, ret.
  destruct (Entry.price params) as [p | ]; [ destruct (JS.truthy p); [ reflexivity | ] | ];
    destruct (onMarkPrice ex (trace (connected st))
                (Str.removeFirstSlash (Entry.symbol params))); reflexivity.
Qed.

Lemma buy_after_valuation ex params st :
  session ex = Ok tt ->
  Entry.validate params = None ->
  Entry.buy ex params st
  = tryCatch
      (match Entry.sizeEntry (Entry.symbol params)
               (Str.removeFirstSlash (Entry.symbol params)) (Entry.amount params)
               (Entry.leverageOf params) (valuationPrice ex params st) with
       | inl early => ret early
       | inr (adjustedAmount, effectiveLeverage) =>
           Entry.execute ex params (Str.removeFirstSlash (Entry.symbol params))
             adjustedAmount effectiveLeverage
       end)
      (fun e =>
         ret (Entry.failure
                (Verbatim (orElse (message e) "Unknown error occurred during buy"))))
      (valued params st).
Proof.
  intros Hsession Hvalid. unfold Entry.buy. rewrite Hvalid. cbv zeta.
  unfold tryCatch. rewrite (buy_values_the_order ex params st _ Hsession). reflexivity.
Qed.

(** A handler that only builds a result leaves the state and a returned
    value as they are. *)
Lemma tryCatch_ret_run {A} (m : M A) (f : JsError -> A) (st : State) :
  snd (tryCatch m (fun e => ret (f e)) st) = snd (m st)
  /\ (forall a, fst (m st) = Ok a -> fst (tryCatch m (fun e => ret (f e)) st) = Ok a).
Proof.
  unfold tryCatch, ret. destruct (m st) as [[a | e] s]; simpl; split; auto.
  intros a H. discriminate.
Qed.

(** The first thing a submission does is to send the order. *)
Lemma submit_after_first_request ex order st :
  Entry.submit ex order st
  = (r <- match onNewOrder ex (trace st) order with
          | Ok data => ret (data, None)
          | Thrown orderError =>
              sleep 3000 ;;; Entry.submitAttempts ex order [2; 3] (Some orderError)
          end ;;
     match r with
     | (Some orderResult, _) => ret orderResult
     | (None, Some lastError) => throw lastError
     | (None, None) => throw (newError "Failed to create order after 3 attempts")
     end) (record (NewOrder order) st).
Proof.
  unfold Entry.submit. cbn [Entry.submitAttempts].
  unfold bind at 1 2. unfold settle, newOrder, ask. cbv beta iota.
  change (1 <? 3) with true. cbv iota.
  unfold bind at 3.
  destruct (onNewOrder ex (trace st) order) as [data | e]; reflexivity.
Qed.

Lemma submit_first_accepted ex order st data :
  onNewOrder ex (trace st) order = Ok (Some data) ->
  Entry.submit ex order st = (Ok data, record (NewOrder order) st).
Proof. intro H. rewrite submit_after_first_request, H. reflexivity. Qed.

Lemma submit_sends_first ex symbol q l price mode st :
  exists rest,
    trace (snd (Entry.submit ex (Entry.entryOrder symbol q price mode) st))
    = trace st ++ [NewOrder (Entry.entryOrder symbol q price mode)] ++ rest
    /\ Forall (entryEvent q l) rest.
Proof.
  rewrite submit_after_first_request.
  match goal with
  | |- context [snd (?m (record ?ev st))] =>
      assert (Hm : emits (entryEvent q l) m)
  end.
  { apply emits_bind.
    - destruct (onNewOrder ex (trace st) _) as [data | e]; [ footprint | ].
      apply emits_bind; [ unfold sleep; footprint | intros _; apply submitAttempts_entry ].
    - intros [[d | ] [e | ]]; footprint. }
  destruct (Hm (record (NewOrder (Entry.entryOrder symbol q price mode)) st))
    as (rest & Ht & Hall).
  exists rest. rewrite Ht. cbn [record trace]. rewrite <- app_assoc.
  split; [ reflexivity | exact Hall ].
Qed.

Lemma entryEvent_sized q l ev : entryEvent q l ev -> sized q l ev.
Proof. intro H. apply executeEvent_sized. left. exact H. Qed.

(** Past the notional check, [execute] sets the leverage, looks up the
    position mode and sends the entry order; when the exchange accepts it at
    once, the result is built from its answer. *)
Lemma execute_sends_the_entry ex params symbol q l st :
  (if JS.truthyO (Entry.price params)
   then Entry.checkMinNotional q symbol (Entry.price params)
   else None) = None ->
  exists mode lookups rest,
    trace (snd (Entry.execute ex params symbol q l st))
    = trace st ++ [ChangeInitialLeverage symbol l] ++ lookups
      ++ [NewOrder (Entry.entryOrder symbol q (Entry.price params) mode)] ++ rest
    /\ Forall modeLookup lookups
    /\ Forall (sized q l) rest
    /\ (forall data,
          onNewOrder ex (trace st ++ [ChangeInitialLeverage symbol l] ++ lookups)
            (Entry.entryOrder symbol q (Entry.price params) mode) = Ok (Some data) ->
          fst (Entry.execute ex params symbol q l st) = Ok (Entry.resultOf data)).
Proof.
  intro Hnotional.
  destruct (entry_getPositionMode_total ex (record (ChangeInitialLeverage symbol l) st))
    as (mode & s2 & Emode).
  destruct (emits_extends _ _ _ _ _ (entry_getPositionMode_lookup ex) Emode)
    as (lookups & Ht2 & Hlookups).
  cbn [record trace] in Ht2. rewrite <- app_assoc in Ht2.
  exists mode, lookups.
  set (order := Entry.entryOrder symbol q (Entry.price params) mode).
  assert (Hexec :
    Entry.execute ex params symbol q l st
    = (orderResult <- Entry.submit ex order ;;
       Entry.protect ex params ;;; ret (Entry.resultOf orderResult)) s2).
  { unfold Entry.execute. rewrite Hnotional.
    unfold bind at 1. rewrite leverage_step.
    unfold bind at 1. rewrite Emode. reflexivity. }
  rewrite Hexec. clear Hexec.
  destruct (submit_sends_first ex symbol q l (Entry.price params) mode s2)
    as (rest1 & Ht3 & Hrest1).
  fold order in Ht3.
  unfold bind.
  destruct (Entry.submit ex order s2) as [[d | e] s3] eqn:Esubmit; cbn [snd] in Ht3.
  - destruct (protect_total ex params s3) as ([] & s4 & Eprotect). rewrite Eprotect.
    destruct (emits_extends _ _ _ _ _ (protect_emits ex params) Eprotect)
      as (evs & Ht4 & Hevs).
    exists (rest1 ++ evs). cbn [fst snd ret].
    split; [ | split; [ exact Hlookups | split ] ].
    + rewrite Ht4, Ht3, Ht2, <- !app_assoc. reflexivity.
    + apply Forall_app. split.
      * eapply Forall_impl; [ | exact Hrest1 ]. apply entryEvent_sized.
      * eapply Forall_impl; [ | exact Hevs ].
        intros ev H. apply executeEvent_sized. right. exact H.
    + intros data Hanswer. rewrite <- Ht2 in Hanswer.
      rewrite (submit_first_accepted _ _ _ _ Hanswer) in Esubmit.
      inversion Esubmit; subst. reflexivity.
  - exists rest1. cbn [fst snd].
    split; [ | split; [ exact Hlookups | split ] ].
    + rewrite Ht3, Ht2, <- !app_assoc. reflexivity.
    + eapply Forall_impl; [ | exact Hrest1 ]. apply entryEvent_sized.
    + intros data Hanswer. rewrite <- Ht2 in Hanswer.
      rewrite (submit_first_accepted _ _ _ _ Hanswer) in Esubmit. discriminate.
Qed.

(** C3 (as the code has it).  Take an entry that passes the local checks and
    whose rounded amount is zero or below the minimum.  If the session cannot
    be reached, [buy] returns that error's message and has asked for nothing
    else.  Otherwise the order is valued at the limit price, else at the mark
    price the exchange answers, else at 1, which gives the multiplier and the
    leverage.  When the leverage is at most 30 and the multiplier at most 20,
    [buy] goes on with the minimum amount at that leverage: a limit order
    worth less than the minimum notional is refused with that reason and
    nothing is sent; any other sets that leverage, looks up the position mode
    and sends a buy of the minimum amount, whatever follows keeps to that
    amount and leverage, and when the exchange accepts the order at once the
    result is the success record of its answer.  In every other case [buy]
    returns the failure that tells the amount is too small, that the
    suggested leverage exceeds the safe limit and that the trade is to be
    skipped, and has sent no order and no leverage change. *)
Theorem buy_auto_scaled_entry_bounded_or_skipped :
  forall (ex : Exchange) (params : Entry.BuyParams) (st : State),
    Entry.validate params = None ->
    Entry.needsScaling (Entry.amount params) (Str.removeFirstSlash (Entry.symbol params))
    = true ->
    let binanceSymbol := Str.removeFirstSlash (Entry.symbol params) in
    let run := Entry.buy ex params st in
    match session ex with
    | Thrown e =>
        run = (Ok (Entry.failure
                     (Verbatim (orElse (message e) "Unknown error occurred during buy"))),
               record GetBinanceInstance st)
    | Ok _ =>
        let currentPrice := valuationPrice ex params st in
        let minAmount := Entry.minAmountOf binanceSymbol in
        let multiplier :=
          Entry.suggestedMultiplierOf (Entry.amount params) minAmount currentPrice in
        let lev := Entry.suggestedLeverageOf (Entry.leverageOf params) multiplier in
        let order := Entry.entryOrder binanceSymbol minAmount (Entry.price params) in
        if JS.leb lev (JS.ofZ 30) && JS.leb multiplier (JS.ofZ 20)
        then
          match (if JS.truthyO (Entry.price params)
                 then Entry.checkMinNotional minAmount binanceSymbol (Entry.price params)
                 else None)
          with
          | Some reason => run = (Ok (Entry.failure reason), valued params st)
          | None =>
              exists (mode : PositionMode) (lookups rest : list Event),
                trace (snd run)
                = trace (valued params st) ++ [ChangeInitialLeverage binanceSymbol lev]
                  ++ lookups ++ [NewOrder (order mode)] ++ rest
                /\ Forall modeLookup lookups
                /\ Forall (sized minAmount lev) rest
                /\ (forall data : OrderData,
                      onNewOrder ex
                        (trace (valued params st)
                         ++ [ChangeInitialLeverage binanceSymbol lev] ++ lookups)
                        (order mode) = Ok (Some data) ->
                      fst run = Ok (Entry.resultOf data))
          end
        else
          run = (Ok (Entry.failure
                       (AmountTooSmallSkipTrade (Entry.amount params) (Entry.symbol params)
                                                minAmount lev)),
                 valued params st)
    end.
Proof.
  intros ex params st Hvalid Hscale binanceSymbol run.
  destruct (session ex) as [[] | e] eqn:Hsession.
  - pose proof (buy_after_valuation ex params st Hsession Hvalid) as Hrun.
    fold run in Hrun. fold binanceSymbol in Hrun. clearbody run.
    cbv zeta.
    set (currentPrice := valuationPrice ex params st) in *.
    set (minAmount := Entry.minAmountOf binanceSymbol).
    set (multiplier :=
           Entry.suggestedMultiplierOf (Entry.amount params) minAmount currentPrice).
    set (lev := Entry.suggestedLeverageOf (Entry.leverageOf params) multiplier).
    destruct (sizeEntry_scaled (Entry.symbol params) binanceSymbol (Entry.amount params)
                (Entry.leverageOf params) currentPrice Hscale)
      as [(Esize & Hlev & Hmult) | (Esize & Hno)];
      fold minAmount in Esize; fold multiplier in Esize; fold lev in Esize;
      rewrite Esize in Hrun.
    + fold minAmount in Hlev, Hmult. fold multiplier in Hlev, Hmult. fold lev in Hlev.
      rewrite Hlev, Hmult. cbn [andb].
      destruct (if JS.truthyO (Entry.price params) then _ else _) as [reason | ] eqn:Hn.
      * rewrite Hrun. unfold Entry.execute. rewrite Hn. reflexivity.
      * destruct (execute_sends_the_entry ex params binanceSymbol minAmount lev
                    (valued params st) Hn)
          as (mode & lookups & rest & Ht & Hlookups & Hrest & Hfirst).
        exists mode, lookups, rest.
        destruct (tryCatch_ret_run
                    (Entry.execute ex params binanceSymbol minAmount lev)
                    (fun e => Entry.failure
                                (Verbatim (orElse (message e)
                                             "Unknown error occurred during buy")))
                    (valued params st)) as (Hstate & Hvalue).
        rewrite Hrun, Hstate.
        split; [ exact Ht | split; [ exact Hlookups | split; [ exact Hrest | ] ] ].
        intros data Hanswer. apply Hvalue. apply Hfirst. exact Hanswer.
    + fold minAmount in Hno. fold multiplier in Hno. fold lev in Hno.
      rewrite Hno, Hrun. reflexivity.
  - unfold run, Entry.buy. rewrite Hvalid.
    unfold tryCatch, bind, ensureTimeSync, awaitBinanceInstance, bind, ask.
    rewrite Hsession. reflexivity.
Qed.

Lemma buy_auto_scaled_entry_bounded_or_skipped_witness :
  let world := Scenario.exchange true true [] in
  let run := Entry.buy world Scenario.buyDustBtc Scenario.fresh in
  let lev :=
    Entry.suggestedLeverageOf (JS.ofZ 5)
      (Entry.suggestedMultiplierOf (JS.dec 2 4) (Entry.minAmountOf "BTCUSDT")
         (JS.ofZ 50000)) in
  exists (mode : PositionMode) (lookups rest : list Event),
    trace (snd run)
    = trace (valued Scenario.buyDustBtc Scenario.fresh)
      ++ [ChangeInitialLeverage "BTCUSDT" lev] ++ lookups
      ++ [NewOrder (Entry.entryOrder "BTCUSDT" (Entry.minAmountOf "BTCUSDT") None mode)]
      ++ rest
    /\ Forall modeLookup lookups
    /\ Forall (sized (Entry.minAmountOf "BTCUSDT") lev) rest
    /\ (forall data : OrderData,
          onNewOrder world
            (trace (valued Scenario.buyDustBtc Scenario.fresh)
             ++ [ChangeInitialLeverage "BTCUSDT" lev] ++ lookups)
            (Entry.entryOrder "BTCUSDT" (Entry.minAmountOf "BTCUSDT") None mode)
          = Ok (Some data) ->
          fst run = Ok (Entry.resultOf data)).
Proof.
  exact (buy_auto_scaled_entry_bounded_or_skipped
           (Scenario.exchange true true []) Scenario.buyDustBtc Scenario.fresh
           eq_refl eq_refl).
Defined.

(** C3, as stated, fails.  An entry of a fiftieth of the step is refused
    because its multiplier is 50; the leverage it names is 30, which is within
    the limit, and the error is the text about the amount, the suggested
    leverage and the skipped trade.  The entry of a fifth of the step has two
    more ways to end: while Binance cannot be reached it fails with the
    connection error, and with a limit at 4000 it is scaled within both
    ceilings and then refused because the order is worth less than the
    minimum notional.  None of the three runs sends an order. *)
Lemma buy_auto_scaled_entry_ends_in_other_ways :
  let world := Scenario.exchange true true [] in
  (Entry.needsScaling (JS.dec 2 5) "BTCUSDT" = true
   /\ Entry.suggestedMultiplierOf (JS.dec 2 5) (Entry.minAmountOf "BTCUSDT") (JS.ofZ 50000)
      = JS.ofZ 50
   /\ fst (Entry.buy world Cases.buySpeckBtc Scenario.fresh)
      = Ok (Entry.failure
              (AmountTooSmallSkipTrade (JS.dec 2 5) "BTC/USDT" (JS.pow10 (-3)) (JS.ofZ 30)))
   /\ JS.leb (JS.ofZ 30) Entry.MAX_SAFE_LEVERAGE = true
   /\ existsb isTradeOrder (trace (snd (Entry.buy world Cases.buySpeckBtc Scenario.fresh)))
      = false)
  /\ (Entry.needsScaling (JS.dec 2 4) "BTCUSDT" = true
      /\ Entry.buy Cases.offline Scenario.buyDustBtc Scenario.fresh
         = (Ok (Entry.failure
                  (Verbatim "Failed to connect to Binance. Last error: timeout")),
            record GetBinanceInstance Scenario.fresh))
  /\ (Entry.buy world Cases.buyDustBtcAt4000 Scenario.fresh
      = (Ok (Entry.failure (OrderValueBelowMinimum (JS.ofZ 4) (JS.ofZ 5))),
         connected Scenario.fresh)).
Proof. vm_compute. repeat split; reflexivity. Qed.

(* ================================================================= *)
(** ** The protection manager *)

(** *** The two legs, run *)

Lemma createStopLoss_run ex plan st :
  Protection.createStopLoss ex plan st =
  match requested (Protection.finalStopLoss plan) with
  | None => (Ok (inr None), st)
  | Some stop =>
      if Protection.isLong plan && JS.geb stop (Protection.entryPrice plan) then
        (Ok (inl (Protection.failure
                    (StopLossMustBeBelowEntry stop (Protection.entryPrice plan)))), st)
      else if negb (Protection.isLong plan) && JS.leb stop (Protection.entryPrice plan) then
        (Ok (inl (Protection.failure
                    (StopLossMustBeAboveEntry stop (Protection.entryPrice plan)))), st)
      else
        let order := Protection.protectiveOrder plan STOP_MARKET stop in
        match onNewOrder ex (trace st) order with
        | Ok (Some d) => (Ok (inr (d_orderId d)), record (NewOrder order) st)
        | Ok None =>
            (Ok (inl (Protection.failure
                        (FailedToCreateStopLoss (exchangeMsgOrMessage undefinedDataError)))),
             record (NewOrder order) st)
        | Thrown e =>
            (Ok (inl (Protection.failure
                        (FailedToCreateStopLoss (exchangeMsgOrMessage e)))),
             record (NewOrder order) st)
        end
  end.
Proof.
  unfold Protection.createStopLoss, requested.
  destruct (Protection.finalStopLoss plan) as [stop | ]; [ | reflexivity ].
  destruct (JS.truthy stop); [ | reflexivity ].
  destruct (_ && _); [ reflexivity | ].
  destruct (_ && _); [ reflexivity | ].
  unfold tryCatch, bind, newOrder, ask. cbv zeta.
  destruct (onNewOrder ex (trace st) _) as [[d | ] | e]; reflexivity.
Qed.

Lemma createTakeProfit_run ex plan st :
  Protection.createTakeProfit ex plan st =
  match requested (Protection.finalTakeProfit plan) with
  | None => (Ok (inr None), st)
  | Some target =>
      if Protection.isLong plan && JS.leb target (Protection.entryPrice plan) then
        (Ok (inl (Protection.failure
                    (TakeProfitMustBeAboveEntry target (Protection.entryPrice plan)))), st)
      else if negb (Protection.isLong plan) && JS.geb target (Protection.entryPrice plan) then
        (Ok (inl (Protection.failure
                    (TakeProfitMustBeBelowEntry target (Protection.entryPrice plan)))), st)
      else
        let order := Protection.protectiveOrder plan TAKE_PROFIT_MARKET target in
        match onNewOrder ex (trace st) order with
        | Ok (Some d) => (Ok (inr (d_orderId d)), record (NewOrder order) st)
        | Ok None =>
            (Ok (inl (Protection.failure
                        (FailedToCreateTakeProfit (exchangeMsgOrMessage undefinedDataError)))),
             record (NewOrder order) st)
        | Thrown e =>
            (Ok (inl (Protection.failure
                        (FailedToCreateTakeProfit (exchangeMsgOrMessage e)))),
             record (NewOrder order) st)
        end
  end.
Proof.
  unfold Protection.createTakeProfit, requested.
  destruct (Protection.finalTakeProfit plan) as [target | ]; [ | reflexivity ].
  destruct (JS.truthy target); [ | reflexivity ].
  destruct (_ && _); [ reflexivity | ].
  destruct (_ && _); [ reflexivity | ].
  unfold tryCatch, bind, newOrder, ask. cbv zeta.
  destruct (onNewOrder ex (trace st) _) as [[d | ] | e]; reflexivity.
Qed.

Lemma create_total ex plan : total (Protection.create ex plan).
Proof.
  intro st. unfold Protection.create, bind.
  rewrite createStopLoss_run.
  destruct (requested (Protection.finalStopLoss plan)) as [stop | ].
  - destruct (_ && _); [ eexists; eexists; reflexivity | ].
    destruct (_ && _); [ eexists; eexists; reflexivity | ].
    cbv zeta. destruct (onNewOrder ex (trace st) _) as [[d | ] | e];
      try (eexists; eexists; reflexivity).
    rewrite createTakeProfit_run.
    destruct (requested (Protection.finalTakeProfit plan)) as [target | ];
      [ | eexists; eexists; reflexivity ].
    destruct (_ && _); [ eexists; eexists; reflexivity | ].
    destruct (_ && _); [ eexists; eexists; reflexivity | ].
    cbv zeta. destruct (onNewOrder ex _ _) as [[d' | ] | e];
      eexists; eexists; reflexivity.
  - rewrite createTakeProfit_run.
    destruct (requested (Protection.finalTakeProfit plan)) as [target | ];
      [ | eexists; eexists; reflexivity ].
    destruct (_ && _); [ eexists; eexists; reflexivity | ].
    destruct (_ && _); [ eexists; eexists; reflexivity | ].
    cbv zeta. destruct (onNewOrder ex _ _) as [[d' | ] | e];
      eexists; eexists; reflexivity.
Qed.

Lemma includesSlash_truthy (s : string) : Str.includesSlash s = true -> JS.truthyS s = true.
Proof. destruct s; simpl; congruence. Qed.

(** Once the preparation has produced a plan, the call is the creation of
    the two legs from the prepared state. *)
Lemma setStopLossTakeProfit_after_prepare ex params st0 plan st :
  Str.includesSlash (Protection.symbol params) = true ->
  Protection.prepare ex params st0 = (Ok (inr plan), st) ->
  Protection.setStopLossTakeProfit ex params st0 = Protection.create ex plan st.
Proof.
  intros Hsym Hprep. unfold Protection.setStopLossTakeProfit.
  rewrite Hsym, (includesSlash_truthy _ Hsym). simpl.
  unfold tryCatch, bind. rewrite Hprep.
  destruct (create_total ex plan st) as (res & st' & E). rewrite E. reflexivity.
Qed.

(** Explicit prices reach the plan unchanged. *)
Lemma prepare_keeps_explicit_prices ex params st0 plan st :
  Protection.prepare ex params st0 = (Ok (inr plan), st) ->
  (JS.truthyO (Protection.stopLoss params) = true ->
   Protection.finalStopLoss plan = Protection.stopLoss params)
  /\ (JS.truthyO (Protection.takeProfit params) = true ->
      Protection.finalTakeProfit plan = Protection.takeProfit params).
Proof.
  unfold Protection.prepare. intro H.
  apply bind_run in H as [(e & _ & H) | (a & st1 & _ & H)]; [ discriminate | ].
  apply bind_run in H as [(e & _ & H) | (positions & st2 & _ & H)]; [ discriminate | ].
  destruct (find _ positions) as [position | ]; [ | discriminate ].
  destruct (JS.eqb _ _); [ discriminate | ].
  apply bind_run in H as [(e & _ & H) | ([sl tp] & st3 & _ & H)]; [ discriminate | ].
  apply bind_run in H as [(e & _ & H) | (u & st4 & _ & H)]; [ discriminate | ].
  apply bind_run in H as [(e & _ & H) | (mode & st5 & _ & H)]; [ discriminate | ].
  unfold ret in H. inversion H; subst; clear H. simpl.
  split; intro Ht; rewrite Ht.
  - destruct sl as [pct | ]; [ rewrite andb_false_r | ]; reflexivity.
  - destruct tp as [pct | ]; [ rewrite andb_false_r | ]; reflexivity.
Qed.

(** ** The two protective legs *)

(** The whole creation in one equation: the success flag is the conjunction
    of the two legs. *)
Lemma create_success ex plan st :
  exists res st',
    Protection.create ex plan st = (Ok res, st')
    /\ Protection.success res
       = stopLegCreated ex plan (trace st)
         && targetLegCreated ex plan (historyAfterStop plan (trace st)).
Proof.
  unfold Protection.create, bind, stopLegCreated, targetLegCreated, historyAfterStop,
    stopOnRightSide, targetOnRightSide.
  rewrite createStopLoss_run.
  destruct (requested (Protection.finalStopLoss plan)) as [stop | ].
  - destruct (Protection.isLong plan && JS.geb stop (Protection.entryPrice plan));
      [ eexists; eexists; split; reflexivity | ].
    destruct (negb (Protection.isLong plan) && JS.leb stop (Protection.entryPrice plan));
      [ eexists; eexists; split; reflexivity | ].
    cbv zeta.
    destruct (onNewOrder ex (trace st) _) as [[d | ] | e];
      try (eexists; eexists; split; reflexivity).
    rewrite createTakeProfit_run. simpl trace.
    destruct (requested (Protection.finalTakeProfit plan)) as [target | ];
      [ | eexists; eexists; split; reflexivity ].
    destruct (Protection.isLong plan && JS.leb target (Protection.entryPrice plan));
      [ eexists; eexists; split; reflexivity | ].
    destruct (negb (Protection.isLong plan) && JS.geb target (Protection.entryPrice plan));
      [ eexists; eexists; split; reflexivity | ].
    cbv zeta.
    destruct (onNewOrder ex _ _) as [[d' | ] | e]; eexists; eexists; split; reflexivity.
  - rewrite createTakeProfit_run.
    destruct (requested (Protection.finalTakeProfit plan)) as [target | ];
      [ | eexists; eexists; split; reflexivity ].
    destruct (Protection.isLong plan && JS.leb target (Protection.entryPrice plan));
      [ eexists; eexists; split; reflexivity | ].
    destruct (negb (Protection.isLong plan) && JS.geb target (Protection.entryPrice plan));
      [ eexists; eexists; split; reflexivity | ].
    cbv zeta.
    destruct (onNewOrder ex _ _) as [[d' | ] | e]; eexists; eexists; split; reflexivity.
Qed.

(** C2 (as the code has it).  After the preparation, the two legs run in
    sequence.  A stop-loss order the exchange refuses ends the call at once
    with the stop-loss error: the stop-loss order is the only event added, no
    take-profit order is attempted.  When the stop-loss leg went through, a
    take-profit order the exchange refuses is reported with the take-profit
    error.  The result is a success exactly when every requested leg was
    created; a leg that is not requested counts as created. *)
Theorem setStopLossTakeProfit_legs_run_in_sequence :
  forall (ex : Exchange) (params : Protection.StopLossTakeProfitParams)
         (st0 st : State) (plan : Protection.Plan),
    Str.includesSlash (Protection.symbol params) = true ->
    Protection.prepare ex params st0 = (Ok (inr plan), st) ->
    (forall stop e,
        requested (Protection.finalStopLoss plan) = Some stop ->
        stopOnRightSide plan stop = true ->
        onNewOrder ex (trace st) (Protection.protectiveOrder plan STOP_MARKET stop)
        = Thrown e ->
        Protection.setStopLossTakeProfit ex params st0
        = (Ok (Protection.failure (FailedToCreateStopLoss (exchangeMsgOrMessage e))),
           record (NewOrder (Protection.protectiveOrder plan STOP_MARKET stop)) st))
    /\ (forall target e,
           requested (Protection.finalTakeProfit plan) = Some target ->
           targetOnRightSide plan target = true ->
           stopLegCreated ex plan (trace st) = true ->
           onNewOrder ex (historyAfterStop plan (trace st))
                      (Protection.protectiveOrder plan TAKE_PROFIT_MARKET target)
           = Thrown e ->
           fst (Protection.setStopLossTakeProfit ex params st0)
           = Ok (Protection.failure (FailedToCreateTakeProfit (exchangeMsgOrMessage e))))
    /\ (exists res st',
           Protection.setStopLossTakeProfit ex params st0 = (Ok res, st')
           /\ Protection.success res
              = stopLegCreated ex plan (trace st)
                && targetLegCreated ex plan (historyAfterStop plan (trace st))).
Proof.
  intros ex params st0 st plan Hsym Hprep.
  rewrite (setStopLossTakeProfit_after_prepare _ _ _ _ _ Hsym Hprep).
  split; [ | split ].
  - intros stop e Hreq Hside Hrefused.
    unfold Protection.create, bind. rewrite createStopLoss_run, Hreq.
    unfold stopOnRightSide in Hside. apply andb_true_iff in Hside.
    destruct Hside as [H1 H2]. apply negb_true_iff in H1, H2. rewrite H1, H2.
    cbv zeta. rewrite Hrefused. reflexivity.
  - intros target e Hreq Hside Hstop Hrefused.
    unfold Protection.create, bind. rewrite createStopLoss_run.
    unfold stopLegCreated in Hstop. unfold historyAfterStop in Hrefused.
    unfold targetOnRightSide in Hside. apply andb_true_iff in Hside.
    destruct Hside as [H1 H2]. apply negb_true_iff in H1, H2.
    destruct (requested (Protection.finalStopLoss plan)) as [stop | ].
    + apply andb_true_iff in Hstop. destruct Hstop as [Hs Ha].
      unfold stopOnRightSide in Hs. apply andb_true_iff in Hs.
      destruct Hs as [H3 H4]. apply negb_true_iff in H3, H4. rewrite H3, H4.
      cbv zeta. unfold accepted in Ha.
      destruct (onNewOrder ex (trace st) _) as [[d | ] | e']; try discriminate.
      rewrite createTakeProfit_run, Hreq, H1, H2. cbv zeta. simpl trace.
      rewrite Hrefused. reflexivity.
    + rewrite createTakeProfit_run, Hreq, H1, H2. cbv zeta.
      rewrite Hrefused. reflexivity.
  - apply create_success.
Qed.

Lemma setStopLossTakeProfit_legs_run_in_sequence_witness :
  let ex := Scenario.exchange false true [] in
  let params := Scenario.protectAt (Some (JS.ofZ 49000)) (Some (JS.ofZ 55000)) in
  let plan := Scenario.btcPlan (Some (JS.ofZ 49000)) (Some (JS.ofZ 55000)) in
  Protection.setStopLossTakeProfit ex params Scenario.fresh
  = (Ok (Protection.failure (FailedToCreateStopLoss "Order would immediately trigger.")),
     record (NewOrder (Protection.protectiveOrder plan STOP_MARKET (JS.ofZ 49000)))
            (snd (Protection.prepare ex params Scenario.fresh))).
Proof.
  intros ex params plan.
  destruct (setStopLossTakeProfit_legs_run_in_sequence
              ex params Scenario.fresh (snd (Protection.prepare ex params Scenario.fresh)) plan)
    as (Hstop & _ & _).
  - reflexivity.
  - vm_compute. reflexivity.
  - apply (Hstop (JS.ofZ 49000) (Scenario.rejected "Order would immediately trigger.")).
    + reflexivity.
    + vm_compute. reflexivity.
    + reflexivity.
Defined.

(** C2, as stated, fails: with both legs requested and an exchange that
    refuses stop-market orders but would accept the take-profit order, the
    call sends the stop-loss order, returns its error, and never asks for the
    take-profit order. *)
Lemma stop_loss_refusal_blocks_take_profit :
  let ex := Scenario.exchange false true [] in
  let params := Scenario.protectAt (Some (JS.ofZ 49000)) (Some (JS.ofZ 55000)) in
  let plan := Scenario.btcPlan (Some (JS.ofZ 49000)) (Some (JS.ofZ 55000)) in
  let run := Protection.setStopLossTakeProfit ex params Scenario.fresh in
  fst run
  = Ok (Protection.failure (FailedToCreateStopLoss "Order would immediately trigger."))
  /\ List.length (filter (Scenario.isNewOrderOf STOP_MARKET) (trace (snd run))) = 1%nat
  /\ existsb (Scenario.isNewOrderOf TAKE_PROFIT_MARKET) (trace (snd run)) = false
  /\ onNewOrder ex (trace (snd run))
                (Protection.protectiveOrder plan TAKE_PROFIT_MARKET (JS.ofZ 55000))
     = Ok (Some (Scenario.accepted 2002)).
Proof. vm_compute. repeat split; reflexivity. Qed.

Lemma create_rejects_target ex plan st target :
  requested (Protection.finalTakeProfit plan) = Some target ->
  targetOnRightSide plan target = false ->
  exists res st',
    Protection.create ex plan st = (Ok res, st')
    /\ Protection.success res = false
    /\ trace st' = (if stopLegCreated ex plan (trace st)
                    then historyAfterStop plan (trace st)
                    else trace st')
    /\ (forall evs, trace st' = trace st ++ evs -> Forall (fun ev => ~ isTakeProfitOrder ev) evs)
    /\ (stopLegCreated ex plan (trace st) = true ->
        res = Protection.failure (wrongSideTarget plan target)).
Proof.
  intros Hreq Hside.
  assert (Hadd : forall (o : OrderRequest) evs,
             o_type o = STOP_MARKET ->
             trace st ++ [NewOrder o] = trace st ++ evs ->
             Forall (fun ev => ~ isTakeProfitOrder ev) evs).
  { intros o evs Ho E. apply app_inv_head in E. subst evs.
    constructor; [ simpl; congruence | constructor ]. }
  assert (Hnil : forall evs, trace st = trace st ++ evs ->
                             Forall (fun ev => ~ isTakeProfitOrder ev) evs).
  { intros evs E. rewrite <- (app_nil_r (trace st)) in E at 1.
    apply app_inv_head in E. subst evs. constructor. }
  assert (Hadd' : forall (stop : number) evs,
             trace st ++ [NewOrder (Protection.protectiveOrder plan STOP_MARKET stop)]
             = trace st ++ evs ->
             Forall (fun ev => ~ isTakeProfitOrder ev) evs).
  { intros stop evs E. eapply Hadd; [ | exact E ]. reflexivity. }
  unfold Protection.create, bind, stopLegCreated, historyAfterStop, wrongSideTarget.
  rewrite createStopLoss_run. unfold stopOnRightSide.
  unfold targetOnRightSide in Hside.
  destruct (requested (Protection.finalStopLoss plan)) as [stop | ].
  - destruct (Protection.isLong plan && JS.geb stop (Protection.entryPrice plan));
      [ eexists; eexists; repeat split; auto; discriminate | ].
    destruct (negb (Protection.isLong plan) && JS.leb stop (Protection.entryPrice plan));
      [ eexists; eexists; repeat split; auto; discriminate | ].
    cbv zeta.
    destruct (onNewOrder ex (trace st) _) as [[d | ] | e].
    + rewrite createTakeProfit_run, Hreq.
      destruct (Protection.isLong plan) eqn:Hlong; simpl in Hside |- *.
      * rewrite andb_true_r in Hside. apply negb_false_iff in Hside. rewrite Hside.
        eexists; eexists; repeat split; simpl; eauto.
      * apply negb_false_iff in Hside. rewrite Hside.
        eexists; eexists; repeat split; simpl; eauto.
    + eexists; eexists; repeat split; simpl; eauto; discriminate.
    + eexists; eexists; repeat split; simpl; eauto; discriminate.
  - rewrite createTakeProfit_run, Hreq.
    destruct (Protection.isLong plan) eqn:Hlong; simpl in Hside |- *.
    + rewrite andb_true_r in Hside. apply negb_false_iff in Hside. rewrite Hside.
      eexists; eexists; repeat split; simpl; eauto.
    + apply negb_false_iff in Hside. rewrite Hside.
      eexists; eexists; repeat split; simpl; eauto.
Qed.

(** ** Prices on the wrong side of the entry *)

(** C4 (as the code has it).  The prices checked are the prepared ones; a
    price given explicitly is prepared unchanged.  For a long position a
    requested stop price greater than or equal to the entry price, and for a
    short one a stop price less than or equal to it, makes the call return
    the matching error from the prepared state: after the position lookup and
    the clean-up of old protective orders, before any order is created.  A
    requested target on the wrong side (at or below the entry for a long, at
    or above it for a short) makes the call fail without a take-profit order
    being sent; when the stop-loss leg went through, the error is the
    take-profit one and the stop-loss order is all that was sent. *)
Theorem setStopLossTakeProfit_rejects_prices_on_wrong_side :
  forall (ex : Exchange) (params : Protection.StopLossTakeProfitParams)
         (st0 st : State) (plan : Protection.Plan),
    Str.includesSlash (Protection.symbol params) = true ->
    Protection.prepare ex params st0 = (Ok (inr plan), st) ->
    let entry := Protection.entryPrice plan in
    (JS.truthyO (Protection.stopLoss params) = true ->
     Protection.finalStopLoss plan = Protection.stopLoss params)
    /\ (JS.truthyO (Protection.takeProfit params) = true ->
        Protection.finalTakeProfit plan = Protection.takeProfit params)
    /\ (forall stop,
           requested (Protection.finalStopLoss plan) = Some stop ->
           (Protection.isLong plan = true -> JS.geb stop entry = true ->
            Protection.setStopLossTakeProfit ex params st0
            = (Ok (Protection.failure (StopLossMustBeBelowEntry stop entry)), st))
           /\ (Protection.isLong plan = false -> JS.leb stop entry = true ->
               Protection.setStopLossTakeProfit ex params st0
               = (Ok (Protection.failure (StopLossMustBeAboveEntry stop entry)), st)))
    /\ (forall target,
           requested (Protection.finalTakeProfit plan) = Some target ->
           (Protection.isLong plan = true /\ JS.leb target entry = true)
           \/ (Protection.isLong plan = false /\ JS.geb target entry = true) ->
           exists res st',
             Protection.setStopLossTakeProfit ex params st0 = (Ok res, st')
             /\ Protection.success res = false
             /\ (forall evs, trace st' = trace st ++ evs ->
                             Forall (fun ev => ~ isTakeProfitOrder ev) evs)
             /\ (stopLegCreated ex plan (trace st) = true ->
                 res = Protection.failure (wrongSideTarget plan target)
                 /\ trace st' = historyAfterStop plan (trace st))).
Proof.
  intros ex params st0 st plan Hsym Hprep entry.
  rewrite (setStopLossTakeProfit_after_prepare _ _ _ _ _ Hsym Hprep).
  destruct (prepare_keeps_explicit_prices _ _ _ _ _ Hprep) as [Hstop Htarget].
  split; [ exact Hstop | split; [ exact Htarget | split ] ].
  - intros stop Hreq. split; intros Hlong Hcmp;
      unfold Protection.create, bind; rewrite createStopLoss_run, Hreq, Hlong;
      fold entry; rewrite Hcmp; reflexivity.
  - intros target Hreq Hwrong.
    assert (Hside : targetOnRightSide plan target = false).
    { unfold targetOnRightSide. fold entry.
      destruct Hwrong as [[Hlong Hcmp] | [Hlong Hcmp]]; rewrite Hlong, Hcmp; reflexivity. }
    destruct (create_rejects_target ex plan st target Hreq Hside)
      as (res & st' & Hrun & Hfail & Htrace & Hnone & Herr).
    exists res, st'.
    split; [ exact Hrun | split; [ exact Hfail | split; [ exact Hnone | ] ] ].
    intro Hcreated. split; [ apply Herr; exact Hcreated | ].
    rewrite Hcreated in Htrace. exact Htrace.
Qed.

Lemma setStopLossTakeProfit_rejects_prices_on_wrong_side_witness :
  let ex := Scenario.exchange true true [Scenario.staleStop] in
  let params := Scenario.protectAt (Some (JS.ofZ 51000)) None in
  Protection.setStopLossTakeProfit ex params Scenario.fresh
  = (Ok (Protection.failure (StopLossMustBeBelowEntry (JS.ofZ 51000) (JS.ofZ 50000))),
     snd (Protection.prepare ex params Scenario.fresh)).
Proof.
  intros ex params.
  destruct (setStopLossTakeProfit_rejects_prices_on_wrong_side
              ex params Scenario.fresh (snd (Protection.prepare ex params Scenario.fresh))
              (Scenario.btcPlan (Some (JS.ofZ 51000)) None))
    as (_ & _ & Hstop & _).
  - reflexivity.
  - vm_compute. reflexivity.
  - destruct (Hstop (JS.ofZ 51000)) as [Hlong _]; [ reflexivity | ].
    apply Hlong; vm_compute; reflexivity.
Defined.

(** C4, as stated, fails on "before any exchange call": the stop price above
    the entry of the long is rejected only after the session was awaited, the
    positions were fetched, the open orders were listed and the old stop
    order 7 was cancelled; and a target below the entry is rejected after the
    stop-loss order of the same request has been created. *)
Lemma wrong_side_price_is_rejected_after_exchange_calls :
  let stopRun :=
    Protection.setStopLossTakeProfit
      (Scenario.exchange true true [Scenario.staleStop])
      (Scenario.protectAt (Some (JS.ofZ 51000)) None) Scenario.fresh in
  let targetRun :=
    Protection.setStopLossTakeProfit
      (Scenario.exchange true true [])
      (Scenario.protectAt (Some (JS.ofZ 49000)) (Some (JS.ofZ 48000))) Scenario.fresh in
  fst stopRun
  = Ok (Protection.failure (StopLossMustBeBelowEntry (JS.ofZ 51000) (JS.ofZ 50000)))
  /\ trace (snd stopRun)
     = [GetBinanceInstance; FetchPositions; GetBinanceInstance; GetBinanceInstance;
        QueryPositionMode; OpenOrders "BTCUSDT"; CancelOrder "BTCUSDT" 7; Sleep 5000]
  /\ fst targetRun
     = Ok (Protection.failure (TakeProfitMustBeAboveEntry (JS.ofZ 48000) (JS.ofZ 50000)))
  /\ existsb (Scenario.isNewOrderOf STOP_MARKET) (trace (snd targetRun)) = true.
Proof. vm_compute. repeat split; reflexivity. Qed.

(* ================================================================= *)
(** ** The exit *)

(** The order that reaches the submission carries the rounded amount. *)
Lemma prepare_order_quantity ex params st0 st order :
  Exit.prepare ex params st0 = (Ok (inr order), st) ->
  exists sellAmount : number,
    p_quantity (o_params order)
    = Some (JS.ToString
              (Exit.adjustPrecision sellAmount (Str.removeFirstSlash (Exit.symbol params)))).
Proof.
  unfold Exit.prepare. intro H.
  apply bind_run in H as [(e & _ & H) | (a & st1 & _ & H)]; [ discriminate | ].
  apply bind_run in H as [(e & _ & H) | (b & st2 & _ & H)]; [ discriminate | ].
  apply bind_run in H as [(e & _ & H) | (r & st3 & _ & H)]; [ discriminate | ].
  destruct r as [early | [sellAmount side]]; [ discriminate | ].
  destruct (JS.leb sellAmount (JS.ofZ 0)); [ discriminate | ].
  destruct (JS.eqb _ _); [ discriminate | ].
  unfold ret in H. inversion H; subst. exists sellAmount. reflexivity.
Qed.

(** ** Exit order refused three times *)

(** C7. When the exit order reaches the submission and the exchange refuses
    it at each of the three attempts, [sell] has sent the same order three
    times, with a sleep of 2000 ms after the first refusal and of 4000 ms
    after the second, and nothing else; the order carries the amount rounded
    once, before the loop.  The result is a failure whose error is the
    message of the third refusal: the exchange's own message when it is
    present and not empty. *)
Theorem sell_gives_up_after_three_refusals :
  forall (ex : Exchange) (params : Exit.SellParams) (st0 st : State)
         (order : OrderRequest) (e1 e2 e3 : JsError),
    Exit.validate params = None ->
    Exit.prepare ex params st0 = (Ok (inr order), st) ->
    onNewOrder ex (trace st) order = Thrown e1 ->
    onNewOrder ex (trace st ++ [NewOrder order; Sleep 2000]) order = Thrown e2 ->
    onNewOrder ex (trace st ++ [NewOrder order; Sleep 2000; NewOrder order; Sleep 4000])
               order = Thrown e3 ->
    exists st' : State,
      Exit.sell ex params st0
      = (Ok (Exit.failure (Verbatim (Exit.errorMessageOf e3))), st')
      /\ trace st'
         = trace st ++ [NewOrder order; Sleep 2000; NewOrder order; Sleep 4000; NewOrder order]
      /\ Exit.success (Exit.failure (Verbatim (Exit.errorMessageOf e3))) = false
      /\ (forall m, responseMsg e3 = Some m -> JS.truthyS m = true ->
                    Exit.errorMessageOf e3 = m)
      /\ (exists sellAmount : number,
             p_quantity (o_params order)
             = Some (JS.ToString
                       (Exit.adjustPrecision sellAmount
                          (Str.removeFirstSlash (Exit.symbol params))))).
Proof.
  intros ex params st0 st order e1 e2 e3 Hvalid Hprep H1 H2 H3.
  unfold Exit.sell. rewrite Hvalid.
  unfold tryCatch, bind at 1. rewrite Hprep.
  unfold Exit.submit, Exit.submitAttempts, bind, settle, newOrder, ask, sleep, emit, throw.
  rewrite H1. simpl.
  rewrite <- app_assoc. simpl. rewrite H2. simpl.
  repeat rewrite <- app_assoc. simpl. rewrite H3. simpl.
  eexists. split; [ reflexivity | ].
  split; [ simpl; repeat rewrite <- app_assoc; reflexivity | ].
  split; [ reflexivity | ].
  split; [ | eapply prepare_order_quantity; eauto ].
  intros m Hm Htruthy. unfold Exit.errorMessageOf, exchangeMsgOrMessage, orElse.
  rewrite Hm, Htruthy, Htruthy. reflexivity.
Qed.

Lemma sell_gives_up_after_three_refusals_witness :
  let order := Exit.exitOrder "BTCUSDT" LONG (JS.dec 1 2) None in
  exists st' : State,
    Exit.sell Scenario.refusing Scenario.sellBtc Scenario.fresh
    = (Ok (Exit.failure (Verbatim "Margin is insufficient.")), st')
    /\ trace st'
       = [GetBinanceInstance; SyncServerTime; GetBinanceInstance; FetchPositions]
         ++ [NewOrder order; Sleep 2000; NewOrder order; Sleep 4000; NewOrder order].
Proof.
  intro order.
  destruct (sell_gives_up_after_three_refusals
              Scenario.refusing Scenario.sellBtc Scenario.fresh
              (snd (Exit.prepare Scenario.refusing Scenario.sellBtc Scenario.fresh))
              order
              (Scenario.rejected "Margin is insufficient.")
              (Scenario.rejected "Margin is insufficient.")
              (Scenario.rejected "Margin is insufficient."))
    as (st' & Hrun & Htrace & _).
  - vm_compute. reflexivity.
  - vm_compute. reflexivity.
  - reflexivity.
  - reflexivity.
  - reflexivity.
  - exists st'. split; [ exact Hrun | exact Htrace ].
Defined.

(* ================================================================= *)
(** ** The session *)

Lemma singleFlight_initial : singleFlight Session.initial.
Proof. left. repeat split. Qed.

Lemma getBinanceInstance_keeps credentials w :
  singleFlight w ->
  fst (Session.getBinanceInstance credentials w) = 0%nat
  /\ singleFlight (snd (Session.getBinanceInstance credentials w)).
Proof.
  intros [(Hp & Hi & Hh) | (Hp & Hh & progress & Hi & Hprog)];
    unfold Session.getBinanceInstance; rewrite Hp; simpl.
  - rewrite Hi, Hh. simpl. split; [ reflexivity | ]. right.
    destruct credentials; simpl.
    + split; [ reflexivity | split; [ repeat constructor | ] ].
      exists (Session.Pinging 1). split; [ reflexivity | ]. simpl. lia.
    + split; [ reflexivity | split; [ constructor | ] ].
      exists Session.Failed. split; [ reflexivity | ]. simpl. lia.
  - split; [ reflexivity | ]. right. split; [ exact Hp | split; [ exact Hh | ] ].
    exists progress. split; assumption.
Qed.

Lemma pingAnswered_keeps p ok w : singleFlight w -> singleFlight (Session.pingAnswered p ok w).
Proof.
  intros [(Hp & Hi & Hh) | (Hp & Hh & progress & Hi & Hprog)];
    unfold Session.pingAnswered; rewrite Hi.
  - destruct p; simpl; left; repeat split; assumption.
  - destruct p as [ | p'].
    + simpl. destruct progress as [attempt | | ].
      * destruct Hprog as [Hrange Hlen]. destruct ok.
        -- right. simpl. split; [ exact Hp | split; [ exact Hh | ] ].
           exists Session.Connected. split; [ reflexivity | ].
           apply Nat2Z.inj_le. lia.
        -- destruct (attempt <? 5) eqn:E.
           ++ apply Z.ltb_lt in E. right. simpl.
              split; [ exact Hp | split ].
              ** apply Forall_app. split; [ exact Hh | repeat constructor ].
              ** exists (Session.Pinging (attempt + 1)). split; [ reflexivity | ].
                 rewrite length_app. simpl. lia.
           ++ right. simpl. split; [ exact Hp | split; [ exact Hh | ] ].
              exists Session.Failed. split; [ reflexivity | ].
              apply Nat2Z.inj_le. lia.
      * right. split; [ exact Hp | split; [ exact Hh | ] ].
        exists Session.Connected. split; assumption.
      * right. split; [ exact Hp | split; [ exact Hh | ] ].
        exists Session.Failed. split; assumption.
    + simpl. destruct p'; simpl; right;
        (split; [ exact Hp | split; [ exact Hh | ] ]);
        exists progress; split; assumption.
Qed.

Lemma run_keeps steps :
  forall w, singleFlight w ->
            Forall (eq 0%nat) (fst (Session.run steps w))
            /\ singleFlight (snd (Session.run steps w)).
Proof.
  induction steps as [ | step rest IH]; intros w Hw; simpl.
  - split; [ constructor | exact Hw ].
  - destruct step as [credentials | p ok].
    + destruct (getBinanceInstance_keeps credentials w Hw) as [H0 Hkeep].
      destruct (Session.getBinanceInstance credentials w) as [q w1]. simpl in *.
      destruct (IH w1 Hkeep) as [Hall Hend].
      destruct (Session.run rest w1) as [ps w2]. simpl in *.
      split; [ constructor; auto | exact Hend ].
    + apply IH. apply pingAnswered_keeps. exact Hw.
Qed.

(** Once set, the module variable stays set. *)
Lemma getBinanceInstance_sets_variable credentials w :
  Session.initializationPromise (snd (Session.getBinanceInstance credentials w)) <> None.
Proof.
  unfold Session.getBinanceInstance.
  destruct (Session.initializationPromise w) eqn:E; simpl; congruence.
Qed.

Lemma pingAnswered_keeps_variable p ok w :
  Session.initializationPromise (Session.pingAnswered p ok w)
  = Session.initializationPromise w.
Proof.
  unfold Session.pingAnswered.
  destruct (nth_error _ _) as [[attempt | | ] | ]; try reflexivity.
  destruct ok; [ reflexivity | ]. destruct (attempt <? 5); reflexivity.
Qed.

Lemma run_keeps_variable_set steps :
  forall w, Session.initializationPromise w <> None ->
            Session.initializationPromise (snd (Session.run steps w)) <> None.
Proof.
  induction steps as [ | step rest IH]; intros w Hw; simpl.
  - exact Hw.
  - destruct step as [credentials | p ok].
    + pose proof (getBinanceInstance_sets_variable credentials w) as Hset.
      destruct (Session.getBinanceInstance credentials w) as [q w1]. simpl in Hset.
      specialize (IH w1 Hset). destruct (Session.run rest w1) as [ps w2]. exact IH.
    + apply IH. rewrite pingAnswered_keeps_variable. exact Hw.
Qed.

(** A run that ends with the variable unset has served no caller. *)
Lemma run_unset_serves_nobody steps :
  forall w, Session.initializationPromise (snd (Session.run steps w)) = None ->
            fst (Session.run steps w) = [].
Proof.
  induction steps as [ | step rest IH]; intros w H; simpl in *.
  - reflexivity.
  - destruct step as [credentials | p ok].
    + exfalso.
      pose proof (getBinanceInstance_sets_variable credentials w) as Hset.
      destruct (Session.getBinanceInstance credentials w) as [q w1]. simpl in Hset.
      pose proof (run_keeps_variable_set rest w1 Hset) as Hstays.
      destruct (Session.run rest w1) as [ps w2]. simpl in *. contradiction.
    + apply IH. exact H.
Qed.

(** ** Single-flight session acquisition *)

(** C9. For every interleaving of calls of [getBinanceInstance] and of
    completions of the pending connection test, starting from the state with
    no session: every caller receives the same promise, at most one
    initialization is ever started (exactly one as soon as there is a call,
    and it is the one the module variable holds), and every handshake sent
    belongs to that initialization, at most five in all. *)
Theorem getBinanceInstance_single_flight :
  forall steps : list Session.Step,
    let promises := fst (Session.run steps Session.initial) in
    let w := snd (Session.run steps Session.initial) in
    (forall p q, In p promises -> In q promises -> p = q)
    /\ (List.length (Session.initializations w) <= 1)%nat
    /\ (promises <> [] ->
        List.length (Session.initializations w) = 1%nat
        /\ forall p, In p promises -> Session.initializationPromise w = Some p)
    /\ Forall (fun h => forall p, In p promises -> h = p) (Session.handshakes w)
    /\ (List.length (Session.handshakes w) <= 5)%nat.
Proof.
  intros steps promises w.
  destruct (run_keeps steps Session.initial singleFlight_initial) as [Hall Hinv].
  fold promises in Hall. fold w in Hinv. rewrite Forall_forall in Hall.
  split; [ intros p q Hp Hq; rewrite <- (Hall p Hp), <- (Hall q Hq); reflexivity | ].
  destruct Hinv as [(Hp & Hi & Hh) | (Hp & Hh & progress & Hi & Hprog)].
  - rewrite Hi, Hh. simpl. split; [ lia | split; [ | split; [ constructor | lia ] ] ].
    intro Hne. exfalso. apply Hne.
    apply (run_unset_serves_nobody steps Session.initial). exact Hp.
  - rewrite Hi. simpl. split; [ lia | split; [ | split ] ].
    + intros _. split; [ reflexivity | ].
      intros p Hin. rewrite Hp, <- (Hall p Hin). reflexivity.
    + eapply Forall_impl; [ | exact Hh ]. intros h Hh0 p Hin.
      rewrite <- Hh0, <- (Hall p Hin). reflexivity.
    + destruct progress as [attempt | | ]; [ | exact Hprog | exact Hprog ].
      destruct Hprog as [Hrange Hlen]. apply Nat2Z.inj_le. lia.
Qed.

(* ================================================================= *)
(** ** Risk control of an entry *)

Lemma gtb_NaN_l (y : number) : JS.gtb JS.NaN y = false.
Proof. destruct y; reflexivity. Qed.

Lemma mul_NaN_l (y : number) : JS.mul JS.NaN y = JS.NaN.
Proof. destruct y; reflexivity. Qed.

Lemma mul_NaN_r (x : number) : JS.mul x JS.NaN = JS.NaN.
Proof. destruct x; reflexivity. Qed.

Lemma div_NaN_l (y : number) : JS.div JS.NaN y = JS.NaN.
Proof. destruct y; reflexivity. Qed.

(** X4. [checkBuyRisk] refuses an entry exactly when the leverage is
    strictly above the maximum, or the position value [amount * price] is
    strictly above the size limit, or the margin [value / leverage] is
    strictly above 98% of the balance; a refusal always carries a reason.
    The comparisons are those of binary64: an amount or a price that is NaN
    makes the value and the margin NaN, which exceed nothing, so such an
    entry is allowed whenever its leverage is. *)
Theorem checkBuyRisk_refuses_strict_excess_only :
  forall (amount price leverage currentBalance : number) (config : Risk.RiskConfig),
    let r := BuyRisk.checkBuyRisk amount price leverage currentBalance config in
    let positionValue := JS.mul amount price in
    (BuyRisk.allowed r = false <->
       JS.gtb leverage (Risk.maxLeverage config) = true
       \/ JS.gtb positionValue (Risk.maxPositionSizeUSDT config) = true
       \/ JS.gtb (JS.div positionValue leverage)
                 (JS.mul currentBalance (JS.dec 98 2)) = true)
    /\ (BuyRisk.allowed r = true <-> BuyRisk.reason r = None)
    /\ (amount = JS.NaN \/ price = JS.NaN ->
        BuyRisk.allowed r = negb (JS.gtb leverage (Risk.maxLeverage config))).
Proof.
  intros amount price leverage currentBalance config r positionValue.
  subst r positionValue. unfold BuyRisk.checkBuyRisk.
  split; [ | split ].
  - destruct (JS.gtb leverage _); [ simpl; tauto | ].
    destruct (JS.gtb (JS.mul amount price) _); [ simpl; tauto | ].
    destruct (JS.gtb (JS.div _ _) _); simpl; [ tauto | ].
    split; [ discriminate | ]. intros [H | [H | H]]; discriminate.
  - destruct (JS.gtb leverage _); [ simpl; split; discriminate | ].
    destruct (JS.gtb (JS.mul amount price) _); [ simpl; split; discriminate | ].
    destruct (JS.gtb (JS.div _ _) _); simpl; [ split; discriminate | tauto ].
  - intros Hnan.
    assert (Hv : JS.mul amount price = JS.NaN).
    { destruct Hnan as [-> | ->]; [ apply mul_NaN_l | apply mul_NaN_r ]. }
    rewrite Hv, div_NaN_l, !gtb_NaN_l.
    destruct (JS.gtb leverage _); reflexivity.
Qed.

(* ================================================================= *)
(** ** The account summary *)

Lemma sub_self_finite (m : positive) (e : Z) :
  JS.sub (S754_finite false m e) (S754_finite false m e) = S754_zero false.
Proof.
  unfold JS.sub, SFsub. cbn [negb]. rewrite Z.min_id.
  unfold shl_align. rewrite Z.sub_diag. cbn [fst cond_Zopp].
  reflexivity.
Qed.

(** X5. Asked for without an initial capital, as the cron job does, the
    account summary takes the wallet balance itself as the base, so the
    total return it reports is 0 for every wallet balance other than
    +Infinity: the stored metrics never show a gain or a loss. *)
Theorem account_summary_without_initial_capital_reports_zero_return :
  forall (allPositions : list Positions.Position) (accountInfo : Account.AccountInfo),
    Account.totalWalletBalance accountInfo <> S754_infinity false ->
    Account.currentTotalReturn
      (Account.getAccountInformationAndPerformance allPositions accountInfo None)
    = JS.ofZ 0
    /\ Account.currentTotalReturn (Metrics.newPoint allPositions accountInfo) = JS.ofZ 0.
Proof.
  intros allPositions accountInfo Hinf.
  assert (H : Account.currentTotalReturn
                (Account.getAccountInformationAndPerformance allPositions accountInfo None)
              = JS.ofZ 0).
  { unfold Account.getAccountInformationAndPerformance. cbn [Account.currentTotalReturn].
    destruct (Account.totalWalletBalance accountInfo) as [s | s | | s m e].
    - destruct s; reflexivity.
    - destruct s; [ reflexivity | congruence ].
    - reflexivity.
    - destruct s; [ reflexivity | ].
      change (JS.gtb (S754_finite false m e) (JS.ofZ 0)) with true. cbv iota.
      rewrite sub_self_finite. reflexivity. }
  split; [ exact H | exact H ].
Qed.

Lemma account_summary_without_initial_capital_reports_zero_return_witness :
  Account.currentTotalReturn
    (Account.getAccountInformationAndPerformance []
       {| Account.totalWalletBalance := JS.ofZ 1250;
          Account.totalUnrealizedProfit := JS.ofZ 250;
          Account.availableBalance := JS.ofZ 900 |} None)
  = JS.ofZ 0.
Proof.
  apply (account_summary_without_initial_capital_reports_zero_return
           [] {| Account.totalWalletBalance := JS.ofZ 1250;
                 Account.totalUnrealizedProfit := JS.ofZ 250;
                 Account.availableBalance := JS.ofZ 900 |}).
  vm_compute. discriminate.
Defined.

(* ================================================================= *)
(** ** The stored metrics *)

(** X6. The cron job stores the old points followed by the new one, cut to
    the newest 10080: the new point is always the last one stored, the
    points before it are the newest old ones in their order, and the count
    is the smaller of the old count plus one and 10080. *)
Theorem finalMetrics_keeps_the_newest_points :
  forall (A : Type) (existing : list A) (point : A),
    exists dropped kept : list A,
      existing = dropped ++ kept
      /\ Metrics.finalMetrics existing point = kept ++ [point]
      /\ Z.of_nat (List.length (Metrics.finalMetrics existing point))
         = Z.min (Z.of_nat (List.length existing) + 1) Metrics.MAX_METRICS_COUNT.
Proof.
  intros A existing point. unfold Metrics.finalMetrics, Metrics.MAX_METRICS_COUNT.
  rewrite length_app. cbn [List.length].
  destruct (Z.of_nat (List.length existing + 1) >? 10080) eqn:E.
  - apply Z.gtb_lt in E.
    set (k := Z.to_nat (Z.of_nat (List.length existing + 1) - 10080)).
    assert (Hk : (k <= List.length existing)%nat) by (subst k; lia).
    exists (firstn k existing), (skipn k existing).
    split; [ symmetry; apply firstn_skipn | ].
    assert (Hs : skipn k (existing ++ [point]) = skipn k existing ++ [point]).
    { rewrite skipn_app. replace (k - List.length existing)%nat with 0%nat by lia.
      reflexivity. }
    rewrite Hs. split; [ reflexivity | ].
    rewrite length_app, length_skipn. cbn [List.length]. subst k. lia.
  - assert (~ 10080 < Z.of_nat (List.length existing + 1)).
    { intro H. apply Z.gtb_lt in H. congruence. }
    exists [], existing. split; [ reflexivity | ]. split; [ reflexivity | ].
    rewrite length_app. cbn [List.length]. lia.
Qed.

(* ================================================================= *)
(** ** The positions read from the exchange *)

Lemma eqb_abs_zero (x : number) : JS.eqb (JS.abs x) (JS.ofZ 0) = JS.eqb x (JS.ofZ 0).
Proof. destruct x as [s | s | | s m e]; try destruct s; reflexivity. Qed.

Lemma ltb_abs_zero (x : number) : JS.ltb (JS.abs x) (JS.ofZ 0) = false.
Proof. destruct x as [s | s | | s m e]; try destruct s; reflexivity. Qed.

Lemma filter_all {A} (f : A -> bool) (l : list A) :
  Forall (fun x => f x = true) l -> filter f l = l.
Proof.
  induction 1 as [ | x l Hx _ IH]; simpl; [ reflexivity | ].
  rewrite Hx, IH. reflexivity.
Qed.

(** X7. [fetchPositions] keeps the positions whose amount is not zero and
    returns them with [contracts] the absolute amount: no returned position
    has [contracts] equal to 0 or below 0, so the filters [contracts !== 0]
    of the callers (the account summary, the exit, the automatic
    protection) keep every position.  The side is long exactly when the
    amount is above 0; an amount that is no number is kept and called
    short. *)
Theorem fetchPositions_returns_open_positions_only :
  forall raw : list Positions.BinancePosition,
    let positions := Positions.activePositions raw in
    Forall (fun p => JS.eqb (Positions.contracts p) (JS.ofZ 0) = false
                     /\ JS.ltb (Positions.contracts p) (JS.ofZ 0) = false) positions
    /\ filter Account.isActive positions = positions
    /\ filter Exit.isActive (map readByEngine positions) = map readByEngine positions
    /\ (forall b, Positions.side (Positions.convert b) = long
                  <-> JS.gtb (Positions.b_positionAmt b) (JS.ofZ 0) = true)
    /\ (forall b, Positions.b_positionAmt b = JS.NaN ->
                  Positions.isOpen b = true /\ Positions.side (Positions.convert b) = short).
Proof.
  intros raw positions.
  assert (Hall : Forall (fun p => JS.eqb (Positions.contracts p) (JS.ofZ 0) = false
                                  /\ JS.ltb (Positions.contracts p) (JS.ofZ 0) = false)
                        positions).
  { subst positions. unfold Positions.activePositions.
    apply Forall_map. apply Forall_forall. intros b Hb.
    apply filter_In in Hb as [_ Hopen]. unfold Positions.isOpen in Hopen.
    cbn [Positions.convert Positions.contracts].
    rewrite eqb_abs_zero, ltb_abs_zero.
    split; [ | reflexivity ]. destruct (JS.eqb _ _); [ discriminate | reflexivity ]. }
  split; [ exact Hall | ].
  split; [ | split; [ | split ] ].
  - apply filter_all. eapply Forall_impl; [ | exact Hall ].
    intros p [Hp _]. unfold Account.isActive. rewrite Hp. reflexivity.
  - apply filter_all. apply Forall_map. eapply Forall_impl; [ | exact Hall ].
    intros p [Hp _]. unfold Exit.isActive, readByEngine. cbn [pos_contracts].
    rewrite Hp. reflexivity.
  - intro b. cbn [Positions.convert Positions.side].
    destruct (JS.gtb _ _); split; congruence.
  - intros b Hb. unfold Positions.isOpen. cbn [Positions.convert Positions.side].
    rewrite Hb. split; reflexivity.
Qed.

(* ================================================================= *)
(** ** Lessons recorded by the position monitor *)

Lemma all_equal_repeat {A} (x : A) (l : list A) :
  Forall (fun y => y = x) l -> l = repeat x (List.length l).
Proof.
  induction 1 as [ | y l Hy _ IH]; simpl; [ reflexivity | ].
  rewrite Hy. f_equal. exact IH.
Qed.

Lemma firstn_repeat {A} (x : A) (n k : nat) :
  firstn n (repeat x k) = repeat x (Nat.min n k).
Proof.
  revert k. induction n as [ | n IH]; intro k; [ reflexivity | ].
  destruct k as [ | k]; [ reflexivity | ]. simpl. f_equal. apply IH.
Qed.

(** X8. The position monitor records every closed position with a
    placeholder PnL of 0, which [analyzeTradeOutcome] stores as a profit.
    When the lessons of the window all come from the monitor, the
    statistics show a win rate of 100 and a total PnL of 0, and the prompt
    tells the model that risk is increased: leverage times 1.2, position
    size times 1.1, confidence threshold 0.55. *)
Theorem monitor_lessons_raise_the_risk :
  forall rows : list Lessons.TradingLesson,
    rows <> [] ->
    Forall (fun l => l = Lessons.monitorLesson) rows ->
    Lessons.win_rate (Lessons.getLearningStats rows) = JS.ofZ 100
    /\ Lessons.total_pnl (Lessons.getLearningStats rows) = JS.ofZ 0
    /\ Lessons.losing_trades (Lessons.getLearningStats rows) = 0
    /\ Lessons.promptAdjustment rows
       = Some {| Learning.leverage_multiplier := JS.dec 12 1;
                 Learning.position_size_multiplier := JS.dec 11 1;
                 Learning.confidence_threshold := JS.dec 55 2;
                 Learning.recommendation := Learning.RiskIncreased |}.
Proof.
  intros rows Hne Hall.
  assert (Hrows : exists n, (1 <= n <= 50)%nat
                            /\ firstn 50 rows = repeat Lessons.monitorLesson n).
  { exists (Nat.min 50 (List.length rows)). split.
    - destruct rows; [ congruence | cbn [List.length]; lia ].
    - rewrite (all_equal_repeat _ _ Hall) at 1. apply firstn_repeat. }
  destruct Hrows as (n & Hn & Hfirst).
  unfold Lessons.promptAdjustment, Lessons.getLearningStats.
  cbn [Lessons.win_rate Lessons.total_pnl Lessons.losing_trades Lessons.total_trades].
  rewrite Hfirst. clear Hfirst Hall Hne rows.
  do 51 (destruct n as [ | n];
         [ first [ lia | vm_compute; repeat split; reflexivity ] | ]).
  lia.
Qed.

Lemma monitor_lessons_raise_the_risk_witness :
  Lessons.promptAdjustment
    [Lessons.monitorLesson; Lessons.monitorLesson; Lessons.monitorLesson]
  = Some {| Learning.leverage_multiplier := JS.dec 12 1;
            Learning.position_size_multiplier := JS.dec 11 1;
            Learning.confidence_threshold := JS.dec 55 2;
            Learning.recommendation := Learning.RiskIncreased |}.
Proof.
  apply (monitor_lessons_raise_the_risk
           [Lessons.monitorLesson; Lessons.monitorLesson; Lessons.monitorLesson]).
  - discriminate.
  - repeat constructor.
Defined.

(* ================================================================= *)
(** ** Upkeep of the protection *)

(** *** Cancelling *)

(** The loop asks for the cancellation of every order it is given, in
    order, and counts the cancellations that went through. *)
Lemma cancelEach_run ex symbol orders count st :
  exists n st',
    Protection.cancelEach ex symbol orders count st = (Ok n, st')
    /\ trace st' = trace st ++ cancellations symbol orders
    /\ count <= n <= count + Z.of_nat (List.length orders)
    /\ ((forall h id, onCancelOrder ex h symbol id = true) ->
        n = count + Z.of_nat (List.length orders)).
Proof.
  revert count st. induction orders as [ | order rest IH]; intros count st.
  - exists count, st. simpl. rewrite app_nil_r.
    split; [ reflexivity | ]. split; [ reflexivity | ]. split; lia.
  - cbn [Protection.cancelEach]. unfold bind at 1, cancelOrder, ask.
    destruct (IH (if onCancelOrder ex (trace st) symbol (oo_orderId order)
                  then count + 1 else count)
                 (record (CancelOrder symbol (oo_orderId order)) st))
      as (n & st' & Hrun & Htrace & Hn & Hall).
    exists n, st'. split; [ exact Hrun | ].
    split; [ rewrite Htrace; simpl; rewrite <- app_assoc; reflexivity | ].
    cbn [List.length]. split.
    + destruct (onCancelOrder ex (trace st) symbol (oo_orderId order)); lia.
    + intro Hok. specialize (Hall Hok). rewrite Hok in Hall. lia.
Qed.

(** With a session, [cancelStopLossTakeProfit] lists the open orders and
    asks for the cancellation of the protective ones. *)
Lemma cancelStopLossTakeProfit_run ex symbol st :
  session ex = Ok tt ->
  exists n st',
    Upkeep.cancelStopLossTakeProfit ex symbol st
    = (Ok {| Protection.c_success := true;
             Protection.canceledCount := n;
             Protection.c_error := None |}, st')
    /\ trace st'
       = trace st ++ [GetBinanceInstance; OpenOrders (Str.removeFirstSlash symbol)]
                  ++ cancellations (Str.removeFirstSlash symbol)
                       (filter Protection.isSlTpType
                          (onOpenOrders ex (trace st ++ [GetBinanceInstance])
                             (Str.removeFirstSlash symbol)))
    /\ 0 <= n <= Z.of_nat (List.length
                             (filter Protection.isSlTpType
                                (onOpenOrders ex (trace st ++ [GetBinanceInstance])
                                   (Str.removeFirstSlash symbol))))
    /\ ((forall h id, onCancelOrder ex h (Str.removeFirstSlash symbol) id = true) ->
        n = Z.of_nat (List.length
                        (filter Protection.isSlTpType
                           (onOpenOrders ex (trace st ++ [GetBinanceInstance])
                              (Str.removeFirstSlash symbol))))).
Proof.
  intro Hsession.
  set (binanceSymbol := Str.removeFirstSlash symbol).
  set (slTpOrders := filter Protection.isSlTpType
                       (onOpenOrders ex (trace st ++ [GetBinanceInstance]) binanceSymbol)).
  destruct (cancelEach_run ex binanceSymbol slTpOrders 0
              (record (OpenOrders binanceSymbol) (record GetBinanceInstance st)))
    as (n & st' & Hrun & Htrace & Hn & Hall).
  exists n, st'. split.
  - unfold Upkeep.cancelStopLossTakeProfit, tryCatch, bind, awaitBinanceInstance,
      openOrders, ask.
    rewrite Hsession. cbn [trace record]. fold binanceSymbol. fold slTpOrders.
    cbn [trace record] in Hrun. rewrite Hrun. reflexivity.
  - split; [ rewrite Htrace; simpl; rewrite <- !app_assoc; reflexivity | ].
    split; [ lia | ]. intro Hok. rewrite (Hall Hok). lia.
Qed.

(** X9. [cancelStopLossTakeProfit] asks for the open orders of the symbol
    and for the cancellation of those of type stop-market or
    take-profit-market, each once, in the order listed, and of no other
    order; [canceledCount] lies between 0 and the number of these orders
    and equals it when every cancellation goes through.  Without a session
    the result is a failure with count 0 and nothing is asked of the
    exchange. *)
Theorem cancelStopLossTakeProfit_cancels_listed_protective_orders_only :
  forall (ex : Exchange) (symbol : string) (st : State),
    let binanceSymbol := Str.removeFirstSlash symbol in
    let run := Upkeep.cancelStopLossTakeProfit ex symbol st in
    match session ex with
    | Ok _ =>
        let listed := onOpenOrders ex (trace st ++ [GetBinanceInstance]) binanceSymbol in
        let slTpOrders := filter Protection.isSlTpType listed in
        exists n : Z,
          fst run = Ok {| Protection.c_success := true;
                          Protection.canceledCount := n;
                          Protection.c_error := None |}
          /\ trace (snd run)
             = trace st ++ [GetBinanceInstance; OpenOrders binanceSymbol]
                        ++ cancellations binanceSymbol slTpOrders
          /\ 0 <= n <= Z.of_nat (List.length slTpOrders)
          /\ ((forall h id, onCancelOrder ex h binanceSymbol id = true) ->
              n = Z.of_nat (List.length slTpOrders))
    | Thrown e =>
        fst run = Ok {| Protection.c_success := false;
                        Protection.canceledCount := 0;
                        Protection.c_error :=
                          Some (orElse (message e) "Unknown error occurred") |}
        /\ trace (snd run) = trace st ++ [GetBinanceInstance]
    end.
Proof.
  intros ex symbol st binanceSymbol run.
  destruct (session ex) as [u | e] eqn:Hsession.
  - destruct u. cbv zeta.
    destruct (cancelStopLossTakeProfit_run ex symbol st Hsession)
      as (n & st' & Hrun & Htrace & Hn & Hall).
    subst run. rewrite Hrun. exists n. cbn [fst snd].
    split; [ reflexivity | ]. split; [ exact Htrace | ]. split; [ exact Hn | exact Hall ].
  - subst run.
    unfold Upkeep.cancelStopLossTakeProfit, tryCatch, bind, awaitBinanceInstance, ask.
    rewrite Hsession. cbn [fst snd ret]. split; reflexivity.
Qed.

(** *** The automatic protection of every position *)

Lemma setStopLossTakeProfit_without_slash ex params st :
  Str.includesSlash (Protection.symbol params) = false ->
  Protection.setStopLossTakeProfit ex params st
  = (Ok (Protection.failure InvalidSymbolFormat), st).
Proof.
  intro H. unfold Protection.setStopLossTakeProfit. rewrite H, orb_true_r. reflexivity.
Qed.

Lemma protectEach_without_slash ex positions sl tp acc st :
  Forall (fun p => Str.includesSlash (pos_symbol p) = false) positions ->
  Upkeep.protectEach ex positions sl tp acc st
  = (Ok (acc ++ map (fun p => (pos_symbol p, Protection.failure InvalidSymbolFormat))
                   positions), st).
Proof.
  intro H. revert acc. induction H as [ | p rest Hp _ IH]; intro acc.
  - simpl. rewrite app_nil_r. reflexivity.
  - cbn [Upkeep.protectEach]. unfold bind at 1.
    rewrite setStopLossTakeProfit_without_slash by exact Hp.
    rewrite IH. rewrite <- app_assoc. reflexivity.
Qed.

(** X10. [setAutoStopLossTakeProfitForAll] hands [position.symbol] to
    [setStopLossTakeProfit], which wants a slash in the symbol.  When the
    positions carry the exchange's symbols, which have none, every
    position's result is the failure "Invalid symbol format", the positions
    are the only thing read from the exchange, no order is created or
    cancelled, and the call still reports [success: true]. *)
Theorem setAutoStopLossTakeProfitForAll_protects_no_exchange_symbol :
  forall (ex : Exchange) (defaultStopLossPercent defaultTakeProfitPercent : option number)
         (st : State) (positions : list Position),
    onFetchPositions ex (trace st) = Ok positions ->
    Forall (fun p => Str.includesSlash (pos_symbol p) = false) positions ->
    exists st' : State,
      Upkeep.setAutoStopLossTakeProfitForAll ex defaultStopLossPercent
        defaultTakeProfitPercent st
      = (Ok {| Upkeep.a_success := true;
               Upkeep.results :=
                 map (fun p => (pos_symbol p, Protection.failure InvalidSymbolFormat))
                     (filter Exit.isActive positions) |}, st')
      /\ trace st' = trace st ++ [FetchPositions].
Proof.
  intros ex d1 d2 st positions Hfetch Hsym.
  unfold Upkeep.setAutoStopLossTakeProfitForAll, tryCatch, bind at 1, fetchPositions, ask.
  rewrite Hfetch.
  assert (Hact : Forall (fun p => Str.includesSlash (pos_symbol p) = false)
                        (filter Exit.isActive positions)).
  { apply Forall_forall. intros p Hp. apply filter_In in Hp as [Hp _].
    rewrite Forall_forall in Hsym. apply Hsym. exact Hp. }
  destruct (filter Exit.isActive positions) as [ | p rest] eqn:E.
  - eexists. split; reflexivity.
  - unfold bind. rewrite protectEach_without_slash by exact Hact.
    eexists. split; reflexivity.
Qed.

Lemma setAutoStopLossTakeProfitForAll_protects_no_exchange_symbol_witness :
  exists st' : State,
    Upkeep.setAutoStopLossTakeProfitForAll (Scenario.exchange true true []) None None
      Scenario.fresh
    = (Ok {| Upkeep.a_success := true;
             Upkeep.results := [("BTCUSDT"%string, Protection.failure InvalidSymbolFormat)] |},
       st')
    /\ trace st' = [FetchPositions].
Proof.
  apply (setAutoStopLossTakeProfitForAll_protects_no_exchange_symbol
           (Scenario.exchange true true []) None None Scenario.fresh [Scenario.btcLong]).
  - reflexivity.
  - repeat constructor.
Defined.

(** *** The trailing stop *)

(** X11. [updateTrailingStop] leaves a position that is not in profit
    alone: when the unrealized PnL is 0 or below, it reports success
    without a new stop, and reading the positions is all it asked of the
    exchange; the protective orders in place are not touched. *)
Theorem updateTrailingStop_leaves_unprofitable_position_alone :
  forall (ex : Exchange) (symbol : string) (trailingPercent : option number)
         (st : State) (positions : list Position) (position : Position),
    onFetchPositions ex (trace st) = Ok positions ->
    find (fun p => String.eqb (pos_symbol p) (Str.removeFirstSlash symbol)) positions
    = Some position ->
    JS.eqb (pos_contracts position) (JS.ofZ 0) = false ->
    JS.leb (pos_unrealizedPnl position) (JS.ofZ 0) = true ->
    exists st' : State,
      Upkeep.updateTrailingStop ex symbol trailingPercent st
      = (Ok {| Upkeep.success := true; Upkeep.newStopLoss := None;
               Upkeep.error := None |}, st')
      /\ trace st' = trace st ++ [FetchPositions].
Proof.
  intros ex symbol pct st positions position Hfetch Hfind Hopen Hpnl.
  unfold Upkeep.updateTrailingStop, tryCatch, bind at 1, fetchPositions, ask.
  rewrite Hfetch, Hfind, Hopen, Hpnl.
  eexists. split; reflexivity.
Qed.

Lemma updateTrailingStop_leaves_unprofitable_position_alone_witness :
  exists st' : State,
    Upkeep.updateTrailingStop (Scenario.exchange true true [Scenario.staleStop])
      "BTC/USDT" None Scenario.fresh
    = (Ok {| Upkeep.success := true; Upkeep.newStopLoss := None;
             Upkeep.error := None |}, st')
    /\ trace st' = [FetchPositions].
Proof.
  apply (updateTrailingStop_leaves_unprofitable_position_alone
           (Scenario.exchange true true [Scenario.staleStop]) "BTC/USDT" None
           Scenario.fresh [Scenario.btcLong] Scenario.btcLong).
  - reflexivity.
  - reflexivity.
  - vm_compute. reflexivity.
  - vm_compute. reflexivity.
Defined.

(** **** What the preparation adds to the trace *)

Lemma getPositionMode_cleanup ex : emits cleanupEvent (Protection.getPositionMode ex).
Proof.
  intro st. unfold Protection.getPositionMode.
  destruct (modeCacheProtection st) as [m | ].
  - exists []. simpl. rewrite app_nil_r. auto.
  - revert st.
    change (emits cleanupEvent
              (tryCatch
                 (awaitBinanceInstance ex ;;;
                  m <- queryPositionMode ex ;; Protection.setCache m ;;; ret m)
                 (fun _ => Protection.setCache ONE_WAY ;;; ret ONE_WAY))).
    unfold awaitBinanceInstance, queryPositionMode.
    footprint; apply setCache_protection_emits.
Qed.

Lemma cancelEach_cleanup ex symbol orders count :
  emits cleanupEvent (Protection.cancelEach ex symbol orders count).
Proof.
  revert count. induction orders as [ | order rest IH]; intro count; simpl.
  - footprint.
  - unfold cancelOrder. footprint. apply IH.
Qed.

Lemma cancelStopLossTakeProfitForPosition_cleanup ex symbol side :
  emits cleanupEvent (Protection.cancelStopLossTakeProfitForPosition ex symbol side).
Proof.
  unfold Protection.cancelStopLossTakeProfitForPosition.
  apply emits_tryCatch; [ | footprint ].
  apply emits_bind; [ unfold awaitBinanceInstance; footprint | intros _ ].
  apply emits_bind; [ apply getPositionMode_cleanup | intro mode ].
  apply emits_bind; [ unfold openOrders; footprint | intro orders ].
  match goal with |- emits _ (match ?l with _ => _ end) => destruct l end.
  - footprint.
  - apply emits_bind; [ apply cancelEach_cleanup | footprint ].
Qed.

(** The preparation reads and cancels; it creates no order. *)
Lemma prepare_cleanup ex params : emits cleanupEvent (Protection.prepare ex params).
Proof.
  unfold Protection.prepare.
  apply emits_bind; [ unfold awaitBinanceInstance; footprint | intros _ ].
  apply emits_bind; [ unfold fetchPositions; footprint | intro positions ].
  destruct (find _ positions) as [position | ]; [ | footprint ].
  destruct (JS.eqb _ _); [ footprint | ].
  apply emits_bind.
  - match goal with |- emits _ (if ?c then _ else _) => destruct c end.
    + apply emits_tryCatch; [ | footprint ].
      apply emits_bind; [ unfold getCurrentMarketState; footprint | intro ms ].
      destruct (Protection.percentsFromATR ms _). footprint.
    + footprint.
  - intros [sl tp].
    apply emits_bind.
    + apply emits_tryCatch; [ | footprint ].
      apply emits_bind;
        [ apply cancelStopLossTakeProfitForPosition_cleanup | intro c ].
      destruct (0 <? _); unfold sleep; footprint.
    + intros _. apply emits_bind; [ apply getPositionMode_cleanup | footprint ].
Qed.

Lemma getPositionMode_total ex : total (Protection.getPositionMode ex).
Proof.
  intro st. unfold Protection.getPositionMode.
  destruct (modeCacheProtection st) as [m | ]; [ exists m, st; reflexivity | ].
  revert st. apply total_tryCatch. intros _.
  apply total_bind; [ | intros _; apply total_ret ].
  intro st. eexists. eexists. reflexivity.
Qed.

(** With a session and the position at hand, a request that names a stop
    price is planned with that price, for the side and the entry price of
    the position, and without a target. *)
Lemma prepare_plans_the_stop ex symbol stop st positions position :
  session ex = Ok tt ->
  onFetchPositions ex (trace st ++ [GetBinanceInstance]) = Ok positions ->
  find (fun p => String.eqb (pos_symbol p) (Str.removeFirstSlash symbol)) positions
  = Some position ->
  JS.eqb (pos_contracts position) (JS.ofZ 0) = false ->
  JS.truthy stop = true ->
  exists mode st',
    Protection.prepare ex (Upkeep.trailingRequest symbol stop) st
    = (Ok (inr {| Protection.binanceSymbol := Str.removeFirstSlash symbol;
                  Protection.isLong := isLongPosition position;
                  Protection.entryPrice := pos_entryPrice position;
                  Protection.finalStopLoss := Some stop;
                  Protection.finalTakeProfit := None;
                  Protection.positionMode := mode |}), st').
Proof.
  intros Hsession Hfetch Hfind Hopen Htruthy.
  unfold Protection.prepare.
  unfold bind at 1, awaitBinanceInstance, ask. rewrite Hsession.
  unfold bind at 1, fetchPositions, ask. cbn [trace record Upkeep.trailingRequest
    Protection.symbol Protection.stopLoss Protection.takeProfit
    Protection.stopLossPercent Protection.takeProfitPercent].
  rewrite Hfetch, Hfind, Hopen.
  cbn [JS.truthyO]. rewrite Htruthy. cbn [negb andb].
  unfold bind at 1. cbn [ret].
  unfold bind at 1.
  match goal with
  | |- context [tryCatch ?m ?h ?s] =>
      destruct (total_tryCatch m h (fun e => total_ret tt) s) as (u & st1 & E)
  end.
  rewrite E.
  unfold bind at 1.
  destruct (getPositionMode_total ex st1) as (mode & st2 & E2). rewrite E2.
  exists mode, st2. reflexivity.
Qed.

Lemma create_refuses_stop_past_entry ex position symbol stop mode st :
  JS.truthy stop = true ->
  trailedPastEntry position stop = true ->
  Protection.create ex
    {| Protection.binanceSymbol := symbol;
       Protection.isLong := isLongPosition position;
       Protection.entryPrice := pos_entryPrice position;
       Protection.finalStopLoss := Some stop;
       Protection.finalTakeProfit := None;
       Protection.positionMode := mode |} st
  = (Ok (Protection.failure (pastEntryError position stop)), st).
Proof.
  intros Htruthy Hpast.
  unfold Protection.create, bind, Protection.createStopLoss.
  cbn [Protection.finalStopLoss Protection.isLong Protection.entryPrice].
  rewrite Htruthy.
  unfold trailedPastEntry in Hpast. unfold pastEntryError, isLongPosition.
  destruct (pos_side position); rewrite Hpast; reflexivity.
Qed.

Lemma removeFirstSlash_without_slash (s : string) :
  Str.includesSlash s = false -> Str.removeFirstSlash s = s.
Proof.
  induction s as [ | c rest IH]; simpl; [ reflexivity | ].
  destruct (Ascii.eqb c Str.slash); [ discriminate | ].
  intro H. rewrite (IH H). reflexivity.
Qed.

(** X12. A trailing stop cannot pass the entry price.  [updateTrailingStop]
    first cancels the protective orders of the symbol, stop-loss and
    take-profit alike, and then asks [setStopLossTakeProfit] for the new
    stop, which refuses a stop at or above the entry price of a long (at or
    below it for a short).  So for a position in profit whose trailing stop
    [mark * (1 -+ percent / 100)] has reached the entry price, the call
    ends with that refusal after the cancellations: no order is created,
    and the position is left with the protective orders cancelled. *)
Theorem updateTrailingStop_cannot_trail_past_the_entry :
  forall (ex : Exchange) (symbol : string) (trailingPercent : option number)
         (st : State) (positions : list Position) (position : Position),
    session ex = Ok tt ->
    (forall h, onFetchPositions ex h = Ok positions) ->
    Str.includesSlash symbol = true ->
    find (fun p => String.eqb (pos_symbol p) (Str.removeFirstSlash symbol)) positions
    = Some position ->
    JS.eqb (pos_contracts position) (JS.ofZ 0) = false ->
    JS.leb (pos_unrealizedPnl position) (JS.ofZ 0) = false ->
    let stop :=
      Upkeep.newStopLossOf (isLongPosition position) (pos_markPrice position)
        (match trailingPercent with Some p => p | None => JS.ofZ 2 end) in
    JS.truthy stop = true ->
    trailedPastEntry position stop = true ->
    let binanceSymbol := Str.removeFirstSlash symbol in
    exists (st' : State) (evs : list Event),
      Upkeep.updateTrailingStop ex symbol trailingPercent st
      = (Ok (Upkeep.failure (pastEntryError position stop)), st')
      /\ trace st'
         = trace st ++ [FetchPositions; GetBinanceInstance; OpenOrders binanceSymbol]
                    ++ cancellations binanceSymbol
                         (filter Protection.isSlTpType
                            (onOpenOrders ex (trace st ++ [FetchPositions; GetBinanceInstance])
                               binanceSymbol))
                    ++ evs
      /\ Forall cleanupEvent evs.
Proof.
  intros ex symbol pct st positions position Hsession Hfetch Hslash Hfind Hopen Hpnl
         stop Htruthy Hpast binanceSymbol.
  destruct (cancelStopLossTakeProfit_run ex symbol (record FetchPositions st) Hsession)
    as (n & st2 & Hcancel & Htrace2 & _).
  destruct (prepare_plans_the_stop ex symbol stop st2 positions position
              Hsession (Hfetch _) Hfind Hopen Htruthy) as (mode & st3 & Hprep).
  destruct (emits_extends _ _ _ _ _ (prepare_cleanup ex _) Hprep) as (evs & Htrace3 & Hevs).
  assert (Hset : Protection.setStopLossTakeProfit ex (Upkeep.trailingRequest symbol stop) st2
                 = (Ok (Protection.failure (pastEntryError position stop)), st3)).
  { rewrite (setStopLossTakeProfit_after_prepare
               ex (Upkeep.trailingRequest symbol stop) st2 _ st3 Hslash Hprep).
    apply create_refuses_stop_past_entry; assumption. }
  exists st3, evs. split; [ | split; [ | exact Hevs ] ].
  - unfold Upkeep.updateTrailingStop, tryCatch, bind, fetchPositions, ask.
    rewrite Hfetch, Hfind, Hopen, Hpnl.
    fold (isLongPosition position). fold stop.
    rewrite Hcancel, Hset. reflexivity.
  - rewrite Htrace3, Htrace2. cbn [trace record]. subst binanceSymbol.
    rewrite <- !app_assoc. reflexivity.
Qed.

Lemma updateTrailingStop_cannot_trail_past_the_entry_witness :
  let ex := Cases.holding Cases.btcLongInProfit
              [Scenario.staleStop; Cases.staleTarget; Cases.restingLimit] in
  let stop := Upkeep.newStopLossOf true (JS.ofZ 60000) (JS.ofZ 2) in
  exists (st' : State) (evs : list Event),
    Upkeep.updateTrailingStop ex "BTC/USDT" None Scenario.fresh
    = (Ok (Upkeep.failure (StopLossMustBeBelowEntry stop (JS.ofZ 50000))), st')
    /\ trace st'
       = [FetchPositions; GetBinanceInstance; OpenOrders "BTCUSDT";
          CancelOrder "BTCUSDT" 7; CancelOrder "BTCUSDT" 8] ++ evs
    /\ Forall cleanupEvent evs.
Proof.
  intros ex stop.
  apply (updateTrailingStop_cannot_trail_past_the_entry
           ex "BTC/USDT" None Scenario.fresh [Cases.btcLongInProfit] Cases.btcLongInProfit).
  - reflexivity.
  - intro h. reflexivity.
  - reflexivity.
  - reflexivity.
  - vm_compute. reflexivity.
  - vm_compute. reflexivity.
  - vm_compute. reflexivity.
  - vm_compute. reflexivity.
Defined.

(** X13. [updateTrailingStop] finds the position and cancels its
    protective orders under the exchange's symbol as well, and only then
    hands the symbol to [setStopLossTakeProfit], which wants a slash: for a
    position in profit named without a slash, the call ends with "Invalid
    symbol format" after the stop-loss and take-profit orders have been
    cancelled, and creates nothing in their place. *)
Theorem updateTrailingStop_cancels_before_it_checks_the_symbol :
  forall (ex : Exchange) (symbol : string) (trailingPercent : option number)
         (st : State) (positions : list Position) (position : Position),
    session ex = Ok tt ->
    onFetchPositions ex (trace st) = Ok positions ->
    Str.includesSlash symbol = false ->
    find (fun p => String.eqb (pos_symbol p) symbol) positions = Some position ->
    JS.eqb (pos_contracts position) (JS.ofZ 0) = false ->
    JS.leb (pos_unrealizedPnl position) (JS.ofZ 0) = false ->
    exists st' : State,
      Upkeep.updateTrailingStop ex symbol trailingPercent st
      = (Ok (Upkeep.failure InvalidSymbolFormat), st')
      /\ trace st'
         = trace st ++ [FetchPositions; GetBinanceInstance; OpenOrders symbol]
                    ++ cancellations symbol
                         (filter Protection.isSlTpType
                            (onOpenOrders ex (trace st ++ [FetchPositions; GetBinanceInstance])
                               symbol)).
Proof.
  intros ex symbol pct st positions position Hsession Hfetch Hslash Hfind Hopen Hpnl.
  destruct (cancelStopLossTakeProfit_run ex symbol (record FetchPositions st) Hsession)
    as (n & st2 & Hcancel & Htrace2 & _).
  rewrite (removeFirstSlash_without_slash _ Hslash) in Htrace2.
  exists st2. split.
  - unfold Upkeep.updateTrailingStop, tryCatch, bind, fetchPositions, ask.
    rewrite (removeFirstSlash_without_slash _ Hslash).
    rewrite Hfetch, Hfind, Hopen, Hpnl, Hcancel.
    rewrite setStopLossTakeProfit_without_slash by exact Hslash. reflexivity.
  - rewrite Htrace2. cbn [trace record]. rewrite <- !app_assoc. reflexivity.
Qed.

Lemma updateTrailingStop_cancels_before_it_checks_the_symbol_witness :
  exists st' : State,
    Upkeep.updateTrailingStop
      (Cases.holding Cases.btcLongInProfit
         [Scenario.staleStop; Cases.staleTarget; Cases.restingLimit])
      "BTCUSDT" None Scenario.fresh
    = (Ok (Upkeep.failure InvalidSymbolFormat), st')
    /\ trace st'
       = [FetchPositions; GetBinanceInstance; OpenOrders "BTCUSDT";
          CancelOrder "BTCUSDT" 7; CancelOrder "BTCUSDT" 8].
Proof.
  apply (updateTrailingStop_cancels_before_it_checks_the_symbol
           (Cases.holding Cases.btcLongInProfit
              [Scenario.staleStop; Cases.staleTarget; Cases.restingLimit])
           "BTCUSDT" None Scenario.fresh [Cases.btcLongInProfit] Cases.btcLongInProfit).
  - reflexivity.
  - reflexivity.
  - reflexivity.
  - reflexivity.
  - vm_compute. reflexivity.
  - vm_compute. reflexivity.
Defined.

(* ================================================================= *)
(** ** What the entry and the exit send *)

(** The footprint of a sequence, from the run of its first part. *)
Lemma emits_bind_run {A B} (P : Event -> Prop) (m : M A) (f : A -> M B) (st : State) :
  (exists evs, trace (snd (m st)) = trace st ++ evs /\ Forall P evs) ->
  (forall a st1, m st = (Ok a, st1) ->
                 exists evs, trace (snd (f a st1)) = trace st1 ++ evs /\ Forall P evs) ->
  exists evs, trace (snd (bind m f st)) = trace st ++ evs /\ Forall P evs.
Proof.
  intros (evs1 & Ht1 & Hall1) Hf. unfold bind.
  destruct (m st) as [[a | e] st1] eqn:E; simpl in *.
  - destruct (Hf a st1 eq_refl) as (evs2 & Ht2 & Hall2).
    exists (evs1 ++ evs2). rewrite Ht2, Ht1, app_assoc. split; [ reflexivity | ].
    apply Forall_app; auto.
  - exists evs1. auto.
Qed.

(** *** The exit *)

Lemma exit_submitAttempts_emits ex (P : Event -> Prop) order attempts lastError :
  P (NewOrder order) -> (forall ms, P (Sleep ms)) ->
  emits P (Exit.submitAttempts ex order attempts lastError).
Proof.
  intros Horder Hsleep.
  revert lastError. induction attempts as [ | attempt rest IH]; intro lastError; simpl.
  - footprint.
  - apply emits_bind.
    + apply emits_settle. unfold newOrder. apply emits_ask. exact Horder.
    + intros [data | e]; [ footprint | ].
      destruct (attempt <? 3); [ | footprint ].
      apply emits_bind; [ unfold sleep; apply emits_emit; apply Hsleep | intros _; apply IH ].
Qed.

Lemma exit_submit_emits ex (P : Event -> Prop) order :
  P (NewOrder order) -> (forall ms, P (Sleep ms)) -> emits P (Exit.submit ex order).
Proof.
  intros Horder Hsleep. unfold Exit.submit.
  apply emits_bind; [ apply exit_submitAttempts_emits; assumption | ].
  intros [[d | ] [e | ]]; footprint.
Qed.

Lemma amountAndSide_exit ex params symbol :
  emits exitEvent (Exit.amountAndSide ex params symbol).
Proof.
  unfold Exit.amountAndSide.
  destruct (if JS.truthyO (Exit.amount params) then _ else _); [ footprint | ].
  apply emits_tryCatch; [ | footprint ].
  apply emits_bind; [ unfold fetchPositions; footprint | intro positions ].
  destruct (find _ positions) as [position | ]; [ | footprint ].
  destruct (_ || _); footprint.
Qed.

Lemma prepare_exit ex params : emits exitEvent (Exit.prepare ex params).
Proof.
  unfold Exit.prepare, ensureTimeSync, awaitBinanceInstance.
  apply emits_bind; [ footprint | intros _ ].
  apply emits_bind; [ footprint | intros _ ].
  apply emits_bind; [ apply amountAndSide_exit | intros [early | [sellAmount side]] ];
    [ footprint | ].
  destruct (JS.leb sellAmount _); [ footprint | ].
  destruct (JS.eqb _ _); footprint.
Qed.

(** The order that reaches the submission is the exit order of the side
    settled before; that side is LONG when an amount was given. *)
Lemma prepare_order ex params st st' order :
  Exit.prepare ex params st = (Ok (inr order), st') ->
  exists side q,
    order = Exit.exitOrder (Str.removeFirstSlash (Exit.symbol params)) side q
              (Exit.price params)
    /\ (JS.truthyO (Exit.amount params) = true -> side = LONG).
Proof.
  unfold Exit.prepare. intro H.
  apply bind_run in H as [(e & _ & H) | (a & st1 & _ & H)]; [ discriminate | ].
  apply bind_run in H as [(e & _ & H) | (b & st2 & _ & H)]; [ discriminate | ].
  apply bind_run in H as [(e & _ & H) | (r & st3 & Hside & H)]; [ discriminate | ].
  destruct r as [early | [sellAmount side]]; [ discriminate | ].
  destruct (JS.leb sellAmount (JS.ofZ 0)); [ discriminate | ].
  destruct (JS.eqb _ _); [ discriminate | ].
  unfold ret in H. inversion H; subst. exists side. eexists.
  split; [ reflexivity | ].
  intro Hamount. unfold Exit.amountAndSide in Hside. rewrite Hamount in Hside.
  destruct (Exit.amount params) as [v | ]; [ | discriminate ].
  unfold ret in Hside. congruence.
Qed.

Lemma exitOrder_is_exit symbol side q price :
  exitEvent (NewOrder (Exit.exitOrder symbol side q price)).
Proof.
  simpl. split; [ destruct (JS.truthyO price); auto | ].
  split; [ reflexivity | split; reflexivity ].
Qed.

(** X14. [sell] can only reduce a position: every order it sends is a
    market or limit order with [reduceOnly] set, without a position side
    and without [closePosition]; besides, it awaits the session, syncs the
    clock, reads the positions and sleeps between attempts.  It never
    changes the leverage, never cancels an order and never sends a
    protective order. *)
Theorem sell_sends_reduce_only_orders :
  forall (ex : Exchange) (params : Exit.SellParams) (st : State),
  exists evs : list Event,
    trace (snd (Exit.sell ex params st)) = trace st ++ evs
    /\ Forall exitEvent evs.
Proof.
  intros ex params st. unfold Exit.sell.
  destruct (Exit.validate params); [ apply (emits_ret exitEvent) | ].
  revert st. apply emits_tryCatch; [ | footprint ].
  intro st. apply emits_bind_run; [ apply prepare_exit | ].
  intros [early | order] st1 Hprep; [ apply (emits_ret exitEvent) | ].
  destruct (prepare_order _ _ _ _ _ Hprep) as (side & q & -> & _).
  revert st1 Hprep. intros st1 _. revert st1.
  apply emits_bind; [ | footprint ].
  apply exit_submit_emits; [ apply exitOrder_is_exit | intro ms; exact I ].
Qed.

Lemma amountAndSide_blind ex params symbol :
  JS.truthyO (Exit.amount params) = true ->
  emits blindSellEvent (Exit.amountAndSide ex params symbol).
Proof.
  intro H. unfold Exit.amountAndSide. rewrite H.
  destruct (Exit.amount params); [ footprint | discriminate ].
Qed.

Lemma prepare_blind ex params :
  JS.truthyO (Exit.amount params) = true ->
  emits blindSellEvent (Exit.prepare ex params).
Proof.
  intro H. unfold Exit.prepare, ensureTimeSync, awaitBinanceInstance.
  apply emits_bind; [ footprint | intros _ ].
  apply emits_bind; [ footprint | intros _ ].
  apply emits_bind; [ apply amountAndSide_blind; exact H
                    | intros [early | [sellAmount side]] ];
    [ footprint | ].
  destruct (JS.leb sellAmount _); [ footprint | ].
  destruct (JS.eqb _ _); footprint.
Qed.

(** X15. Given an amount, [sell] does not look at the positions: it takes
    the position to be a long, so every order it sends is a SELL, also
    when the open position is a short, and the positions are never read. *)
Theorem sell_with_amount_sells_without_reading_the_position :
  forall (ex : Exchange) (params : Exit.SellParams) (st : State),
    JS.truthyO (Exit.amount params) = true ->
    exists evs : list Event,
      trace (snd (Exit.sell ex params st)) = trace st ++ evs
      /\ Forall blindSellEvent evs.
Proof.
  intros ex params st Hamount. unfold Exit.sell.
  destruct (Exit.validate params); [ apply (emits_ret blindSellEvent) | ].
  revert st. apply emits_tryCatch; [ | footprint ].
  intro st. apply emits_bind_run; [ apply prepare_blind; exact Hamount | ].
  intros [early | order] st1 Hprep; [ apply (emits_ret blindSellEvent) | ].
  destruct (prepare_order _ _ _ _ _ Hprep) as (side & q & -> & Hside).
  rewrite (Hside Hamount).
  revert st1 Hprep. intros st1 _. revert st1.
  apply emits_bind; [ | footprint ].
  apply exit_submit_emits; [ reflexivity | intro ms; exact I ].
Qed.

Lemma sell_with_amount_sells_without_reading_the_position_witness :
  exists evs : list Event,
    trace (snd (Exit.sell (Scenario.exchange true true []) Cases.sellAmountBtc
                  Scenario.fresh))
    = trace Scenario.fresh ++ evs
    /\ Forall blindSellEvent evs.
Proof.
  apply (sell_with_amount_sells_without_reading_the_position
           (Scenario.exchange true true []) Cases.sellAmountBtc Scenario.fresh).
  vm_compute. reflexivity.
Defined.

(** *** The entry *)

Lemma leb_not_gtb (x y : number) : JS.leb x y = true -> JS.gtb x y = false.
Proof. intro H. apply (geb_not_ltb y x). exact H. Qed.

Lemma validate_leverage_capped params :
  Entry.validate params = None -> JS.gtb (Entry.leverageOf params) (JS.ofZ 30) = false.
Proof.
  unfold Entry.validate.
  destruct (_ || _); [ discriminate | ].
  destruct (JS.leb _ _); [ discriminate | ].
  destruct (JS.ltb _ _); [ discriminate | ].
  destruct (JS.gtb _ _); [ discriminate | reflexivity ].
Qed.

Lemma sizeEntry_leverage_capped symbol binanceSymbol amount leverage currentPrice q l :
  JS.gtb leverage (JS.ofZ 30) = false ->
  Entry.sizeEntry symbol binanceSymbol amount leverage currentPrice = inr (q, l) ->
  JS.gtb l (JS.ofZ 30) = false.
Proof.
  intro Hlev. unfold Entry.sizeEntry.
  destruct (Entry.needsScaling amount binanceSymbol).
  - destruct (JS.leb _ Entry.MAX_SAFE_LEVERAGE && _) eqn:E; [ | discriminate ].
    apply andb_true_iff in E as [E1 _].
    destruct (_ || _); [ discriminate | ].
    intro H. inversion H; subst. apply leb_not_gtb. exact E1.
  - destruct (_ || _); [ discriminate | ].
    intro H. inversion H; subst. exact Hlev.
Qed.

Lemma entryEvent_capped q l ev :
  JS.gtb l (JS.ofZ 30) = false -> entryEvent q l ev -> leverageCapped ev.
Proof. intro Hl. destruct ev; simpl; try tauto. intros ->. exact Hl. Qed.

Lemma executeEvent_capped q l ev :
  JS.gtb l (JS.ofZ 30) = false -> executeEvent q l ev -> leverageCapped ev.
Proof.
  intros Hl [H | [H | H]].
  - eapply entryEvent_capped; eauto.
  - destruct ev; simpl in *; tauto.
  - destruct ev; simpl in *; tauto.
Qed.

Lemma zero_capped : JS.gtb (JS.ofZ 0) (JS.ofZ 30) = false.
Proof. reflexivity. Qed.

(** X16. [buy] never asks the exchange for a leverage above 30, whatever
    its arguments and whatever the exchange answers: the leverage given is
    checked against 30 before anything is sent, and the leverage raised for
    a small amount is capped at 30.  (A leverage that is NaN passes both
    checks and is sent as it is.) *)
Theorem buy_never_asks_for_leverage_above_30 :
  forall (ex : Exchange) (params : Entry.BuyParams) (st : State),
  exists evs : list Event,
    trace (snd (Entry.buy ex params st)) = trace st ++ evs
    /\ Forall leverageCapped evs.
Proof.
  intros ex params. change (emits leverageCapped (Entry.buy ex params)).
  unfold Entry.buy.
  destruct (Entry.validate params) eqn:Hvalid; [ footprint | ].
  apply emits_tryCatch; [ | footprint ].
  apply emits_bind.
  { apply emits_weaken with (P := entryEvent (JS.ofZ 0) (JS.ofZ 0));
      [ intro ev; apply entryEvent_capped, zero_capped | apply ensureTimeSync_entry ]. }
  intros _. apply emits_bind.
  { apply emits_weaken with (P := entryEvent (JS.ofZ 0) (JS.ofZ 0));
      [ intro ev; apply entryEvent_capped, zero_capped | apply awaitBinanceInstance_entry ]. }
  intros _. apply emits_bind.
  { apply emits_weaken with (P := entryEvent (JS.ofZ 0) (JS.ofZ 0));
      [ intro ev; apply entryEvent_capped, zero_capped | apply currentPriceOf_entry ]. }
  intro currentPrice.
  destruct (Entry.sizeEntry _ _ _ _ _) as [early | [q l]] eqn:Hsize; [ footprint | ].
  apply emits_weaken with (P := executeEvent q l); [ | apply execute_emits ].
  intro ev. apply executeEvent_capped.
  eapply sizeEntry_leverage_capped; [ | exact Hsize ].
  apply validate_leverage_capped. exact Hvalid.
Qed.

Lemma entryEvent_bare q l ev : entryEvent q l ev -> bareEntryEvent ev.
Proof. destruct ev; simpl; tauto. Qed.

(** X17. With [autoSetStopLoss: false], [buy] is the entry alone: it awaits
    the session, syncs the clock, reads the mark price and the position
    mode, sets the leverage and sends market or limit BUY orders; it reads
    no position, lists and cancels no order, and sends no protective
    order. *)
Theorem buy_without_auto_stop_loss_sends_the_entry_only :
  forall (ex : Exchange) (params : Entry.BuyParams) (st : State),
    Entry.autoSetStopLoss params = Some false ->
    exists evs : list Event,
      trace (snd (Entry.buy ex params st)) = trace st ++ evs
      /\ Forall bareEntryEvent evs.
Proof.
  intros ex params st Hauto. revert st.
  change (emits bareEntryEvent (Entry.buy ex params)).
  unfold Entry.buy.
  destruct (Entry.validate params); [ footprint | ].
  apply emits_tryCatch; [ | footprint ].
  apply emits_bind.
  { eapply emits_weaken; [ apply (entryEvent_bare JS.NaN JS.NaN) | apply ensureTimeSync_entry ]. }
  intros _. apply emits_bind.
  { eapply emits_weaken;
      [ apply (entryEvent_bare JS.NaN JS.NaN) | apply awaitBinanceInstance_entry ]. }
  intros _. apply emits_bind.
  { eapply emits_weaken; [ apply (entryEvent_bare JS.NaN JS.NaN) | apply currentPriceOf_entry ]. }
  intro currentPrice.
  destruct (Entry.sizeEntry _ _ _ _ _) as [early | [q l]]; [ footprint | ].
  unfold Entry.execute.
  destruct (if JS.truthyO (Entry.price params) then _ else _); [ footprint | ].
  apply emits_bind.
  { apply emits_weaken with (P := entryEvent q l); [ apply entryEvent_bare | ].
    unfold changeInitialLeverage. footprint. }
  intros _. apply emits_bind.
  { apply emits_weaken with (P := entryEvent q l); [ apply entryEvent_bare | ].
    apply getPositionMode_entry. }
  intro mode. apply emits_bind.
  { apply emits_weaken with (P := entryEvent q l); [ apply entryEvent_bare | ].
    apply submit_entry. }
  intro d. unfold Entry.protect, Entry.autoSetStopLossOf. rewrite Hauto. footprint.
Qed.

Lemma buy_without_auto_stop_loss_sends_the_entry_only_witness :
  exists evs : list Event,
    trace (snd (Entry.buy (Scenario.exchange true true []) Cases.buyBtcUnprotected
                  Scenario.fresh))
    = trace Scenario.fresh ++ evs
    /\ Forall bareEntryEvent evs.
Proof.
  apply (buy_without_auto_stop_loss_sends_the_entry_only
           (Scenario.exchange true true []) Cases.buyBtcUnprotected Scenario.fresh).
  reflexivity.
Defined.

(** *** Counting the orders *)

Lemma atMost_le {A} (n n' : nat) (m : M A) : (n <= n')%nat -> atMost n m -> atMost n' m.
Proof.
  intros Hle Hm st. destruct (Hm st) as (evs & Ht & Hn). exists evs. split; [ exact Ht | lia ].
Qed.

Lemma filter_none {A} (f : A -> bool) (l : list A) :
  Forall (fun x => f x = false) l -> filter f l = [].
Proof.
  induction 1 as [ | x l Hx _ IH]; simpl; [ reflexivity | ]. rewrite Hx. exact IH.
Qed.

Lemma atMost_emits {A} (m : M A) :
  emits (fun ev => isTradeOrder ev = false) m -> atMost 0 m.
Proof.
  intros Hm st. destruct (Hm st) as (evs & Ht & Hall). exists evs.
  split; [ exact Ht | ]. rewrite (filter_none _ _ Hall). simpl. lia.
Qed.

Lemma atMost_bind {A B} (n1 n2 : nat) (m : M A) (f : A -> M B) :
  atMost n1 m -> (forall a, atMost n2 (f a)) -> atMost (n1 + n2) (bind m f).
Proof.
  intros Hm Hf st. unfold bind. destruct (Hm st) as (evs1 & Ht1 & Hn1).
  destruct (m st) as [[a | e] st1]; simpl in *.
  - destruct (Hf a st1) as (evs2 & Ht2 & Hn2).
    exists (evs1 ++ evs2). rewrite Ht2, Ht1, app_assoc. split; [ reflexivity | ].
    rewrite filter_app, length_app. lia.
  - exists evs1. split; [ exact Ht1 | lia ].
Qed.

Lemma atMost_tryCatch_ret {A} (n : nat) (m : M A) (h : JsError -> A) :
  atMost n m -> atMost n (tryCatch m (fun e => ret (h e))).
Proof.
  intros Hm st. unfold tryCatch. destruct (Hm st) as (evs & Ht & Hn).
  destruct (m st) as [[a | e] st1]; simpl in *; exists evs; auto.
Qed.

Ltac orderless := apply atMost_emits; footprint.

Lemma entry_submit_atMost ex order : atMost 3 (Entry.submit ex order).
Proof.
  intro st.
  unfold Entry.submit, Entry.submitAttempts, bind, settle, newOrder, ask, sleep, emit.
  destruct (onNewOrder ex (trace st) order) as [d1 | e1].
  { exists [NewOrder order]. destruct d1; simpl;
      (split; [ reflexivity | destruct (o_type order); simpl; lia ]). }
  cbn [Z.ltb Z.compare Pos.compare Pos.compare_cont trace record].
  destruct (onNewOrder ex _ order) as [d2 | e2].
  { exists [NewOrder order; Sleep (1 * 3000); NewOrder order]. destruct d2; simpl;
      (split; [ rewrite <- !app_assoc; reflexivity
              | destruct (o_type order); simpl; lia ]). }
  cbn [Z.ltb Z.compare Pos.compare Pos.compare_cont trace record].
  destruct (onNewOrder ex _ order) as [d3 | e3].
  { exists [NewOrder order; Sleep (1 * 3000); NewOrder order; Sleep (2 * 3000);
            NewOrder order].
    destruct d3; simpl;
      (split; [ rewrite <- !app_assoc; reflexivity
              | destruct (o_type order); simpl; lia ]). }
  exists [NewOrder order; Sleep (1 * 3000); NewOrder order; Sleep (2 * 3000);
          NewOrder order].
  simpl. split; [ rewrite <- !app_assoc; reflexivity
                | destruct (o_type order); simpl; lia ].
Qed.

Lemma exit_submit_atMost ex order : atMost 3 (Exit.submit ex order).
Proof.
  intro st.
  unfold Exit.submit, Exit.submitAttempts, bind, settle, newOrder, ask, sleep, emit.
  destruct (onNewOrder ex (trace st) order) as [d1 | e1].
  { exists [NewOrder order]. destruct d1; simpl;
      (split; [ reflexivity | destruct (o_type order); simpl; lia ]). }
  cbn [Z.ltb Z.compare Pos.compare Pos.compare_cont trace record].
  destruct (onNewOrder ex _ order) as [d2 | e2].
  { exists [NewOrder order; Sleep (1 * 2000); NewOrder order]. destruct d2; simpl;
      (split; [ rewrite <- !app_assoc; reflexivity
              | destruct (o_type order); simpl; lia ]). }
  cbn [Z.ltb Z.compare Pos.compare Pos.compare_cont trace record].
  destruct (onNewOrder ex _ order) as [d3 | e3].
  { exists [NewOrder order; Sleep (1 * 2000); NewOrder order; Sleep (2 * 2000);
            NewOrder order].
    destruct d3; simpl;
      (split; [ rewrite <- !app_assoc; reflexivity
              | destruct (o_type order); simpl; lia ]). }
  exists [NewOrder order; Sleep (1 * 2000); NewOrder order; Sleep (2 * 2000);
          NewOrder order].
  simpl. split; [ rewrite <- !app_assoc; reflexivity
                | destruct (o_type order); simpl; lia ].
Qed.

Lemma protection_is_no_trade ev : protectionEvent ev \/ isWarn ev -> isTradeOrder ev = false.
Proof.
  destruct ev; simpl; try tauto; try reflexivity.
  intros [[H | H] | []]; rewrite H; reflexivity.
Qed.

Lemma entry_getPositionMode_emits ex (P : Event -> Prop) :
  P GetBinanceInstance -> P SyncServerTime -> P QueryPositionMode ->
  emits P (Entry.getPositionMode ex).
Proof.
  intros H1 H2 H3 st. unfold Entry.getPositionMode.
  destruct (modeCacheEntry st) as [m | ].
  - exists []. simpl. rewrite app_nil_r. auto.
  - revert st.
    change (emits P
              (tryCatch
                 (awaitBinanceInstance ex ;;; ensureTimeSync ex ;;;
                  m <- queryPositionMode ex ;; Entry.setCache m ;;; ret m)
                 (fun _ => Entry.setCache ONE_WAY ;;; ret ONE_WAY))).
    unfold ensureTimeSync, awaitBinanceInstance, queryPositionMode.
    footprint; apply setCache_entry_emits.
Qed.

Lemma execute_atMost ex params symbol q l : atMost 3 (Entry.execute ex params symbol q l).
Proof.
  unfold Entry.execute.
  destruct (if JS.truthyO (Entry.price params) then _ else _);
    [ apply (atMost_le 0); [ lia | orderless ] | ].
  apply (atMost_bind 0 3); [ unfold changeInitialLeverage; orderless | intros _ ].
  apply (atMost_bind 0 3).
  { apply atMost_emits. apply entry_getPositionMode_emits; reflexivity. }
  intro mode. apply (atMost_bind 3 0); [ apply entry_submit_atMost | intro d ].
  apply (atMost_bind 0 0); [ | intros _; orderless ].
  apply atMost_emits. eapply emits_weaken; [ | apply protect_emits ].
  apply protection_is_no_trade.
Qed.

Lemma amountAndSide_orderless ex params symbol :
  emits (fun ev => isTradeOrder ev = false) (Exit.amountAndSide ex params symbol).
Proof.
  unfold Exit.amountAndSide.
  destruct (if JS.truthyO (Exit.amount params) then _ else _); [ footprint | ].
  apply emits_tryCatch; [ | footprint ].
  apply emits_bind; [ unfold fetchPositions; footprint | intro positions ].
  destruct (find _ positions) as [position | ]; [ | footprint ].
  destruct (_ || _); footprint.
Qed.

Lemma exit_prepare_orderless ex params :
  emits (fun ev => isTradeOrder ev = false) (Exit.prepare ex params).
Proof.
  unfold Exit.prepare, ensureTimeSync, awaitBinanceInstance.
  apply emits_bind; [ footprint | intros _ ].
  apply emits_bind; [ footprint | intros _ ].
  apply emits_bind; [ apply amountAndSide_orderless | intros [early | [sellAmount side]] ];
    [ footprint | ].
  destruct (JS.leb sellAmount _); [ footprint | ].
  destruct (JS.eqb _ _); footprint.
Qed.

(** X18. [buy] and [sell] send their market or limit order at most three
    times in a call, whatever the exchange answers: the three attempts of
    the submission loop are the only place where such an order is sent, and
    neither the preliminaries nor the protection that follows an entry send
    one. *)
Theorem buy_and_sell_send_their_order_at_most_three_times :
  forall ex : Exchange,
    (forall (params : Entry.BuyParams) (st : State),
        exists evs : list Event,
          trace (snd (Entry.buy ex params st)) = trace st ++ evs
          /\ (List.length (filter isTradeOrder evs) <= 3)%nat)
    /\ (forall (params : Exit.SellParams) (st : State),
           exists evs : list Event,
             trace (snd (Exit.sell ex params st)) = trace st ++ evs
             /\ (List.length (filter isTradeOrder evs) <= 3)%nat).
Proof.
  intro ex. split; intro params.
  - change (atMost 3 (Entry.buy ex params)). unfold Entry.buy.
    destruct (Entry.validate params); [ apply (atMost_le 0); [ lia | orderless ] | ].
    apply atMost_tryCatch_ret.
    apply (atMost_bind 0 3); [ unfold ensureTimeSync, awaitBinanceInstance; orderless | ].
    intros _. apply (atMost_bind 0 3); [ unfold awaitBinanceInstance; orderless | ].
    intros _. apply (atMost_bind 0 3).
    { apply atMost_emits. unfold Entry.currentPriceOf, markPrice.
      destruct (Entry.price params) as [p | ]; [ destruct (JS.truthy p) | ]; footprint. }
    intro currentPrice.
    destruct (Entry.sizeEntry _ _ _ _ _) as [early | [q l]];
      [ apply (atMost_le 0); [ lia | orderless ] | apply execute_atMost ].
  - change (atMost 3 (Exit.sell ex params)). unfold Exit.sell.
    destruct (Exit.validate params); [ apply (atMost_le 0); [ lia | orderless ] | ].
    apply atMost_tryCatch_ret.
    apply (atMost_bind 0 3); [ apply atMost_emits, exit_prepare_orderless | ].
    intros [early | order]; [ apply (atMost_le 0); [ lia | orderless ] | ].
    apply (atMost_bind 3 0); [ apply exit_submit_atMost | intro d; orderless ].
Qed.

(* ================================================================= *)
(** ** The cached position mode *)

(** *** Relations kept along a run *)

Section Preserving.

Variable R : State -> State -> Prop.
Hypothesis R_refl : forall st, R st st.
Hypothesis R_trans : forall a b c, R a b -> R b c -> R a c.
Hypothesis R_record : forall ev st, R st (record ev st).

Lemma preserves_ret {A} (a : A) : preserves R (ret a).
Proof. intro st. apply R_refl. Qed.

Lemma preserves_throw {A} (e : JsError) : preserves R (@throw A e).
Proof. intro st. apply R_refl. Qed.

Lemma preserves_bind {A B} (m : M A) (f : A -> M B) :
  preserves R m -> (forall a, preserves R (f a)) -> preserves R (bind m f).
Proof.
  intros Hm Hf st. unfold bind. specialize (Hm st).
  destruct (m st) as [[a | e] st1]; simpl in *; [ | exact Hm ].
  eapply R_trans; [ exact Hm | apply Hf ].
Qed.

Lemma preserves_tryCatch {A} (m : M A) (h : JsError -> M A) :
  preserves R m -> (forall e, preserves R (h e)) -> preserves R (tryCatch m h).
Proof.
  intros Hm Hh st. unfold tryCatch. specialize (Hm st).
  destruct (m st) as [[a | e] st1]; simpl in *; [ exact Hm | ].
  eapply R_trans; [ exact Hm | apply Hh ].
Qed.

Lemma preserves_settle {A} (m : M A) : preserves R m -> preserves R (settle m).
Proof.
  intros Hm st. unfold settle. specialize (Hm st). destruct (m st) as [r st1]. exact Hm.
Qed.

Lemma preserves_ask {A} (ev : Event) (answer : list Event -> outcome A) :
  preserves R (ask ev answer).
Proof. intro st. apply R_record. Qed.

Lemma preserves_emit (ev : Event) : preserves R (emit ev).
Proof. intro st. apply R_record. Qed.

End Preserving.

Lemma modeKept_refl st : modeKept st st.
Proof. split; auto. Qed.

Lemma modeKept_trans a b c : modeKept a b -> modeKept b c -> modeKept a c.
Proof. intros [H1 H2] [H3 H4]. split; auto. Qed.

Lemma modeKept_record ev st : modeKept st (record ev st).
Proof. split; auto. Qed.

Lemma sameEntryMode_trans a b c : sameEntryMode a b -> sameEntryMode b c -> sameEntryMode a c.
Proof. unfold sameEntryMode. congruence. Qed.

Lemma sameProtectionMode_trans a b c :
  sameProtectionMode a b -> sameProtectionMode b c -> sameProtectionMode a c.
Proof. unfold sameProtectionMode. congruence. Qed.

(** The steps of a computation that keeps the cached modes. *)
Ltac keeping :=
  repeat first
    [ apply (preserves_ret modeKept modeKept_refl)
    | apply (preserves_throw modeKept modeKept_refl)
    | apply (preserves_ask modeKept modeKept_record)
    | apply (preserves_emit modeKept modeKept_record)
    | apply (preserves_settle modeKept)
    | apply (preserves_bind modeKept modeKept_trans); [ | intro ]
    | apply (preserves_tryCatch modeKept modeKept_trans); [ | intro ]
    | progress intros ].

(** *** The two lookups *)

Lemma protection_getPositionMode_run ex st :
  exists mode st',
    Protection.getPositionMode ex st = (Ok mode, st')
    /\ modeCacheProtection st' = Some mode
    /\ modeCacheEntry st' = modeCacheEntry st
    /\ (forall m, modeCacheProtection st = Some m -> mode = m /\ st' = st)
    /\ (modeCacheProtection st = None ->
        (exists e, session ex = Thrown e) -> mode = ONE_WAY).
Proof.
  unfold Protection.getPositionMode.
  destruct (modeCacheProtection st) as [m | ] eqn:Hcache.
  - exists m, st. split; [ reflexivity | ]. split; [ exact Hcache | ].
    split; [ reflexivity | ]. split; [ intros m' H; inversion H; auto | discriminate ].
  - unfold tryCatch, bind, awaitBinanceInstance, queryPositionMode, ask, Protection.setCache,
      ret.
    destruct (session ex) as [u | e]; cbn [trace record modeCacheEntry].
    + eexists. eexists. split; [ reflexivity | ]. split; [ reflexivity | ].
      split; [ reflexivity | ]. split; [ discriminate | ].
      intros _ [e He]. discriminate.
    + eexists. eexists. split; [ reflexivity | ]. split; [ reflexivity | ].
      split; [ reflexivity | ]. split; [ discriminate | reflexivity ].
Qed.

Lemma entry_getPositionMode_run ex st :
  exists mode st',
    Entry.getPositionMode ex st = (Ok mode, st')
    /\ modeCacheEntry st' = Some mode
    /\ modeCacheProtection st' = modeCacheProtection st
    /\ (forall m, modeCacheEntry st = Some m -> mode = m /\ st' = st)
    /\ (modeCacheEntry st = None ->
        (exists e, session ex = Thrown e) -> mode = ONE_WAY).
Proof.
  unfold Entry.getPositionMode.
  destruct (modeCacheEntry st) as [m | ] eqn:Hcache.
  - exists m, st. split; [ reflexivity | ]. split; [ exact Hcache | ].
    split; [ reflexivity | ]. split; [ intros m' H; inversion H; auto | discriminate ].
  - unfold tryCatch, bind, ensureTimeSync, awaitBinanceInstance, queryPositionMode, ask,
      emit, Entry.setCache, ret.
    destruct (session ex) as [u | e]; cbn [trace record modeCacheProtection].
    + eexists. eexists. split; [ reflexivity | ]. split; [ reflexivity | ].
      split; [ reflexivity | ]. split; [ discriminate | ].
      intros _ [e He]. discriminate.
    + eexists. eexists. split; [ reflexivity | ]. split; [ reflexivity | ].
      split; [ reflexivity | ]. split; [ discriminate | reflexivity ].
Qed.

Lemma protection_getPositionMode_keeps ex : keepsMode (Protection.getPositionMode ex).
Proof.
  intro st.
  destruct (protection_getPositionMode_run ex st) as (mode & st' & E & Hp & He & Hc & _).
  rewrite E. cbn [snd]. split.
  - intros m Hm. rewrite He. exact Hm.
  - intros m Hm. destruct (Hc m Hm) as [-> _]. exact Hp.
Qed.

Lemma entry_getPositionMode_keeps ex : keepsMode (Entry.getPositionMode ex).
Proof.
  intro st.
  destruct (entry_getPositionMode_run ex st) as (mode & st' & E & He & Hp & Hc & _).
  rewrite E. cbn [snd]. split.
  - intros m Hm. destruct (Hc m Hm) as [-> _]. exact He.
  - intros m Hm. rewrite Hp. exact Hm.
Qed.

(** *** The operations *)

Lemma cancelEach_keeps ex symbol orders count :
  keepsMode (Protection.cancelEach ex symbol orders count).
Proof.
  revert count. induction orders as [ | order rest IH]; intro count; simpl.
  - keeping.
  - unfold cancelOrder. keeping. apply IH.
Qed.

Lemma setStopLossTakeProfit_keeps ex params :
  keepsMode (Protection.setStopLossTakeProfit ex params).
Proof.
  unfold Protection.setStopLossTakeProfit.
  destruct (_ || _); [ keeping | ].
  apply (preserves_tryCatch modeKept modeKept_trans); [ | keeping ].
  apply (preserves_bind modeKept modeKept_trans).
  - unfold Protection.prepare, awaitBinanceInstance, fetchPositions.
    apply (preserves_bind modeKept modeKept_trans); [ keeping | intros _ ].
    apply (preserves_bind modeKept modeKept_trans); [ keeping | intro positions ].
    destruct (find _ positions) as [position | ]; [ | keeping ].
    destruct (JS.eqb _ _); [ keeping | ].
    apply (preserves_bind modeKept modeKept_trans).
    + match goal with |- preserves _ (if ?c then _ else _) => destruct c end;
        [ | keeping ].
      apply (preserves_tryCatch modeKept modeKept_trans); [ | keeping ].
      unfold getCurrentMarketState.
      apply (preserves_bind modeKept modeKept_trans); [ keeping | intro ms ].
      destruct (Protection.percentsFromATR ms _). keeping.
    + intros [sl tp].
      apply (preserves_bind modeKept modeKept_trans).
      * apply (preserves_tryCatch modeKept modeKept_trans); [ | keeping ].
        apply (preserves_bind modeKept modeKept_trans).
        -- unfold Protection.cancelStopLossTakeProfitForPosition, awaitBinanceInstance,
             openOrders.
           apply (preserves_tryCatch modeKept modeKept_trans); [ | keeping ].
           apply (preserves_bind modeKept modeKept_trans); [ keeping | intros _ ].
           apply (preserves_bind modeKept modeKept_trans);
             [ apply protection_getPositionMode_keeps | intro mode ].
           apply (preserves_bind modeKept modeKept_trans); [ keeping | intro orders ].
           match goal with |- preserves _ (match ?l with _ => _ end) => destruct l end;
             [ keeping | ].
           apply (preserves_bind modeKept modeKept_trans);
             [ apply cancelEach_keeps | keeping ].
        -- intro c. destruct (0 <? _); unfold sleep; keeping.
      * intros _. apply (preserves_bind modeKept modeKept_trans);
          [ apply protection_getPositionMode_keeps | keeping ].
  - intros [early | plan]; [ keeping | ].
    unfold Protection.create, Protection.createStopLoss, Protection.createTakeProfit,
      newOrder.
    apply (preserves_bind modeKept modeKept_trans).
    + destruct (Protection.finalStopLoss plan) as [stop | ]; [ | keeping ].
      destruct (JS.truthy stop); [ | keeping ].
      destruct (_ && _); [ keeping | ].
      destruct (_ && _); [ keeping | ].
      apply (preserves_tryCatch modeKept modeKept_trans); [ | keeping ].
      apply (preserves_bind modeKept modeKept_trans); [ keeping | intros [d | ]; keeping ].
    + intros [early | slId]; [ keeping | ].
      apply (preserves_bind modeKept modeKept_trans).
      * destruct (Protection.finalTakeProfit plan) as [target | ]; [ | keeping ].
        destruct (JS.truthy target); [ | keeping ].
        destruct (_ && _); [ keeping | ].
        destruct (_ && _); [ keeping | ].
        apply (preserves_tryCatch modeKept modeKept_trans); [ | keeping ].
        apply (preserves_bind modeKept modeKept_trans); [ keeping | intros [d | ]; keeping ].
      * intros [early | tpId]; keeping.
Qed.

Lemma entry_submitAttempts_keeps ex order attempts lastError :
  keepsMode (Entry.submitAttempts ex order attempts lastError).
Proof.
  revert lastError. induction attempts as [ | attempt rest IH]; intro lastError; simpl.
  - keeping.
  - unfold newOrder, sleep.
    apply (preserves_bind modeKept modeKept_trans); [ keeping | intros [data | e] ];
      [ keeping | ].
    destruct (attempt <? 3); [ | keeping ].
    apply (preserves_bind modeKept modeKept_trans); [ keeping | intros _; apply IH ].
Qed.

Lemma protectAttempts_keeps ex params attempts :
  keepsMode (Entry.protectAttempts ex params attempts).
Proof.
  induction attempts as [ | attempt rest IH]; simpl.
  - keeping.
  - apply (preserves_bind modeKept modeKept_trans);
      [ apply (preserves_settle modeKept), setStopLossTakeProfit_keeps | intros [res | e] ].
    + destruct (Protection.success res); [ keeping | ].
      apply (preserves_bind modeKept modeKept_trans); [ | intros _; exact IH ].
      unfold Entry.protectionBackoff, sleep. destruct (attempt <? 3); keeping.
    + apply (preserves_bind modeKept modeKept_trans); [ | intros _; exact IH ].
      unfold Entry.protectionBackoff, sleep. destruct (attempt <? 3); keeping.
Qed.

Lemma buy_keeps ex params : keepsMode (Entry.buy ex params).
Proof.
  unfold Entry.buy.
  destruct (Entry.validate params); [ keeping | ].
  apply (preserves_tryCatch modeKept modeKept_trans); [ | keeping ].
  unfold ensureTimeSync, awaitBinanceInstance.
  apply (preserves_bind modeKept modeKept_trans); [ keeping | intros _ ].
  apply (preserves_bind modeKept modeKept_trans); [ keeping | intros _ ].
  apply (preserves_bind modeKept modeKept_trans).
  { unfold Entry.currentPriceOf, markPrice.
    destruct (Entry.price params) as [p | ]; [ destruct (JS.truthy p) | ]; keeping. }
  intro currentPrice.
  destruct (Entry.sizeEntry _ _ _ _ _) as [early | [q l]]; [ keeping | ].
  unfold Entry.execute.
  destruct (if JS.truthyO (Entry.price params) then _ else _); [ keeping | ].
  apply (preserves_bind modeKept modeKept_trans);
    [ unfold changeInitialLeverage; keeping | intros _ ].
  apply (preserves_bind modeKept modeKept_trans);
    [ apply entry_getPositionMode_keeps | intro mode ].
  apply (preserves_bind modeKept modeKept_trans).
  { unfold Entry.submit.
    apply (preserves_bind modeKept modeKept_trans);
      [ apply entry_submitAttempts_keeps | intros [[d | ] [e | ]]; keeping ]. }
  intro d. apply (preserves_bind modeKept modeKept_trans); [ | keeping ].
  unfold Entry.protect. destruct (Entry.autoSetStopLossOf params); [ | keeping ].
  unfold sleep.
  apply (preserves_bind modeKept modeKept_trans); [ keeping | intros _ ].
  apply (preserves_bind modeKept modeKept_trans);
    [ apply protectAttempts_keeps | intros [ | ]; keeping ].
Qed.

Lemma exit_submitAttempts_keeps ex order attempts lastError :
  keepsMode (Exit.submitAttempts ex order attempts lastError).
Proof.
  revert lastError. induction attempts as [ | attempt rest IH]; intro lastError; simpl.
  - keeping.
  - unfold newOrder, sleep.
    apply (preserves_bind modeKept modeKept_trans); [ keeping | intros [data | e] ];
      [ keeping | ].
    destruct (attempt <? 3); [ | keeping ].
    apply (preserves_bind modeKept modeKept_trans); [ keeping | intros _; apply IH ].
Qed.

Lemma sell_keeps ex params : keepsMode (Exit.sell ex params).
Proof.
  unfold Exit.sell.
  destruct (Exit.validate params); [ keeping | ].
  apply (preserves_tryCatch modeKept modeKept_trans); [ | keeping ].
  apply (preserves_bind modeKept modeKept_trans).
  - unfold Exit.prepare, ensureTimeSync, awaitBinanceInstance.
    apply (preserves_bind modeKept modeKept_trans); [ keeping | intros _ ].
    apply (preserves_bind modeKept modeKept_trans); [ keeping | intros _ ].
    apply (preserves_bind modeKept modeKept_trans).
    + unfold Exit.amountAndSide, fetchPositions.
      destruct (if JS.truthyO (Exit.amount params) then _ else _); [ keeping | ].
      apply (preserves_tryCatch modeKept modeKept_trans); [ | keeping ].
      apply (preserves_bind modeKept modeKept_trans); [ keeping | intro positions ].
      destruct (find _ positions) as [position | ]; [ | keeping ].
      destruct (_ || _); keeping.
    + intros [early | [sellAmount side]]; [ keeping | ].
      destruct (JS.leb sellAmount _); [ keeping | ].
      destruct (JS.eqb _ _); keeping.
  - intros [early | order]; [ keeping | ].
    apply (preserves_bind modeKept modeKept_trans); [ | keeping ].
    unfold Exit.submit.
    apply (preserves_bind modeKept modeKept_trans);
      [ apply exit_submitAttempts_keeps | intros [[d | ] [e | ]]; keeping ].
Qed.

Lemma updateTrailingStop_keeps ex symbol pct :
  keepsMode (Upkeep.updateTrailingStop ex symbol pct).
Proof.
  unfold Upkeep.updateTrailingStop, fetchPositions.
  apply (preserves_tryCatch modeKept modeKept_trans); [ | keeping ].
  apply (preserves_bind modeKept modeKept_trans); [ keeping | intro positions ].
  destruct (find _ positions) as [position | ]; [ | keeping ].
  destruct (JS.eqb _ _); [ keeping | ].
  destruct (JS.leb _ _); [ keeping | ].
  apply (preserves_bind modeKept modeKept_trans).
  - unfold Upkeep.cancelStopLossTakeProfit, awaitBinanceInstance, openOrders.
    apply (preserves_tryCatch modeKept modeKept_trans); [ | keeping ].
    apply (preserves_bind modeKept modeKept_trans); [ keeping | intros _ ].
    apply (preserves_bind modeKept modeKept_trans); [ keeping | intro orders ].
    apply (preserves_bind modeKept modeKept_trans); [ apply cancelEach_keeps | keeping ].
  - intros _.
    apply (preserves_bind modeKept modeKept_trans);
      [ apply setStopLossTakeProfit_keeps | intro result ].
    destruct (Protection.success result); keeping.
Qed.

(** X19. The position mode is looked up once.  Each of the two modules
    that place orders caches the mode at its first lookup, also when the
    lookup failed, in which case ONE_WAY is what it caches; from then on
    [getPositionMode] answers from the cache without asking the exchange,
    and neither [buy], [sell], [setStopLossTakeProfit] nor
    [updateTrailingStop] ever resets or changes a cached mode.  A change of
    the account's mode on the exchange is therefore not seen by later
    orders. *)
Theorem position_mode_is_looked_up_once :
  forall ex : Exchange,
    (forall st : State,
        exists (mode : PositionMode) (st' : State),
          Protection.getPositionMode ex st = (Ok mode, st')
          /\ modeCacheProtection st' = Some mode
          /\ (forall ex' : Exchange, Protection.getPositionMode ex' st' = (Ok mode, st'))
          /\ (modeCacheProtection st = None ->
              (exists e, session ex = Thrown e) -> mode = ONE_WAY))
    /\ (forall st : State,
           exists (mode : PositionMode) (st' : State),
             Entry.getPositionMode ex st = (Ok mode, st')
             /\ modeCacheEntry st' = Some mode
             /\ (forall ex' : Exchange, Entry.getPositionMode ex' st' = (Ok mode, st'))
             /\ (modeCacheEntry st = None ->
                 (exists e, session ex = Thrown e) -> mode = ONE_WAY))
    /\ (forall params, keepsMode (Entry.buy ex params))
    /\ (forall params, keepsMode (Exit.sell ex params))
    /\ (forall params, keepsMode (Protection.setStopLossTakeProfit ex params))
    /\ (forall symbol trailingPercent,
           keepsMode (Upkeep.updateTrailingStop ex symbol trailingPercent)).
Proof.
  intro ex. split; [ | split; [ | split; [ | split; [ | split ] ] ] ].
  - intro st.
    destruct (protection_getPositionMode_run ex st) as (mode & st' & E & Hp & _ & _ & Hf).
    exists mode, st'. split; [ exact E | ]. split; [ exact Hp | ]. split; [ | exact Hf ].
    intro ex'. unfold Protection.getPositionMode. rewrite Hp. reflexivity.
  - intro st.
    destruct (entry_getPositionMode_run ex st) as (mode & st' & E & He & _ & _ & Hf).
    exists mode, st'. split; [ exact E | ]. split; [ exact He | ]. split; [ | exact Hf ].
    intro ex'. unfold Entry.getPositionMode. rewrite He. reflexivity.
  - apply buy_keeps.
  - apply sell_keeps.
  - apply setStopLossTakeProfit_keeps.
  - apply updateTrailingStop_keeps.
Qed.

(** X20. The clean-up that precedes a new protection cancels the
    protective orders of the position only: with a session, it lists the
    open orders of the symbol once and asks for the cancellation of the
    stop-market and take-profit-market orders among them, under dual-side
    mode of those of the position's side only, each once and in the order
    listed; the mode is the cached one, looked up first when none is
    cached.  [canceledCount] is at most the number of these orders. *)
Theorem cancelStopLossTakeProfitForPosition_cancels_the_position_s_orders :
  forall (ex : Exchange) (symbol : string) (side : PositionSide) (st : State),
    session ex = Ok tt ->
    exists (mode : PositionMode) (lookup : list Event) (n : Z) (st' : State),
      let history := trace st ++ [GetBinanceInstance] ++ lookup in
      let selected := filter (selectedFor mode side) (onOpenOrders ex history symbol) in
      Protection.cancelStopLossTakeProfitForPosition ex symbol side st
      = (Ok {| Protection.c_success := true;
               Protection.canceledCount := n;
               Protection.c_error := None |}, st')
      /\ modeCacheProtection st' = Some mode
      /\ (forall m, modeCacheProtection st = Some m -> mode = m /\ lookup = [])
      /\ (modeCacheProtection st = None -> lookup = [GetBinanceInstance; QueryPositionMode])
      /\ trace st' = history ++ [OpenOrders symbol] ++ cancellations symbol selected
      /\ 0 <= n <= Z.of_nat (List.length selected).
Proof.
  intros ex symbol side st Hsession.
  set (st1 := record GetBinanceInstance st).
  destruct (protection_getPositionMode_run ex st1) as (mode & st2 & Emode & Hp & _ & Hc & _).
  assert (Hlookup : exists lookup,
             trace st2 = trace st1 ++ lookup
             /\ (forall m, modeCacheProtection st = Some m -> mode = m /\ lookup = [])
             /\ (modeCacheProtection st = None ->
                 lookup = [GetBinanceInstance; QueryPositionMode])).
  { destruct (modeCacheProtection st) as [m | ] eqn:Hcache.
    - exists []. destruct (Hc m Hcache) as [-> ->]. rewrite app_nil_r.
      split; [ reflexivity | ]. split; [ intros m' H; inversion H; auto | discriminate ].
    - exists [GetBinanceInstance; QueryPositionMode].
      split; [ | split; [ discriminate | reflexivity ] ].
      unfold Protection.getPositionMode in Emode.
      change (modeCacheProtection st1) with (modeCacheProtection st) in Emode.
      rewrite Hcache in Emode.
      unfold tryCatch, bind, awaitBinanceInstance, queryPositionMode, ask,
        Protection.setCache, ret in Emode.
      rewrite Hsession in Emode. inversion Emode; subst. simpl.
      rewrite <- !app_assoc. reflexivity. }
  destruct Hlookup as (lookup & Htrace2 & Hcached & Hfresh).
  remember (filter (selectedFor mode side) (onOpenOrders ex (trace st2) symbol))
    as selected eqn:Eselected.
  destruct (cancelEach_run ex symbol selected 0 (record (OpenOrders symbol) st2))
    as (n & st3 & Hrun & Htrace3 & Hn & _).
  assert (Hcache3 : modeCacheProtection st3 = Some mode).
  { pose proof (cancelEach_keeps ex symbol selected 0 (record (OpenOrders symbol) st2))
      as [_ Hk].
    rewrite Hrun in Hk. apply Hk. exact Hp. }
  assert (Hhistory : trace st2 = trace st ++ [GetBinanceInstance] ++ lookup).
  { rewrite Htrace2. subst st1. simpl. rewrite <- app_assoc. reflexivity. }
  assert (Hsel : forall orders,
             match mode with
             | DUAL_SIDE =>
                 filter (fun order => Protection.isSlTpType order
                                      && String.eqb (oo_positionSide order)
                                                    (Protection.sideText side)) orders
             | ONE_WAY => filter Protection.isSlTpType orders
             end = filter (selectedFor mode side) orders).
  { intro orders. destruct mode; reflexivity. }
  assert (Hbody :
    Protection.cancelStopLossTakeProfitForPosition ex symbol side st
    = match selected with
      | [] => (Ok {| Protection.c_success := true; Protection.canceledCount := 0;
                     Protection.c_error := None |}, record (OpenOrders symbol) st2)
      | _ => (Ok {| Protection.c_success := true; Protection.canceledCount := n;
                    Protection.c_error := None |}, st3)
      end).
  { unfold Protection.cancelStopLossTakeProfitForPosition, tryCatch, bind at 1,
      awaitBinanceInstance, ask.
    rewrite Hsession. fold st1. unfold bind at 1. rewrite Emode.
    unfold bind at 1, openOrders, ask. rewrite Hsel, <- Eselected.
    destruct selected as [ | order rest]; [ reflexivity | ].
    unfold bind. rewrite Hrun. reflexivity. }
  destruct selected as [ | order rest].
  - exists mode, lookup, 0, (record (OpenOrders symbol) st2). cbv zeta.
    rewrite <- Hhistory, <- Eselected.
    split; [ exact Hbody | ].
    split; [ exact Hp | split; [ exact Hcached | split; [ exact Hfresh | ] ] ].
    split; [ reflexivity | simpl; lia ].
  - exists mode, lookup, n, st3. cbv zeta.
    rewrite <- Hhistory, <- Eselected.
    split; [ exact Hbody | ].
    split; [ exact Hcache3 | split; [ exact Hcached | split; [ exact Hfresh | ] ] ].
    split; [ rewrite Htrace3; simpl; rewrite <- !app_assoc; reflexivity | lia ].
Qed.

Lemma cancelStopLossTakeProfitForPosition_cancels_the_position_s_orders_witness :
  exists (mode : PositionMode) (lookup : list Event) (n : Z) (st' : State),
    Protection.cancelStopLossTakeProfitForPosition
      (Cases.holding Cases.btcLongInProfit
         [Scenario.staleStop; Cases.staleTarget; Cases.restingLimit])
      "BTCUSDT" LONG Scenario.fresh
    = (Ok {| Protection.c_success := true;
             Protection.canceledCount := n;
             Protection.c_error := None |}, st')
    /\ trace st'
       = ([] ++ [GetBinanceInstance] ++ lookup)
         ++ [OpenOrders "BTCUSDT"]
         ++ cancellations "BTCUSDT"
              (filter (selectedFor mode LONG)
                 [Scenario.staleStop; Cases.staleTarget; Cases.restingLimit]).
Proof.
  destruct (cancelStopLossTakeProfitForPosition_cancels_the_position_s_orders
              (Cases.holding Cases.btcLongInProfit
                 [Scenario.staleStop; Cases.staleTarget; Cases.restingLimit])
              "BTCUSDT" LONG Scenario.fresh eq_refl)
    as (mode & lookup & n & st' & Hrun & _ & _ & _ & Htrace & _).
  exists mode, lookup, n, st'. split; [ exact Hrun | exact Htrace ].
Defined.

(* ================================================================= *)
(** ** The clock *)

(** X21. [syncServerTime] asks for the server time at most three times,
    waiting 1000 ms after a first failure and 2000 ms after a second.  The
    first answer it gets sets the offset to
    [floor(serverTime - (now + latency / 2))] and ends the call.  After
    three failures the offset is reset to 0, whatever it was before: an
    offset obtained by an earlier, successful synchronisation is discarded
    and the local time is used. *)
Theorem syncServerTime_tries_three_times_then_uses_local_time :
  forall (answer : list Clock.Event -> option Clock.Reading) (st : Clock.State),
    let st' := Clock.syncServerTime answer st in
    let second := Clock.log st ++ [Clock.TimeRequest; Clock.Wait 1000] in
    let third := second ++ [Clock.TimeRequest; Clock.Wait 2000] in
    match answer (Clock.log st), answer second, answer third with
    | Some reading, _, _ =>
        Clock.serverTimeOffset st' = Clock.offsetOf reading
        /\ Clock.log st' = Clock.log st ++ [Clock.TimeRequest]
    | None, Some reading, _ =>
        Clock.serverTimeOffset st' = Clock.offsetOf reading
        /\ Clock.log st' = second ++ [Clock.TimeRequest]
    | None, None, Some reading =>
        Clock.serverTimeOffset st' = Clock.offsetOf reading
        /\ Clock.log st' = third ++ [Clock.TimeRequest]
    | None, None, None =>
        Clock.serverTimeOffset st' = JS.ofZ 0
        /\ Clock.log st' = third ++ [Clock.TimeRequest]
        /\ forall dateNow,
             Clock.getAdjustedTimestamp dateNow st' = JS.floor (JS.add dateNow (JS.ofZ 0))
    end.
Proof.
  intros answer st st' second third.
  assert (Hrun :
    st' = match answer (Clock.log st) with
          | Some reading =>
              {| Clock.serverTimeOffset := Clock.offsetOf reading;
                 Clock.log := Clock.log st ++ [Clock.TimeRequest] |}
          | None =>
              match answer second with
              | Some reading =>
                  {| Clock.serverTimeOffset := Clock.offsetOf reading;
                     Clock.log := second ++ [Clock.TimeRequest] |}
              | None =>
                  match answer third with
                  | Some reading =>
                      {| Clock.serverTimeOffset := Clock.offsetOf reading;
                         Clock.log := third ++ [Clock.TimeRequest] |}
                  | None =>
                      {| Clock.serverTimeOffset := JS.ofZ 0;
                         Clock.log := third ++ [Clock.TimeRequest] |}
                  end
              end
          end).
  { subst st' second third. unfold Clock.syncServerTime. cbn [Clock.syncAttempts].
    cbn [Z.ltb Z.compare Pos.compare Pos.compare_cont Clock.log Clock.serverTimeOffset
           Z.mul Pos.mul].
    rewrite <- !app_assoc. cbn [app]. reflexivity. }
  rewrite Hrun.
  destruct (answer (Clock.log st)); [ split; reflexivity | ].
  destruct (answer second); [ split; reflexivity | ].
  destruct (answer third); [ split; reflexivity | ].
  split; [ reflexivity | ]. split; [ reflexivity | ]. intro dateNow. reflexivity.
Qed.

(* ================================================================= *)
(** ** The retries of the market data *)

Lemma requests_app (a b : list Market.Event) :
  Market.requests (a ++ b) = Market.requests a + Market.requests b.
Proof. unfold Market.requests. rewrite filter_app, length_app. lia. Qed.

Lemma waited_app (a b : list Market.Event) :
  Market.waited (a ++ b) = Market.waited a + Market.waited b.
Proof.
  induction a as [ | ev a IH]; simpl; [ reflexivity | ].
  destruct ev; rewrite IH; lia.
Qed.

(** One call of [fetchJson]: one to five requests, at most 15 s of waiting;
    five requests and 15 s when it fails. *)
Lemma fetchJson_bounds {J} (server : Market.Server J) (paths : list string)
  (log_ : list Market.Event) :
  exists evs,
    snd (Market.fetchJson server paths log_) = log_ ++ evs
    /\ 1 <= Market.requests evs <= 5
    /\ Market.waited evs <= 15000
    /\ (forall e, fst (Market.fetchJson server paths log_) = Thrown e ->
                  Market.requests evs = 5 /\ Market.waited evs = 15000).
Proof.
  unfold Market.fetchJson. set (url := hd EmptyString paths).
  cbn [Market.fetchAttempts].
  destruct (server log_) as [j | e1].
  { exists [Market.Fetch url]. cbn [fst snd].
    split; [ reflexivity | ]. split; [ vm_compute; split; discriminate | ].
    split; [ vm_compute; discriminate | discriminate ]. }
  cbn [Z.ltb Z.compare Pos.compare Pos.compare_cont].
  destruct (server _) as [j | e2].
  { exists [Market.Fetch url; Market.Wait (Market.delayOf 1); Market.Fetch url].
    cbn [fst snd]. split; [ rewrite <- !app_assoc; reflexivity | ].
    split; [ vm_compute; split; discriminate | ].
    split; [ vm_compute; discriminate | discriminate ]. }
  cbn [Z.ltb Z.compare Pos.compare Pos.compare_cont].
  destruct (server _) as [j | e3].
  { exists [Market.Fetch url; Market.Wait (Market.delayOf 1); Market.Fetch url;
            Market.Wait (Market.delayOf 2); Market.Fetch url].
    cbn [fst snd]. split; [ rewrite <- !app_assoc; reflexivity | ].
    split; [ vm_compute; split; discriminate | ].
    split; [ vm_compute; discriminate | discriminate ]. }
  cbn [Z.ltb Z.compare Pos.compare Pos.compare_cont].
  destruct (server _) as [j | e4].
  { exists [Market.Fetch url; Market.Wait (Market.delayOf 1); Market.Fetch url;
            Market.Wait (Market.delayOf 2); Market.Fetch url;
            Market.Wait (Market.delayOf 3); Market.Fetch url].
    cbn [fst snd]. split; [ rewrite <- !app_assoc; reflexivity | ].
    split; [ vm_compute; split; discriminate | ].
    split; [ vm_compute; discriminate | discriminate ]. }
  cbn [Z.ltb Z.compare Pos.compare Pos.compare_cont].
  exists [Market.Fetch url; Market.Wait (Market.delayOf 1); Market.Fetch url;
          Market.Wait (Market.delayOf 2); Market.Fetch url;
          Market.Wait (Market.delayOf 3); Market.Fetch url;
          Market.Wait (Market.delayOf 4); Market.Fetch url].
  destruct (server _) as [j | e5]; cbn [fst snd];
    (split; [ rewrite <- !app_assoc; reflexivity | ]);
    (split; [ vm_compute; split; discriminate | ]);
    (split; [ vm_compute; discriminate | ]).
  - discriminate.
  - intros e _. split; reflexivity.
Qed.

(** The retried function: [fetchJson], then [read]. *)
Lemma attempt_bounds {J A} (server : Market.Server J) (paths : list string)
  (read : J -> outcome A) (log_ : list Market.Event) :
  exists r evs,
    match Market.fetchJson server paths log_ with
    | (Ok json, log1) => (read json, log1)
    | (Thrown e, log1) => (Thrown e, log1)
    end = (r, log_ ++ evs)
    /\ 1 <= Market.requests evs <= 5
    /\ Market.waited evs <= 15000
    /\ ((forall h, exists e, server h = Thrown e) ->
        (exists e, r = Thrown e) /\ Market.requests evs = 5 /\ Market.waited evs = 15000).
Proof.
  destruct (fetchJson_bounds server paths log_) as (evs & Hlog & Hreq & Hwait & Hfail).
  destruct (Market.fetchJson server paths log_) as [[json | e] log1] eqn:E;
    cbn [fst snd] in *; subst log1.
  - exists (read json), evs. split; [ reflexivity | ]. split; [ exact Hreq | ].
    split; [ exact Hwait | ]. intro Hdown. exfalso.
    (* a server that always fails cannot have answered *)
    revert E. unfold Market.fetchJson. cbn [Market.fetchAttempts].
    repeat match goal with
           | |- context [server ?h] =>
               let e := fresh "e" in
               let He := fresh "He" in
               destruct (Hdown h) as [e He]; rewrite He; clear He
           end.
    discriminate.
  - exists (Thrown e), evs. split; [ reflexivity | ]. split; [ exact Hreq | ].
    split; [ exact Hwait | ]. intros _. destruct (Hfail e eq_refl) as [H1 H2].
    split; [ exists e; reflexivity | split; assumption ].
Qed.

(** X22. One resource of the market state (the candles of an interval, the
    open interest, the funding rate) costs at most 15 requests and at most
    46.5 s of waiting between them, beside the time-outs: [fetchJson] tries
    the first URL five times, waiting 1, 2, 4 and 8 s, and [withRetry]
    calls it up to three times, waiting 0.5 s and 1 s.  When every request
    fails, the error is thrown after exactly 15 requests and 46.5 s of
    waiting. *)
Theorem market_resource_costs_at_most_fifteen_requests :
  forall (J A : Type) (server : Market.Server J) (paths : list string)
         (read : J -> outcome A) (log_ : list Market.Event),
  exists evs : list Market.Event,
    snd (Market.fetchResource server paths read log_) = log_ ++ evs
    /\ 1 <= Market.requests evs <= 15
    /\ Market.waited evs <= 46500
    /\ ((forall h, exists e, server h = Thrown e) ->
        (exists e, fst (Market.fetchResource server paths read log_) = Thrown e)
        /\ Market.requests evs = 15
        /\ Market.waited evs = 46500).
Proof.
  intros J A server paths read log_.
  unfold Market.fetchResource. cbn [Market.withRetry].
  destruct (attempt_bounds server paths read log_) as (r1 & evs1 & E1 & Hr1 & Hw1 & Hd1).
  rewrite E1. destruct r1 as [a | err1].
  { exists evs1. cbn [fst snd]. split; [ reflexivity | ]. split; [ lia | ].
    split; [ lia | ]. intro Hdown. destruct (Hd1 Hdown) as ([e He] & _). discriminate. }
  destruct (attempt_bounds server paths read ((log_ ++ evs1) ++ [Market.Wait 500]))
    as (r2 & evs2 & E2 & Hr2 & Hw2 & Hd2).
  rewrite E2. destruct r2 as [a | err2].
  { exists (evs1 ++ [Market.Wait 500] ++ evs2). cbn [fst snd].
    split; [ rewrite <- !app_assoc; reflexivity | ].
    rewrite !requests_app, !waited_app.
    change (Market.requests [Market.Wait 500]) with 0.
    change (Market.waited [Market.Wait 500]) with 500.
    split; [ lia | ]. split; [ lia | ].
    intro Hdown. destruct (Hd2 Hdown) as ([e He] & _). discriminate. }
  destruct (attempt_bounds server paths read
              ((((log_ ++ evs1) ++ [Market.Wait 500]) ++ evs2) ++ [Market.Wait (500 * 2)]))
    as (r3 & evs3 & E3 & Hr3 & Hw3 & Hd3).
  rewrite E3.
  exists (evs1 ++ [Market.Wait 500] ++ evs2 ++ [Market.Wait (500 * 2)] ++ evs3).
  assert (Hlog : snd (match r3 with
                      | Ok a => (Ok a, ((((log_ ++ evs1) ++ [Market.Wait 500]) ++ evs2)
                                         ++ [Market.Wait (500 * 2)]) ++ evs3)
                      | Thrown err =>
                          (Thrown err, ((((log_ ++ evs1) ++ [Market.Wait 500]) ++ evs2)
                                          ++ [Market.Wait (500 * 2)]) ++ evs3)
                      end)
                 = log_ ++ evs1 ++ [Market.Wait 500] ++ evs2
                        ++ [Market.Wait (500 * 2)] ++ evs3).
  { destruct r3; cbn [snd]; rewrite <- !app_assoc; reflexivity. }
  split; [ exact Hlog | ].
  rewrite !requests_app, !waited_app.
  change (Market.requests [Market.Wait 500]) with 0.
  change (Market.waited [Market.Wait 500]) with 500.
  change (Market.requests [Market.Wait (500 * 2)]) with 0.
  change (Market.waited [Market.Wait (500 * 2)]) with 1000.
  split; [ lia | ]. split; [ lia | ].
  intro Hdown.
  destruct (Hd1 Hdown) as (_ & Hq1 & Ht1).
  destruct (Hd2 Hdown) as (_ & Hq2 & Ht2).
  destruct (Hd3 Hdown) as ([e He] & Hq3 & Ht3).
  split; [ exists e; rewrite He; reflexivity | ]. split; lia.
Qed.
